(** * A digital pet: needs, personality and the alive/dead state machine

    Shallow embedding of [pet.py] (classes [Needs], [Personality], [Pet] and
    [AdvancedPet]) and the properties of its state machine.

    Modelling conventions.
    - Python [int] is [Z]; [max]/[min] on ints are [Z.max]/[Z.min].
    - Python [float] is IEEE binary64.  A finite float is the rational it
      denotes, a [Q]; every arithmetic operation computes the exact result and
      rounds it to the nearest binary64 value, ties to even ([Py.fl]), as the
      hardware does; comparisons and [int(x)], truncation toward zero, are
      exact.  Infinities and NaN have no counterpart: the weights are within
      0..1 after the constructor and the clock readings are finite and far
      below 2^1024, so no operation of the program overflows.
    - [str] is [string], a sequence of bytes; [str.lower] is modelled on the
      ASCII letters, which is what it does on names written in ASCII.
    - The trait dictionary is a [gmap string Q].
    - [print] is modelled by the list of lines a call writes.
    - [random.random()], [random.randint] and [time.time()] are the only
      external inputs; every call takes the values it draws as arguments.
    - A method returns the object as the call leaves it; the one call that
      can end in an exception, [treat_disease], returns an [outcome].
    - [AdvancedPet] is a record that holds the inherited [Pet] part and its
      own two fields; [super] runs a [Pet] method on the inherited part. *)

From Stdlib Require Import ZArith QArith Qround Qpower Lia Lqa Ascii String List Bool.
From stdpp Require Import gmap strings list fin_maps pretty.

Local Open Scope Z_scope.
Local Open Scope string_scope.

(** ** Python primitives *)

Module Py.

(** [min(a, b)] on floats: the first argument unless the second is smaller. *)
Definition min (a b : Q) : Q := if Qlt_le_dec b a then b else a.

(** [max(a, b)] on floats: the first argument unless the second is larger. *)
Definition max (a b : Q) : Q := if Qlt_le_dec a b then b else a.

(** [s.isascii()]: every character of [s] is below 128.  On such a string
    [str.lower] changes the letters A-Z only, as [lower] does. *)
Definition isascii (s : string) : bool :=
  forallb (fun c => (nat_of_ascii c <? 128)%nat) (list_ascii_of_string s).

(** *** binary64 arithmetic *)

(** [2^e], for any integer [e]. *)
Definition pow2 (e : Z) : Q := (2 ^ e)%Q.

(** The exponent of the binade of a positive [x]: the [e] with
    [2^e <= x < 2^(e+1)]. *)
Definition ilog2 (x : Q) : Z :=
  let e0 := Z.log2 (Qnum x) - Z.log2 (Z.pos (Qden x)) in
  if Qle_bool (pow2 e0) x then e0 else e0 - 1.

(** Rounding to the nearest integer, ties to the even one. *)
Definition rne (q : Q) : Z :=
  let f := Qfloor q in
  match Qcompare (q - inject_Z f) (1 # 2) with
  | Lt => f
  | Gt => f + 1
  | Eq => if Z.even f then f else f + 1
  end.

(** The exponent of the spacing of the binary64 values around a positive
    [x]: 53 significant bits, and [2^-1074] for the subnormal values. *)
Definition quantum (x : Q) : Z := Z.max (ilog2 x - 52) (-1074).

Definition fl_pos (x : Q) : Q :=
  (inject_Z (rne (x / pow2 (quantum x))) * pow2 (quantum x))%Q.

(** The binary64 value nearest to [x], ties to even. *)
Definition fl (x : Q) : Q :=
  match Qcompare x 0 with
  | Eq => 0%Q
  | Gt => fl_pos x
  | Lt => (- fl_pos (- x))%Q
  end.

(** A float literal such as [0.7]: the binary64 value nearest to the decimal. *)
Definition float (x : Q) : Q := fl x.

(** [a + b], [a - b], [a * b] and [a / b] on floats; an [int] operand is
    converted exactly. *)
Definition add (a b : Q) : Q := fl (a + b).
Definition sub (a b : Q) : Q := fl (a - b).
Definition mul (a b : Q) : Q := fl (a * b).
Definition div (a b : Q) : Q := fl (a / b).

(** [int(x)] on a float: truncation toward zero. *)
Definition int (x : Q) : Z := Z.quot (Qnum x) (Z.pos (Qden x)).

(** [a < b] on floats, as a boolean. *)
Definition lt (a b : Q) : bool := if Qlt_le_dec a b then true else false.

(** [a >= b] on floats, as a boolean. *)
Definition ge (a b : Q) : bool := if Qlt_le_dec a b then false else true.

(** [c.lower()] on one character: the letters A-Z are folded; a byte from
    128 on, part of a character outside ASCII, is left as it is. *)
Definition lower_ascii (c : ascii) : ascii :=
  let n := nat_of_ascii c in
  if (Nat.leb 65 n && Nat.leb n 90)%bool then ascii_of_nat (n + 32) else c.

(** [s.lower()], for a string of ASCII characters ([isascii]).  Names that
    [lower] maps to the same string are mapped to the same string by
    [str.lower] on any input. *)
Fixpoint lower (s : string) : string :=
  match s with
  | EmptyString => EmptyString
  | String c s' => String (lower_ascii c) (lower s')
  end.

(** [x in l] on a list of strings. *)
Definition contains (x : string) (l : list string) : bool :=
  existsb (String.eqb x) l.

(** [x.lower() in [t.lower() for t in l]]. *)
Definition known (x : string) (l : list string) : bool :=
  contains (lower x) (map lower l).

(** [l.remove(x)]: drops the first element equal to [x]; [None] stands for
    the [ValueError] Python raises when there is none. *)
Fixpoint remove (x : string) (l : list string) : option (list string) :=
  match l with
  | [] => None
  | y :: l' =>
      if String.eqb y x then Some l'
      else match remove x l' with
           | Some r => Some (y :: r)
           | None => None
           end
  end.

(** [random.randint(lo, hi)]: an integer of [lo..hi], here computed from the
    raw value [k] the generator supplies. *)
Definition randint (lo hi k : Z) : Z := lo + k mod (hi - lo + 1).

(** [", ".join(l)]. *)
Fixpoint join (l : list string) : string :=
  match l with
  | [] => ""
  | [x] => x
  | x :: l' => x ++ ", " ++ join l'
  end.

(** [str(n)] for the small non-negative integers the status lines show. *)
Definition show (n : Z) : string := pretty n.

End Py.

(** ** class Needs *)

Module Needs.

Record t := mk {
  _hunger : Z;
  _energy : Z;
  _happiness : Z
}.

Definition init (initial_hunger initial_energy initial_happiness : Z) : t :=
  {| _hunger := Z.max 0 (Z.min 10 initial_hunger);
     _energy := Z.max 0 (Z.min 10 initial_energy);
     _happiness := Z.max 0 (Z.min 10 initial_happiness) |}.

Definition hunger (n : t) : Z := _hunger n.
Definition energy (n : t) : Z := _energy n.
Definition happiness (n : t) : Z := _happiness n.

Definition set_hunger (value : Z) (n : t) : t :=
  {| _hunger := Z.max 0 (Z.min 10 value);
     _energy := _energy n;
     _happiness := _happiness n |}.

Definition set_energy (value : Z) (n : t) : t :=
  {| _hunger := _hunger n;
     _energy := Z.max 0 (Z.min 10 value);
     _happiness := _happiness n |}.

Definition set_happiness (value : Z) (n : t) : t :=
  {| _hunger := _hunger n;
     _energy := _energy n;
     _happiness := Z.max 0 (Z.min 10 value) |}.

Definition str (n : t) : string :=
  "Hunger: " ++ Py.show (hunger n) ++ "/10, Energy: " ++ Py.show (energy n)
  ++ "/10, Happiness: " ++ Py.show (happiness n) ++ "/10".

End Needs.

(** ** class Personality *)

Module Personality.

Record t := mk {
  name : string;
  traits : gmap string Q
}.

Definition init (name : string) (traits : gmap string Q) : t :=
  {| name := name;
     traits := (fun value => Py.max 0 (Py.min 1 value)) <$> traits |}.

Definition get_trait_influence (self : t) (trait : string) : Q :=
  default (1 # 2)%Q (traits self !! trait).

End Personality.

(** ** class Pet *)

Module Pet.

(** A write on [pet.needs] through one of the three property setters. *)
Inductive write :=
| WriteHunger (value : Z)
| WriteEnergy (value : Z)
| WriteHappiness (value : Z).

(** A mood modifier is external code of shape [(Pet) -> None].  It is
    represented by the writes it performs on [pet.needs] through the property
    setters, as a function of the needs it finds. *)
Definition modifier := Needs.t -> list write.

Record t := mk {
  name : string;
  species : string;
  needs : Needs.t;
  tricks : list string;
  personality : Personality.t;
  _is_alive : bool;
  _last_interaction : Q;
  _mood_modifiers : list modifier
}.

(** Field assignments [self.f = v]. *)
Definition with_needs (n : Needs.t) (self : t) : t :=
  mk (name self) (species self) n (tricks self) (personality self)
     (_is_alive self) (_last_interaction self) (_mood_modifiers self).

Definition with_tricks (l : list string) (self : t) : t :=
  mk (name self) (species self) (needs self) l (personality self)
     (_is_alive self) (_last_interaction self) (_mood_modifiers self).

Definition with_is_alive (b : bool) (self : t) : t :=
  mk (name self) (species self) (needs self) (tricks self) (personality self)
     b (_last_interaction self) (_mood_modifiers self).

Definition with_last_interaction (now : Q) (self : t) : t :=
  mk (name self) (species self) (needs self) (tricks self) (personality self)
     (_is_alive self) now (_mood_modifiers self).

Definition with_mood_modifiers (l : list modifier) (self : t) : t :=
  mk (name self) (species self) (needs self) (tricks self) (personality self)
     (_is_alive self) (_last_interaction self) l.

(** [self.needs.hunger = v] and its two siblings. *)
Definition set_hunger (v : Z) (self : t) : t :=
  with_needs (Needs.set_hunger v (needs self)) self.
Definition set_energy (v : Z) (self : t) : t :=
  with_needs (Needs.set_energy v (needs self)) self.
Definition set_happiness (v : Z) (self : t) : t :=
  with_needs (Needs.set_happiness v (needs self)) self.

Definition hunger (self : t) : Z := Needs.hunger (needs self).
Definition energy (self : t) : Z := Needs.energy (needs self).
Definition happiness (self : t) : Z := Needs.happiness (needs self).

Definition influence (self : t) (trait : string) : Q :=
  Personality.get_trait_influence (personality self) trait.

(** [Pet(name, species, initial_hunger, initial_energy, initial_happiness,
    personality_traits)]; [now] is the reading of [time.time()]. *)
Definition init (name species : string)
    (initial_hunger initial_energy initial_happiness : Z)
    (personality_traits : option (gmap string Q)) (now : Q) : t :=
  {| name := name;
     species := species;
     needs := Needs.init initial_hunger initial_energy initial_happiness;
     tricks := [];
     personality :=
       Personality.init (name ++ "'s Personality")
         (match personality_traits with Some m => m | None => ∅ end);
     _is_alive := true;
     _last_interaction := now;
     _mood_modifiers := [] |}.

(** The lines the methods print. *)
Definition msg_cannot (self : t) (what : string) : string :=
  name self ++ " is no longer with us and cannot " ++ what ++ ".".
Definition msg_passed_away (self : t) : string :=
  name self ++ " has passed away.".
Definition msg_neglect (self : t) : string :=
  name self ++ " has passed away due to neglect.".
Definition msg_learned (self : t) (trick : string) : string :=
  name self ++ " learned the trick '" ++ trick ++ "'!".
Definition msg_struggled (self : t) (trick : string) : string :=
  name self ++ " struggled to learn '" ++ trick ++ "'. Try again later!".
Definition msg_already_knows (self : t) (trick : string) : string :=
  name self ++ " already knows the trick '" ++ trick ++ "'.".
Definition msg_no_tricks (self : t) : string :=
  name self ++ " hasn't learned any tricks yet.".

Definition eat (now : Q) (self : t) : t * list string :=
  if negb (_is_alive self) then (self, [msg_cannot self "eat"])
  else
    let hunger_reduction := Py.sub 3 (Py.mul 1 (influence self "pickiness")) in
    let self := set_hunger (Z.max 0 (hunger self - Py.int hunger_reduction)) self in
    let happiness_increase :=
      Py.add 1 (Py.mul (Py.float (5 # 10)) (influence self "joyfulness")) in
    let self := set_happiness (Z.min 10 (happiness self + Py.int happiness_increase)) self in
    let self := with_last_interaction now self in
    (self, [name self ++ " is eating..."]).

Definition sleep (now : Q) (self : t) : t * list string :=
  if negb (_is_alive self) then (self, [msg_cannot self "sleep"])
  else
    let energy_increase := Py.add 5 (Py.mul 2 (influence self "laziness")) in
    let self := set_energy (Z.min 10 (energy self + Py.int energy_increase)) self in
    let self := with_last_interaction now self in
    (self, [name self ++ " is sleeping..."]).

Definition play (now : Q) (self : t) : t * list string :=
  if negb (_is_alive self) then (self, [msg_cannot self "play"])
  else
    let energy_decrease :=
      Py.add 2 (Py.mul 1 (Py.sub 1 (influence self "playfulness"))) in
    let self := set_energy (Z.max 0 (energy self - Py.int energy_decrease)) self in
    let happiness_increase :=
      Py.add 2 (Py.mul (Py.float (8 # 10)) (influence self "playfulness")) in
    let self := set_happiness (Z.min 10 (happiness self + Py.int happiness_increase)) self in
    let hunger_increase :=
      Py.add 1 (Py.mul (Py.float (3 # 10)) (Py.sub 1 (influence self "fussiness"))) in
    let self := set_hunger (Z.min 10 (hunger self + Py.int hunger_increase)) self in
    let self := with_last_interaction now self in
    (self, [name self ++ " is playing!"]).

Definition get_status (self : t) : t * list string :=
  if negb (_is_alive self) then (self, [msg_passed_away self])
  else
    (self,
     [ "--- " ++ name self ++ " (" ++ species self ++ ") ---";
       Needs.str (needs self);
       match tricks self with
       | [] => msg_no_tricks self
       | _ => "Tricks learned: " ++ Py.join (tricks self)
       end ]).

(** [u] is the value of [random.random()], [now] the one of [time.time()];
    both are read only on the path that calls them. *)
Definition train (trick : string) (u now : Q) (self : t) : t * list string :=
  if negb (_is_alive self) then (self, [msg_cannot self "learn any new tricks"])
  else if negb (Py.known trick (tricks self)) then
    let success_chance :=
      Py.add (Py.float (6 # 10))
        (Py.mul (Py.float (3 # 10)) (influence self "trainability")) in
    let '(self, out) :=
      if Py.lt u success_chance then
        let self := with_tricks (tricks self ++ [trick]) self in
        let out := [msg_learned self trick] in
        let self := set_happiness (Z.min 10 (happiness self + 2)) self in
        (self, out)
      else (self, [msg_struggled self trick]) in
    (with_last_interaction now self, out)
  else (self, [msg_already_knows self trick]).

Definition show_tricks (self : t) : t * list string :=
  if negb (_is_alive self) then (self, [msg_cannot self "show any tricks"])
  else
    (self,
     [ match tricks self with
       | [] => msg_no_tricks self
       | _ => name self ++ " knows the following tricks: " ++ Py.join (tricks self)
       end ]).

Definition add_mood_modifier (m : modifier) (self : t) : t :=
  with_mood_modifiers (_mood_modifiers self ++ [m]) self.

Definition apply_write (w : write) (self : t) : t :=
  match w with
  | WriteHunger v => set_hunger v self
  | WriteEnergy v => set_energy v self
  | WriteHappiness v => set_happiness v self
  end.

(** [modifier(self)]. *)
Definition call_modifier (m : modifier) (self : t) : t :=
  fold_left (fun s w => apply_write w s) (m (needs self)) self.

(** The loop iterates over the list as it stands when the loop starts; the
    modelled modifiers do not register further modifiers. *)
Definition update_mood (self : t) : t :=
  fold_left (fun s m => call_modifier m s) (_mood_modifiers self) self.

(** [now1] and [now2] are the two readings of [time.time()], in program
    order. *)
Definition time_passes (seconds : Z) (now1 now2 : Q) (self : t) : t * list string :=
  if negb (_is_alive self) then (self, [])
  else
    let time_elapsed := Py.sub now1 (_last_interaction self) in
    if Py.ge time_elapsed (inject_Z seconds) then
      let hunger_increase :=
        Py.int (Py.div time_elapsed
                  (Py.div 3600 (Py.add 3 (Py.mul 2 (influence self "metabolism"))))) in
      let energy_decrease :=
        Py.int (Py.div time_elapsed
                  (Py.div 7200 (Py.add 5 (Py.mul 3 (influence self "activity"))))) in
      let happiness_decrease :=
        Py.int (Py.div time_elapsed
                  (Py.div 10800 (Py.add 2 (Py.mul 1 (influence self "sociability"))))) in
      let self := set_hunger (Z.min 10 (hunger self + hunger_increase)) self in
      let self := set_energy (Z.max 0 (energy self - energy_decrease)) self in
      let self := set_happiness (Z.max 0 (happiness self - happiness_decrease)) self in
      let self := with_last_interaction now2 self in
      if ((10 <=? hunger self) || (energy self <=? 0) || (happiness self <=? 0))%Z
      then (with_is_alive false self, [msg_neglect self])
      else (self, [])
    else (self, []).

Definition is_alive (self : t) : bool := _is_alive self.

(** *** Sequences of calls on a [Pet]

    One constructor per public operation, carrying the arguments of the call
    and the values the call reads from the clock and the random generator. *)
Inductive op :=
| Eat (now : Q)
| Sleep (now : Q)
| Play (now : Q)
| GetStatus
| Train (trick : string) (u now : Q)
| ShowTricks
| AddMoodModifier (m : modifier)
| UpdateMood
| TimePasses (seconds : Z) (now1 now2 : Q)
| IsAlive
| SetHunger (value : Z)
| SetEnergy (value : Z)
| SetHappiness (value : Z).

Definition step (o : op) (self : t) : t * list string :=
  match o with
  | Eat now => eat now self
  | Sleep now => sleep now self
  | Play now => play now self
  | GetStatus => get_status self
  | Train trick u now => train trick u now self
  | ShowTricks => show_tricks self
  | AddMoodModifier m => (add_mood_modifier m self, [])
  | UpdateMood => (update_mood self, [])
  | TimePasses seconds now1 now2 => time_passes seconds now1 now2 self
  | IsAlive => (self, [])
  | SetHunger v => (set_hunger v self, [])
  | SetEnergy v => (set_energy v self, [])
  | SetHappiness v => (set_happiness v self, [])
  end.

(** The object after the calls [ops], made in order. *)
Definition run (ops : list op) (self : t) : t :=
  fold_left (fun s o => fst (step o s)) ops self.

End Pet.

(** ** class AdvancedPet(Pet) *)

(** The exception kinds a call can end with. *)
Inductive exception := ValueError.

Module AdvancedPet.

Record t := mk {
  base : Pet.t;
  _health : Z;
  _diseases : list string
}.

Definition with_base (b : Pet.t) (self : t) : t :=
  mk b (_health self) (_diseases self).
Definition with_health (h : Z) (self : t) : t :=
  mk (base self) h (_diseases self).
Definition with_diseases (l : list string) (self : t) : t :=
  mk (base self) (_health self) l.

(** How a call ends: it returns, or an exception leaves it.  Both carry the
    object as the call leaves it and the lines printed. *)
Inductive outcome :=
| Returns (self : t) (out : list string)
| Raises (e : exception) (self : t) (out : list string).

Definition state_of (o : outcome) : t :=
  match o with Returns s _ => s | Raises _ s _ => s end.
Definition output_of (o : outcome) : list string :=
  match o with Returns _ l => l | Raises _ _ l => l end.

Definition name (self : t) : string := Pet.name (base self).
Definition is_alive (self : t) : bool := Pet.is_alive (base self).
Definition needs (self : t) : Needs.t := Pet.needs (base self).
Definition tricks (self : t) : list string := Pet.tricks (base self).
Definition influence (self : t) (trait : string) : Q := Pet.influence (base self) trait.

Definition msg_illness (self : t) : string :=
  name self ++ " has succumbed to illness.".

(** The [health] property. *)
Definition health (self : t) : Z := _health self.

Definition set_health (value : Z) (self : t) : t * list string :=
  let self := with_health (Z.max 0 (Z.min 100 value)) self in
  if ((_health self <=? 0)%Z && Pet._is_alive (base self))%bool
  then (with_base (Pet.with_is_alive false (base self)) self, [msg_illness self])
  else (self, []).

(** [self.needs.hunger = v] and its siblings, on the inherited needs. *)
Definition set_hunger (v : Z) (self : t) : t := with_base (Pet.set_hunger v (base self)) self.
Definition set_energy (v : Z) (self : t) : t := with_base (Pet.set_energy v (base self)) self.
Definition set_happiness (v : Z) (self : t) : t := with_base (Pet.set_happiness v (base self)) self.

(** A method that is inherited, or the [super()] call of an override. *)
Definition super (m : Pet.t -> Pet.t * list string) (self : t) : t * list string :=
  let '(b, out) := m (base self) in (with_base b self, out).

(** [AdvancedPet(name, species, initial_hunger, initial_energy,
    initial_happiness, initial_health, personality_traits)].  The assignment
    to [self.health] goes through the property setter; the record field it
    overwrites has no value before, [0] stands for it. *)
Definition init (name species : string)
    (initial_hunger initial_energy initial_happiness initial_health : Z)
    (personality_traits : option (gmap string Q)) (now : Q) : t * list string :=
  let self :=
    mk (Pet.init name species initial_hunger initial_energy initial_happiness
          personality_traits now) 0 [] in
  let '(self, out) := set_health (Z.max 0 (Z.min 100 initial_health)) self in
  (with_diseases [] self, out).

Definition get_status (self : t) : t * list string :=
  let '(self, out) := super Pet.get_status self in
  if is_alive self then
    (self,
     app out
       (("Health: " ++ Py.show (health self) ++ "/100")
        :: match _diseases self with
           | [] => []
           | _ => [ "Diseases: " ++ Py.join (_diseases self) ]
           end))
  else (self, out).

(** [u] is the value of [random.random()]. *)
Definition eat (now u : Q) (self : t) : t * list string :=
  let '(self, out) := super (Pet.eat now) self in
  if Py.lt u (Py.float (3 # 10)) then
    let health_increase := Py.add 2 (Py.mul 1 (influence self "constitution")) in
    let '(self, out') := set_health (Z.min 100 (health self + Py.int health_increase)) self in
    (self, (out ++ out')%list)
  else (self, out).

(** [u] is read only when the energy test holds. *)
Definition play (now u : Q) (self : t) : t * list string :=
  let '(self, out) := super (Pet.play now) self in
  if ((Needs.energy (needs self) <? 3)%Z && Py.lt u (Py.float (4 # 10)))%bool then
    let health_decrease := Py.sub 3 (Py.mul 1 (influence self "resilience")) in
    let '(self, out') := set_health (Z.max 0 (health self - Py.int health_decrease)) self in
    (self, (out ++ out')%list)
  else (self, out).

(** [u] and [now] go to [Pet.train]; [u2] is the second [random.random()]. *)
Definition train (trick : string) (u now u2 : Q) (self : t) : t * list string :=
  let '(self, out) := super (Pet.train trick u now) self in
  if (Py.known trick (tricks self) && Py.lt u2 (Py.float (2 # 10)))%bool then
    let '(self, out') := set_health (Z.min 100 (health self + 1)) self in
    (self, (out ++ out')%list)
  else (self, out).

(** [k1 .. k4] feed the four [random.randint] calls, in program order. *)
Definition contract_disease (disease : string) (k1 k2 k3 k4 : Z) (self : t)
    : t * list string :=
  if negb (Py.known disease (_diseases self)) then
    let self := with_diseases (_diseases self ++ [disease]) self in
    let out := [name self ++ " has contracted '" ++ disease ++ "'."] in
    let self := set_hunger (Z.min 10 (Needs.hunger (needs self) + Py.randint 1 3 k1)) self in
    let self := set_energy (Z.max 0 (Needs.energy (needs self) - Py.randint 1 3 k2)) self in
    let self := set_happiness (Z.max 0 (Needs.happiness (needs self) - Py.randint 2 4 k3)) self in
    let '(self, out') := set_health (Z.max 0 (health self - Py.randint 5 15 k4)) self in
    (self, (out ++ out')%list)
  else (self, []).

(** [u] is the value of [random.random()], [k] feeds [random.randint]. *)
Definition treat_disease (disease : string) (u : Q) (k : Z) (self : t) : outcome :=
  if Py.known disease (_diseases self) then
    let treatment_success_chance :=
      Py.mul (Py.float (7 # 10)) (influence self "cooperativeness") in
    if Py.lt u treatment_success_chance then
      match Py.remove disease (_diseases self) with
      | None => Raises ValueError self []
      | Some l =>
          let self := with_diseases l self in
          let out := [name self ++ " has been cured of '" ++ disease ++ "'."] in
          let '(self, out') := set_health (Z.min 100 (health self + Py.randint 5 10 k)) self in
          Returns self (out ++ out')%list
      end
    else Returns self ["Treatment for '" ++ disease ++ "' was unsuccessful."]
  else Returns self [name self ++ " doesn't have '" ++ disease ++ "'."].

(** The values one iteration of the worsening loop draws: [random.random()]
    and, when it is below 0.2, four [random.randint]. *)
Record draws := mk_draws {
  d_u : Q;
  d_health : Z;
  d_hunger : Z;
  d_energy : Z;
  d_happiness : Z
}.

(** The body of the [if random.random() < 0.2] in [time_passes]. *)
Definition worsen (disease : string) (d : draws) (self : t) : t * list string :=
  let out := [disease ++ " is worsening for " ++ name self ++ "."] in
  let '(self, out') :=
    set_health (Z.max 0 (health self - Py.randint 3 7 (d_health d))) self in
  let self :=
    set_hunger (Z.min 10 (Needs.hunger (needs self) + Py.randint 0 2 (d_hunger d)))
      self in
  let self :=
    set_energy (Z.max 0 (Needs.energy (needs self) - Py.randint 0 2 (d_energy d)))
      self in
  let self :=
    set_happiness
      (Z.max 0 (Needs.happiness (needs self) - Py.randint 1 3 (d_happiness d))) self in
  (self, (out ++ out')%list).

(** [for disease in list(self._diseases)]: the loop runs over the snapshot;
    [rnd i] holds the values iteration [i] draws. *)
Fixpoint worsen_loop (rnd : nat -> draws) (i : nat) (snapshot : list string)
    (self : t) : t * list string :=
  match snapshot with
  | [] => (self, [])
  | disease :: rest =>
      let '(self, out) :=
        if Py.lt (d_u (rnd i)) (Py.float (2 # 10)) then worsen disease (rnd i) self
        else (self, []) in
      let '(self, out') := worsen_loop rnd (S i) rest self in
      (self, (out ++ out')%list)
  end.

Definition time_passes (seconds : Z) (now1 now2 : Q) (rnd : nat -> draws) (self : t)
    : t * list string :=
  let '(self, out) := super (Pet.time_passes seconds now1 now2) self in
  if is_alive self then
    let '(self, out') := worsen_loop rnd 0 (_diseases self) self in
    (self, (out ++ out')%list)
  else (self, out).

(** *** Sequences of calls on an [AdvancedPet] *)
Inductive op :=
| Eat (now u : Q)
| Sleep (now : Q)
| Play (now u : Q)
| GetStatus
| Train (trick : string) (u now u2 : Q)
| ShowTricks
| AddMoodModifier (m : Pet.modifier)
| UpdateMood
| TimePasses (seconds : Z) (now1 now2 : Q) (rnd : nat -> draws)
| IsAlive
| SetHunger (value : Z)
| SetEnergy (value : Z)
| SetHappiness (value : Z)
| SetHealth (value : Z)
| ContractDisease (disease : string) (k1 k2 k3 k4 : Z)
| TreatDisease (disease : string) (u : Q) (k : Z).

Definition returns (r : t * list string) : outcome := Returns (fst r) (snd r).

Definition step (o : op) (self : t) : outcome :=
  match o with
  | Eat now u => returns (eat now u self)
  | Sleep now => returns (super (Pet.sleep now) self)
  | Play now u => returns (play now u self)
  | GetStatus => returns (get_status self)
  | Train trick u now u2 => returns (train trick u now u2 self)
  | ShowTricks => returns (super Pet.show_tricks self)
  | AddMoodModifier m => Returns (with_base (Pet.add_mood_modifier m (base self)) self) []
  | UpdateMood => Returns (with_base (Pet.update_mood (base self)) self) []
  | TimePasses seconds now1 now2 rnd => returns (time_passes seconds now1 now2 rnd self)
  | IsAlive => Returns self []
  | SetHunger v => Returns (set_hunger v self) []
  | SetEnergy v => Returns (set_energy v self) []
  | SetHappiness v => Returns (set_happiness v self) []
  | SetHealth v => returns (set_health v self)
  | ContractDisease disease k1 k2 k3 k4 => returns (contract_disease disease k1 k2 k3 k4 self)
  | TreatDisease disease u k => treat_disease disease u k self
  end.

(** The object after the calls [ops], made in order; a caller that catches an
    exception goes on with the object as the failed call left it. *)
Definition run (ops : list op) (self : t) : t :=
  fold_left (fun s o => state_of (step o s)) ops self.

End AdvancedPet.

(** ** Ranges of the stored values *)

(** The three needs are within 0..10. *)
Definition Needs_ok (n : Needs.t) : Prop :=
  (0 <= Needs.hunger n <= 10) /\ (0 <= Needs.energy n <= 10)
  /\ (0 <= Needs.happiness n <= 10).

(** Every stored trait weight is within 0..1. *)
Definition Personality_ok (p : Personality.t) : Prop :=
  forall (trait : string) (w : Q),
    Personality.traits p !! trait = Some w -> (0 <= w <= 1)%Q.

Definition Pet_ok (p : Pet.t) : Prop :=
  Needs_ok (Pet.needs p) /\ Personality_ok (Pet.personality p).

Definition AdvancedPet_ok (a : AdvancedPet.t) : Prop :=
  Pet_ok (AdvancedPet.base a) /\ (0 <= AdvancedPet.health a <= 100).

(** ** Observers and example objects *)

(** A call of one of the two status methods. *)
Definition observer (b : bool) : Pet.op :=
  if b then Pet.GetStatus else Pet.ShowTricks.

Definition advanced_observer (b : bool) : AdvancedPet.op :=
  if b then AdvancedPet.GetStatus else AdvancedPet.ShowTricks.

(** [Pet(name="Buddy", species="Dog")], the pet of [main.py], created at
    time 0. *)
Definition buddy : Pet.t := Pet.init "Buddy" "Dog" 5 7 5 None 0%Q.

(** [AdvancedPet("Rex", "Cat", initial_health=h)], created at time 0. *)
Definition rex (h : Z) : AdvancedPet.t :=
  fst (AdvancedPet.init "Rex" "Cat" 5 7 5 h None 0%Q).

(** A fully cooperative Rex with health 50 after [contract_disease("Flu")]
    with the smallest draws. *)
Definition rex_cooperative_with_flu : AdvancedPet.t :=
  fst (AdvancedPet.contract_disease "Flu" 0 0 0 0
         (fst (AdvancedPet.init "Rex" "Cat" 5 7 5 50
                 (Some {[ "cooperativeness" := 1%Q ]}) 0%Q))).



(** Random values for the worsening loop: every disease worsens, with the
    largest health loss. *)
Definition always_worse (i : nat) : AdvancedPet.draws :=
  AdvancedPet.mk_draws 0%Q 4 0 0 0.

(** Buddy with [personality_traits={"pickiness": 0.0, "joyfulness": 0.0}]. *)
Definition buddy_plain : Pet.t :=
  Pet.init "Buddy" "Dog" 5 7 5
    (Some (<["pickiness" := 0%Q]> {[ "joyfulness" := 0%Q ]})) 0%Q.

(** How many entries of [l] equal [x] up to case. *)
Definition count_known (x : string) (l : list string) : nat :=
  length (List.filter (fun y => String.eqb (Py.lower y) (Py.lower x)) l).

(** Random values for the worsening loop: no disease worsens. *)
Definition never_worse (i : nat) : AdvancedPet.draws :=
  AdvancedPet.mk_draws (9 # 10)%Q 0 0 0 0.

(** Rex with health 50 learns "Sit", catches the flu and is then left alone
    for ten hours: dead of neglect, with health 45. *)
Definition rex_neglected : AdvancedPet.t :=
  AdvancedPet.run
    [ AdvancedPet.Train "Sit" 0%Q 1%Q (9 # 10)%Q;
      AdvancedPet.ContractDisease "Flu" 0 0 0 0;
      AdvancedPet.TimePasses 3600 (36000 # 1)%Q (36000 # 1)%Q never_worse ]
    (rex 50).

(** What a caller can read from an [AdvancedPet]: liveness, needs, tricks,
    health, diseases and the time of the last interaction. *)
Definition view (a : AdvancedPet.t)
    : bool * Needs.t * list string * Z * list string * Q :=
  (AdvancedPet.is_alive a, AdvancedPet.needs a, AdvancedPet.tricks a,
   AdvancedPet.health a, AdvancedPet._diseases a,
   Pet._last_interaction (AdvancedPet.base a)).

(** ** The driver, [main.py]

    The body under [if __name__ == "__main__"].  [time.sleep(0.5)] only lets the
    clock advance; the clock readings are inputs. *)

Module Main.

(** What the run reads from the clock and the random generator: the reading
    of [Pet(...)], of [eat], of [play], the draw and the reading of [train],
    the reading of [sleep], and the two readings of the [time_passes] call of
    each loop iteration. *)
Record inputs := mk_inputs {
  t_init : Q;
  t_eat : Q;
  t_play : Q;
  u_train : Q;
  t_train : Q;
  t_sleep : Q;
  t_loop : nat -> Q * Q
}.

(** The literal ["\n" + s]: one [print] whose text starts with a newline. *)
Definition nl (s : string) : string := String (ascii_of_nat 10) s.

(** [for _ in range(n)], from iteration [i] on, with its [break]. *)
Fixpoint loop (n i : nat) (clock : nat -> Q * Q) (my_basic_pet : Pet.t)
    : Pet.t * list string :=
  match n with
  | O => (my_basic_pet, [])
  | S n' =>
      let '(pet, o1) :=
        Pet.time_passes 3600 (fst (clock i)) (snd (clock i)) my_basic_pet in
      let '(pet, o2) := Pet.get_status pet in
      if negb (Pet.is_alive pet) then (pet, (o1 ++ o2)%list)
      else
        let '(pet, o3) := loop n' (S i) clock pet in
        (pet, (o1 ++ o2 ++ o3)%list)
  end.

Definition main (inp : inputs) : Pet.t * list string :=
  let my_basic_pet := Pet.init "Buddy" "Dog" 5 7 5 None (t_init inp) in
  let '(pet, o1) := Pet.get_status my_basic_pet in
  let '(pet, o2) := Pet.eat (t_eat inp) pet in
  let '(pet, o3) := Pet.play (t_play inp) pet in
  let '(pet, o4) := Pet.train "Sit" (u_train inp) (t_train inp) pet in
  let '(pet, o5) := Pet.show_tricks pet in
  let '(pet, o6) := Pet.sleep (t_sleep inp) pet in
  let '(pet, o7) := Pet.get_status pet in
  let '(pet, o8) := loop 3 0 (t_loop inp) pet in
  (pet,
   ("--- Initial Status ---" :: o1)
   ++ (nl "--- Interacting with Buddy ---" :: o2 ++ o3 ++ o4 ++ o5 ++ o6)
   ++ (nl "--- Status After Interaction ---" :: o7)
   ++ (nl "--- Time Passing (Simulated) ---" :: o8)
   ++ (if Pet.is_alive pet then [nl "Buddy is still doing well!"] else []))%list.

End Main.

(** ** Names without duplicates *)

(** No two names of the list are equal up to case. *)
Definition distinct_names (l : list string) : Prop := NoDup (map Py.lower l).

(** ** Kinds of calls *)

(** The call is a [time_passes]. *)
Definition is_time_passes (o : Pet.op) : bool :=
  match o with Pet.TimePasses _ _ _ => true | _ => false end.

(** What a call does to the tricks: nothing, or it appends a name that was
    not known in any casing. *)
Definition tricks_step (before after : list string) : Prop :=
  after = before
  \/ exists trick, Py.known trick before = false /\ after = (before ++ [trick])%list.

(** A live [AdvancedPet] has some health left. *)
Definition alive_has_health (a : AdvancedPet.t) : Prop :=
  AdvancedPet.is_alive a = true -> 0 < AdvancedPet.health a.

(** What a call does to the diseases: nothing, or it appends a name that
    was not there in any casing, or it removes one entry. *)
Definition diseases_step (before after : list string) : Prop :=
  after = before
  \/ (exists disease,
        Py.known disease before = false /\ after = (before ++ [disease])%list)
  \/ (exists disease, Py.remove disease before = Some after).

(** * Properties *)

(** ** Python primitives *)

Lemma Py_lt_true (a b : Q) : Py.lt a b = true <-> (a < b)%Q.
Proof.
  unfold Py.lt. destruct (Qlt_le_dec a b) as [H | H]; split; intros H'; try easy.
  exfalso. apply (Qlt_not_le _ _ H'), H.
Qed.

Lemma Py_ge_true (a b : Q) : Py.ge a b = true <-> (b <= a)%Q.
Proof.
  unfold Py.ge. destruct (Qlt_le_dec a b) as [H | H]; split; intros H'; try easy.
  exfalso. apply (Qlt_not_le _ _ H), H'.
Qed.

Lemma Py_ge_false (a b : Q) : Py.ge a b = false <-> (a < b)%Q.
Proof.
  unfold Py.ge. destruct (Qlt_le_dec a b) as [H | H]; split; intros H'; try easy.
  exfalso. apply (Qlt_not_le _ _ H'), H.
Qed.

(** The clamp of [Personality.__init__] lands in [0, 1]. *)
Lemma Py_clamp_unit (v : Q) : (0 <= Py.max 0 (Py.min 1 v) <= 1)%Q.
Proof.
  unfold Py.max, Py.min.
  destruct (Qlt_le_dec v 1) as [H1 | H1];
    [destruct (Qlt_le_dec 0 v) as [H0 | H0] | destruct (Qlt_le_dec 0 1) as [H0 | H0]];
    split; try apply Qle_refl; try (now apply Qlt_le_weak); try easy.
Qed.

(** [random.randint(lo, hi)] stays within its bounds. *)
Lemma Py_randint_range (lo hi k : Z) : lo <= hi -> lo <= Py.randint lo hi k <= hi.
Proof.
  intros H. unfold Py.randint.
  pose proof (Z.mod_pos_bound k (hi - lo + 1) ltac:(lia)). lia.
Qed.

(** [int] truncates toward zero: it is the floor of a non-negative value and
    the ceiling of a negative one. *)
Lemma Py_int_nonneg (x : Q) : (0 <= x)%Q -> Py.int x = Qfloor x.
Proof.
  destruct x as [n d]. unfold Qle, Py.int, Qfloor. simpl. intros H.
  apply Z.quot_div_nonneg; lia.
Qed.

Lemma Py_int_neg (x : Q) : (x < 0)%Q -> Py.int x = Qceiling x.
Proof.
  destruct x as [n d]. unfold Qlt, Py.int, Qceiling, Qfloor. simpl. intros H.
  replace n with (- (- n)) at 1 by lia.
  rewrite Z.quot_opp_l by lia. f_equal.
  apply Z.quot_div_nonneg; lia.
Qed.

(** [int] depends on the value of the rational only. *)
Lemma Py_int_Qeq (x y : Q) : (x == y)%Q -> Py.int x = Py.int y.
Proof.
  intros E. destruct (Qlt_le_dec x 0) as [H | H].
  - rewrite !Py_int_neg; [now rewrite E | now rewrite <- E | easy].
  - rewrite !Py_int_nonneg; [now rewrite E | now rewrite <- E | easy].
Qed.

Lemma Py_int_lower (x : Q) (n : Z) : (inject_Z n <= x)%Q -> 0 <= n -> n <= Py.int x.
Proof.
  intros H Hn. rewrite Py_int_nonneg.
  - rewrite <- (Qfloor_Z n). now apply Qfloor_resp_le.
  - apply Qle_trans with (inject_Z n); [| easy].
    change 0%Q with (inject_Z 0). now rewrite <- Zle_Qle.
Qed.

Lemma Py_int_upper (x : Q) (n : Z) : (0 <= x)%Q -> (x < inject_Z (n + 1))%Q -> Py.int x <= n.
Proof.
  intros H0 H. rewrite Py_int_nonneg by exact H0.
  destruct (Z_le_gt_dec (Qfloor x) n) as [L | G]; [exact L | exfalso].
  apply (Qlt_not_le _ _ H).
  apply Qle_trans with (inject_Z (Qfloor x)); [| apply Qfloor_le].
  rewrite <- Zle_Qle. lia.
Qed.

(** [int] of a value in [[lo, hi + 1)], for integers [0 <= lo]. *)
Lemma Py_int_range (x : Q) (lo hi : Z) :
  0 <= lo -> (inject_Z lo <= x)%Q -> (x < inject_Z (hi + 1))%Q ->
  lo <= Py.int x <= hi.
Proof.
  intros H0 Hlo Hhi. split; [now apply Py_int_lower |].
  apply Py_int_upper; [| exact Hhi].
  apply Qle_trans with (inject_Z lo); [| exact Hlo].
  change 0%Q with (inject_Z 0). now rewrite <- Zle_Qle.
Qed.

(** Truncation toward zero: [int x] is the integer next to [x] on the side
    of zero. *)
Lemma Py_int_truncates (x : Q) :
  (0 <= x)%Q -> (inject_Z (Py.int x) <= x < inject_Z (Py.int x + 1))%Q.
Proof.
  intros H. rewrite Py_int_nonneg by exact H. split; [apply Qfloor_le | apply Qlt_floor].
Qed.

Lemma Py_int_truncates_neg (x : Q) :
  (x <= 0)%Q -> (inject_Z (Py.int x - 1) < x <= inject_Z (Py.int x))%Q.
Proof.
  intros H. destruct (Qlt_le_dec x 0) as [N | P].
  - rewrite Py_int_neg by exact N. split; [apply Qceiling_lt | apply Qle_ceiling].
  - assert (x == 0)%Q as E by lra. rewrite (Py_int_Qeq x 0 E), E.
    split; [reflexivity | discriminate].
Qed.

(** *** binary64 arithmetic *)

Lemma Py_pow2_pos e : (0 < Py.pow2 e)%Q.
Proof. apply Qpower_0_lt. reflexivity. Qed.

Lemma Py_pow2_add a b : (Py.pow2 (a + b) == Py.pow2 a * Py.pow2 b)%Q.
Proof. apply Qpower_plus. discriminate. Qed.

Lemma Py_pow2_le a b : a <= b -> (Py.pow2 a <= Py.pow2 b)%Q.
Proof. intros H. apply Qpower_le_compat_l; [exact H | discriminate]. Qed.

Lemma Py_pow2_lt_inv a b : (Py.pow2 a < Py.pow2 b)%Q -> a < b.
Proof. intros H. apply (Qpower_lt_compat_l_inv 2); [exact H | reflexivity]. Qed.

Lemma Py_pow2_Z n : 0 <= n -> (Py.pow2 n == inject_Z (2 ^ n))%Q.
Proof. intros H. symmetry. apply (Zpower_Qpower 2 n H). Qed.

Lemma Py_ilog2_spec (x : Q) :
  (0 < x)%Q -> (Py.pow2 (Py.ilog2 x) <= x)%Q /\ (x < Py.pow2 (Py.ilog2 x + 1))%Q.
Proof.
  intros Hx. destruct x as [n d].
  assert (0 < n) as Hn by (unfold Qlt in Hx; simpl in Hx; lia).
  unfold Py.ilog2. cbn [Qnum Qden].
  set (a := Z.log2 n). set (b := Z.log2 (Z.pos d)).
  destruct (Z.log2_spec n Hn) as [A1 A2]. fold a in A1, A2.
  destruct (Z.log2_spec (Z.pos d) ltac:(lia)) as [B1 B2]. fold b in B1, B2.
  assert (0 <= a) as Ha by apply Z.log2_nonneg.
  assert (0 <= b) as Hb by apply Z.log2_nonneg.
  assert (n # d == inject_Z n / inject_Z (Z.pos d))%Q as E by apply Qmake_Qdiv.
  assert (0 < inject_Z (Z.pos d))%Q as Hd by (rewrite <- (Zlt_Qlt 0); lia).
  (* lower and upper bounds on x *)
  assert (Py.pow2 (a - b - 1) <= n # d)%Q as L.
  { rewrite E. apply Qle_shift_div_l; [exact Hd |].
    apply Qle_trans with (Py.pow2 (a - b - 1) * inject_Z (2 ^ (b + 1)))%Q.
    - apply Qmult_le_l; [apply Py_pow2_pos |]. rewrite <- Zle_Qle. lia.
    - rewrite <- Py_pow2_Z by lia. rewrite <- Py_pow2_add.
      replace (a - b - 1 + (b + 1)) with a by lia.
      rewrite Py_pow2_Z by lia. rewrite <- Zle_Qle. exact A1. }
  assert (n # d < Py.pow2 (a - b + 1))%Q as U.
  { rewrite E. apply Qlt_shift_div_r; [exact Hd |].
    apply Qlt_le_trans with (Py.pow2 (a - b + 1) * inject_Z (2 ^ b))%Q.
    - rewrite <- Py_pow2_Z by lia. rewrite <- Py_pow2_add.
      replace (a - b + 1 + b) with (a + 1) by lia.
      rewrite Py_pow2_Z by lia. rewrite <- Zlt_Qlt. replace (a + 1) with (Z.succ a) by lia.
      exact A2.
    - apply Qmult_le_l; [apply Py_pow2_pos |]. rewrite <- Zle_Qle. exact B1. }
  destruct (Qle_bool (Py.pow2 (a - b)) (n # d)) eqn:T.
  - apply Qle_bool_iff in T. split; [exact T | exact U].
  - split; [exact L |]. replace (a - b - 1 + 1) with (a - b) by lia.
    apply Qnot_le_lt. intros C. apply Qle_bool_iff in C. congruence.
Qed.

Lemma Py_ilog2_mono (x y : Q) : (0 < x)%Q -> (x <= y)%Q -> Py.ilog2 x <= Py.ilog2 y.
Proof.
  intros Hx Hxy.
  destruct (Py_ilog2_spec x Hx) as [L _].
  destruct (Py_ilog2_spec y (Qlt_le_trans _ _ _ Hx Hxy)) as [_ U].
  assert (Py.pow2 (Py.ilog2 x) < Py.pow2 (Py.ilog2 y + 1))%Q as H
    by (eapply Qle_lt_trans; [exact L |]; eapply Qle_lt_trans; [exact Hxy | exact U]).
  apply Py_pow2_lt_inv in H. lia.
Qed.

Lemma Py_ilog2_Qeq (x y : Q) : (0 < x)%Q -> (x == y)%Q -> Py.ilog2 x = Py.ilog2 y.
Proof.
  intros Hx E. apply Z.le_antisymm.
  - apply Py_ilog2_mono; [exact Hx | rewrite E; apply Qle_refl].
  - apply Py_ilog2_mono; [rewrite <- E; exact Hx | rewrite E; apply Qle_refl].
Qed.

Lemma Py_rne_Qeq (q q' : Q) : (q == q')%Q -> Py.rne q = Py.rne q'.
Proof.
  intros E. unfold Py.rne.
  assert (Qfloor q = Qfloor q') as F by now rewrite E.
  rewrite <- F.
  assert (Qcompare (q - inject_Z (Qfloor q)) (1 # 2)
          = Qcompare (q' - inject_Z (Qfloor q)) (1 # 2)) as C
    by (apply Qcompare_comp; [unfold Qminus; apply Qplus_comp; [exact E | apply Qeq_refl]
                              | apply Qeq_refl]).
  now rewrite C.
Qed.

Lemma Py_rne_Z (n : Z) : Py.rne (inject_Z n) = n.
Proof.
  unfold Py.rne. rewrite Qfloor_Z.
  destruct (Qcompare_spec (inject_Z n - inject_Z n) (1 # 2)) as [H | H | H];
    [lra | reflexivity | lra].
Qed.

Lemma Py_rne_bounds (q : Q) : Qfloor q <= Py.rne q <= Qfloor q + 1.
Proof.
  unfold Py.rne. destruct (Qcompare _ _); [destruct (Z.even _) | |]; lia.
Qed.

Lemma Py_rne_mono (q q' : Q) : (q <= q')%Q -> Py.rne q <= Py.rne q'.
Proof.
  intros H. pose proof (Qfloor_resp_le q q' H) as F.
  destruct (Z.eq_dec (Qfloor q) (Qfloor q')) as [E | N].
  - unfold Py.rne. rewrite <- E.
    destruct (Qcompare_spec (q - inject_Z (Qfloor q)) (1 # 2)) as [A | A | A];
      destruct (Qcompare_spec (q' - inject_Z (Qfloor q)) (1 # 2)) as [B | B | B];
      try destruct (Z.even (Qfloor q)); try lia; lra.
  - pose proof (Py_rne_bounds q). pose proof (Py_rne_bounds q'). lia.
Qed.

Lemma Py_fl_pos_mono (x y : Q) : (0 < x)%Q -> (x <= y)%Q -> (Py.fl_pos x <= Py.fl_pos y)%Q.
Proof.
  intros Hx Hxy. pose proof (Qlt_le_trans _ _ _ Hx Hxy) as Hy.
  pose proof (Py_ilog2_mono x y Hx Hxy) as He.
  destruct (Py_ilog2_spec x Hx) as [_ Ux]. destruct (Py_ilog2_spec y Hy) as [Ly _].
  unfold Py.fl_pos.
  destruct (Z.eq_dec (Py.quantum x) (Py.quantum y)) as [E | N].
  - rewrite <- E. apply Qmult_le_compat_r; [| apply Qlt_le_weak, Py_pow2_pos].
    rewrite <- Zle_Qle. apply Py_rne_mono.
    apply Qmult_le_compat_r; [exact Hxy |].
    apply Qlt_le_weak, Qinv_lt_0_compat, Py_pow2_pos.
  - assert (Py.quantum y = Py.ilog2 y - 52 /\ Py.quantum x < Py.quantum y) as [Ky Kxy]
      by (unfold Py.quantum in *; lia).
    assert (Py.ilog2 x + 1 <= Py.ilog2 y) as Hex by (unfold Py.quantum in *; lia).
    apply Qle_trans with (Py.pow2 (Py.ilog2 y)).
    + assert (Py.rne (x / Py.pow2 (Py.quantum x)) <= 2 ^ (Py.ilog2 y - Py.quantum x)) as R.
      { rewrite <- (Py_rne_Z (2 ^ (Py.ilog2 y - Py.quantum x))). apply Py_rne_mono.
        rewrite <- Py_pow2_Z by lia.
        apply Qle_shift_div_r; [apply Py_pow2_pos |].
        rewrite <- Py_pow2_add.
        replace (Py.ilog2 y - Py.quantum x + Py.quantum x) with (Py.ilog2 y) by lia.
        apply Qlt_le_weak. eapply Qlt_le_trans; [exact Ux | now apply Py_pow2_le]. }
      rewrite Zle_Qle in R.
      apply Qle_trans with (inject_Z (2 ^ (Py.ilog2 y - Py.quantum x)) * Py.pow2 (Py.quantum x))%Q.
      * apply Qmult_le_compat_r; [exact R | apply Qlt_le_weak, Py_pow2_pos].
      * rewrite <- Py_pow2_Z by lia. rewrite <- Py_pow2_add.
        replace (Py.ilog2 y - Py.quantum x + Py.quantum x) with (Py.ilog2 y) by lia.
        apply Qle_refl.
    + assert (2 ^ 52 <= Py.rne (y / Py.pow2 (Py.quantum y))) as R.
      { rewrite <- (Py_rne_Z (2 ^ 52)) at 1. apply Py_rne_mono.
        rewrite <- Py_pow2_Z by lia.
        apply Qle_shift_div_l; [apply Py_pow2_pos |].
        rewrite <- Py_pow2_add.
        replace (52 + Py.quantum y) with (Py.ilog2 y) by lia. exact Ly. }
      rewrite Zle_Qle in R.
      apply Qle_trans with (inject_Z (2 ^ 52) * Py.pow2 (Py.quantum y))%Q.
      * rewrite <- Py_pow2_Z by lia. rewrite <- Py_pow2_add.
        replace (52 + Py.quantum y) with (Py.ilog2 y) by lia. apply Qle_refl.
      * apply Qmult_le_compat_r; [exact R | apply Qlt_le_weak, Py_pow2_pos].
Qed.

Lemma Py_fl_pos_nonneg (x : Q) : (0 < x)%Q -> (0 <= Py.fl_pos x)%Q.
Proof.
  intros Hx. unfold Py.fl_pos. apply Qmult_le_0_compat; [| apply Qlt_le_weak, Py_pow2_pos].
  change 0%Q with (inject_Z 0). rewrite <- Zle_Qle.
  rewrite <- (Py_rne_Z 0). apply Py_rne_mono.
  apply Qle_shift_div_l; [apply Py_pow2_pos |].
  change (inject_Z 0) with 0%Q. rewrite Qmult_0_l. now apply Qlt_le_weak.
Qed.

Lemma Py_fl_pos_Qeq (x y : Q) : (0 < x)%Q -> (x == y)%Q -> Py.fl_pos x = Py.fl_pos y.
Proof.
  intros Hx E. unfold Py.fl_pos, Py.quantum. rewrite (Py_ilog2_Qeq x y Hx E).
  f_equal. f_equal. apply Py_rne_Qeq. now rewrite E.
Qed.

Lemma Py_fl_Qeq (x y : Q) : (x == y)%Q -> Py.fl x = Py.fl y.
Proof.
  intros E. unfold Py.fl. rewrite <- (Qcompare_comp x y E 0%Q 0%Q (Qeq_refl 0)).
  destruct (Qcompare_spec x 0) as [H | H | H]; [reflexivity | |].
  - f_equal. apply Py_fl_pos_Qeq; [lra | now rewrite E].
  - now apply Py_fl_pos_Qeq.
Qed.

Lemma Py_fl_mono (x y : Q) : (x <= y)%Q -> (Py.fl x <= Py.fl y)%Q.
Proof.
  intros H. unfold Py.fl.
  destruct (Qcompare_spec x 0) as [X | X | X]; destruct (Qcompare_spec y 0) as [Y | Y | Y];
    try lra.
  - now apply Py_fl_pos_nonneg.
  - pose proof (Py_fl_pos_nonneg (- x) ltac:(lra)). lra.
  - pose proof (Py_fl_pos_mono (- y) (- x) ltac:(lra) ltac:(lra)). lra.
  - pose proof (Py_fl_pos_nonneg (- x) ltac:(lra)). pose proof (Py_fl_pos_nonneg y Y). lra.
  - now apply Py_fl_pos_mono.
Qed.

(** Rounding is monotone: [Py_fl_mono].  It keeps the sign, and the four
    operations are monotone in their operands as the exact ones are. *)
Lemma Py_fl_nonneg (x : Q) : (0 <= x)%Q -> (0 <= Py.fl x)%Q.
Proof. intros H. change 0%Q with (Py.fl 0) at 1. now apply Py_fl_mono. Qed.

Lemma Py_add_range (a x lo hi : Q) :
  (lo <= x <= hi)%Q -> (Py.add a lo <= Py.add a x <= Py.add a hi)%Q.
Proof. intros [L H]. split; apply Py_fl_mono; lra. Qed.

Lemma Py_sub_range (a x lo hi : Q) :
  (lo <= x <= hi)%Q -> (Py.sub a hi <= Py.sub a x <= Py.sub a lo)%Q.
Proof. intros [L H]. split; apply Py_fl_mono; lra. Qed.

Lemma Py_mul_range (c x lo hi : Q) :
  (0 <= c)%Q -> (lo <= x <= hi)%Q -> (Py.mul c lo <= Py.mul c x <= Py.mul c hi)%Q.
Proof.
  intros Hc [L H]. split; apply Py_fl_mono;
    rewrite !(Qmult_comm c); now apply Qmult_le_compat_r.
Qed.

(** A quotient by a positive divisor grows when the divisor shrinks. *)
Lemma Py_div_range (a x lo hi : Q) :
  (0 <= a)%Q -> (0 < lo)%Q -> (lo <= x <= hi)%Q ->
  (Py.div a hi <= Py.div a x <= Py.div a lo)%Q.
Proof.
  intros Ha Hlo [L H].
  assert (0 < x)%Q as Hx by (eapply Qlt_le_trans; [exact Hlo | exact L]).
  assert (0 < hi)%Q as Hhi by (eapply Qlt_le_trans; [exact Hx | exact H]).
  split; apply Py_fl_mono; unfold Qdiv; rewrite !(Qmult_comm a);
    apply Qmult_le_compat_r; try exact Ha.
  - apply Qle_shift_inv_l; [exact Hx |].
    rewrite Qmult_comm. apply Qle_shift_div_r; [exact Hhi |]. now rewrite Qmult_1_l.
  - apply Qle_shift_inv_l; [exact Hlo |].
    rewrite Qmult_comm. apply Qle_shift_div_r; [exact Hx |]. now rewrite Qmult_1_l.
Qed.

Lemma Py_div_nonneg (a b : Q) : (0 <= a)%Q -> (0 <= b)%Q -> (0 <= Py.div a b)%Q.
Proof.
  intros Ha Hb. apply Py_fl_nonneg. unfold Qdiv.
  apply Qmult_le_0_compat; [exact Ha |]. now apply Qinv_le_0_compat.
Qed.

(** Decides a comparison of two closed float expressions by evaluation. *)
Ltac float_eval :=
  first [ apply Qle_bool_imp_le; vm_compute; reflexivity
        | unfold Qlt; vm_compute; reflexivity
        | unfold Qeq; vm_compute; reflexivity ].

(** The amounts of the actions, for a weight [w] within 0..1.  Each formula
    is monotone in [w], so its value lies between its values at 0 and at 1,
    which are computed. *)
Lemma Py_int_sub_3_mul_1 (w : Q) :
  (0 <= w <= 1)%Q -> 2 <= Py.int (Py.sub 3 (Py.mul 1 w)) <= 3.
Proof.
  intros H.
  pose proof (Py_sub_range 3 _ _ _ (Py_mul_range 1 w 0 1 ltac:(float_eval) H)) as [L U].
  apply Py_int_range; [lia | |].
  - eapply Qle_trans; [| exact L]. float_eval.
  - eapply Qle_lt_trans; [exact U |]. float_eval.
Qed.

Lemma Py_int_add_2_mul_1 (w : Q) :
  (0 <= w <= 1)%Q -> 2 <= Py.int (Py.add 2 (Py.mul 1 w)) <= 3.
Proof.
  intros H.
  pose proof (Py_add_range 2 _ _ _ (Py_mul_range 1 w 0 1 ltac:(float_eval) H)) as [L U].
  apply Py_int_range; [lia | |].
  - eapply Qle_trans; [| exact L]. float_eval.
  - eapply Qle_lt_trans; [exact U |]. float_eval.
Qed.

Lemma Py_int_add_5_mul_2 (w : Q) :
  (0 <= w <= 1)%Q -> 5 <= Py.int (Py.add 5 (Py.mul 2 w)) <= 7.
Proof.
  intros H.
  pose proof (Py_add_range 5 _ _ _ (Py_mul_range 2 w 0 1 ltac:(float_eval) H)) as [L U].
  apply Py_int_range; [lia | |].
  - eapply Qle_trans; [| exact L]. float_eval.
  - eapply Qle_lt_trans; [exact U |]. float_eval.
Qed.

Lemma Py_int_add_1_mul_half (w : Q) :
  (0 <= w <= 1)%Q -> Py.int (Py.add 1 (Py.mul (Py.float (5 # 10)) w)) = 1.
Proof.
  intros H.
  pose proof (Py_add_range 1 _ _ _
    (Py_mul_range (Py.float (5 # 10)) w 0 1 ltac:(float_eval) H)) as [L U].
  apply Z.le_antisymm; apply Py_int_range with (lo := 1) (hi := 1); try lia.
  all: first [ eapply Qle_trans; [| exact L]; float_eval
             | eapply Qle_lt_trans; [exact U |]; float_eval ].
Qed.

Lemma Py_int_add_2_mul_1_sub_1 (w : Q) :
  (0 <= w <= 1)%Q -> 2 <= Py.int (Py.add 2 (Py.mul 1 (Py.sub 1 w))) <= 3.
Proof.
  intros H.
  pose proof (Py_add_range 2 _ _ _
    (Py_mul_range 1 _ _ _ ltac:(float_eval) (Py_sub_range 1 w 0 1 H))) as [L U].
  apply Py_int_range; [lia | |].
  - eapply Qle_trans; [| exact L]. float_eval.
  - eapply Qle_lt_trans; [exact U |]. float_eval.
Qed.

Lemma Py_int_add_2_mul_08 (w : Q) :
  (0 <= w <= 1)%Q -> Py.int (Py.add 2 (Py.mul (Py.float (8 # 10)) w)) = 2.
Proof.
  intros H.
  pose proof (Py_add_range 2 _ _ _
    (Py_mul_range (Py.float (8 # 10)) w 0 1 ltac:(float_eval) H)) as [L U].
  apply Z.le_antisymm; apply Py_int_range with (lo := 2) (hi := 2); try lia.
  all: first [ eapply Qle_trans; [| exact L]; float_eval
             | eapply Qle_lt_trans; [exact U |]; float_eval ].
Qed.

Lemma Py_int_add_1_mul_03_sub_1 (w : Q) :
  (0 <= w <= 1)%Q ->
  Py.int (Py.add 1 (Py.mul (Py.float (3 # 10)) (Py.sub 1 w))) = 1.
Proof.
  intros H.
  pose proof (Py_add_range 1 _ _ _
    (Py_mul_range (Py.float (3 # 10)) _ _ _ ltac:(float_eval)
       (Py_sub_range 1 w 0 1 H))) as [L U].
  apply Z.le_antisymm; apply Py_int_range with (lo := 1) (hi := 1); try lia.
  all: first [ eapply Qle_trans; [| exact L]; float_eval
             | eapply Qle_lt_trans; [exact U |]; float_eval ].
Qed.

(** The chance of [train] lies between the float [0.6] and a float below
    [0.9]; the chance of [treat_disease] between 0 and the float [0.7], which
    is below seven tenths. *)
Lemma Py_train_chance_range (w : Q) :
  (0 <= w <= 1)%Q ->
  let c := Py.add (Py.float (6 # 10)) (Py.mul (Py.float (3 # 10)) w) in
  (Py.float (6 # 10) <= c)%Q /\ (c < 9 # 10)%Q.
Proof.
  intros H c.
  pose proof (Py_add_range (Py.float (6 # 10)) _ _ _
    (Py_mul_range (Py.float (3 # 10)) w 0 1 ltac:(float_eval) H)) as [L U].
  fold c in L, U. split.
  - eapply Qle_trans; [| exact L]. float_eval.
  - eapply Qle_lt_trans; [exact U |]. float_eval.
Qed.



(** ** Ranges are kept by every operation *)

Ltac needs_range :=
  unfold Needs_ok, Needs.hunger, Needs.energy, Needs.happiness,
    Needs.init, Needs.set_hunger, Needs.set_energy, Needs.set_happiness;
  cbn [Needs._hunger Needs._energy Needs._happiness]; lia.

Lemma Needs_init_ok (h e hp : Z) : Needs_ok (Needs.init h e hp).
Proof. needs_range. Qed.

Lemma Needs_set_hunger_ok (v : Z) (n : Needs.t) :
  Needs_ok n -> Needs_ok (Needs.set_hunger v n).
Proof. needs_range. Qed.

Lemma Needs_set_energy_ok (v : Z) (n : Needs.t) :
  Needs_ok n -> Needs_ok (Needs.set_energy v n).
Proof. needs_range. Qed.

Lemma Needs_set_happiness_ok (v : Z) (n : Needs.t) :
  Needs_ok n -> Needs_ok (Needs.set_happiness v n).
Proof. needs_range. Qed.

Lemma Personality_init_ok (name : string) (tr : gmap string Q) :
  Personality_ok (Personality.init name tr).
Proof.
  intros trait w. unfold Personality.init. simpl.
  rewrite lookup_fmap. destruct (tr !! trait) as [v |]; simpl; [| easy].
  intros [= <-]. apply Py_clamp_unit.
Qed.

(** A trait influence, stored or defaulted, is within 0..1. *)
Lemma influence_range (p : Personality.t) (trait : string) :
  Personality_ok p -> (0 <= Personality.get_trait_influence p trait <= 1)%Q.
Proof.
  intros H. unfold Personality.get_trait_influence.
  destruct (Personality.traits p !! trait) as [w |] eqn:E; simpl.
  - now apply (H trait).
  - split; easy.
Qed.

Lemma Pet_init_ok name species h e hp tr now :
  Pet_ok (Pet.init name species h e hp tr now).
Proof. split; [apply Needs_init_ok | apply Personality_init_ok]. Qed.

Lemma Pet_set_hunger_ok v p : Pet_ok p -> Pet_ok (Pet.set_hunger v p).
Proof. intros [H1 H2]. split; [now apply Needs_set_hunger_ok | easy]. Qed.

Lemma Pet_set_energy_ok v p : Pet_ok p -> Pet_ok (Pet.set_energy v p).
Proof. intros [H1 H2]. split; [now apply Needs_set_energy_ok | easy]. Qed.

Lemma Pet_set_happiness_ok v p : Pet_ok p -> Pet_ok (Pet.set_happiness v p).
Proof. intros [H1 H2]. split; [now apply Needs_set_happiness_ok | easy]. Qed.

Lemma Pet_with_last_interaction_ok now p :
  Pet_ok p -> Pet_ok (Pet.with_last_interaction now p).
Proof. now intros [H1 H2]. Qed.

Lemma Pet_with_tricks_ok l p : Pet_ok p -> Pet_ok (Pet.with_tricks l p).
Proof. now intros [H1 H2]. Qed.

Lemma Pet_with_is_alive_ok b p : Pet_ok p -> Pet_ok (Pet.with_is_alive b p).
Proof. now intros [H1 H2]. Qed.

Lemma Pet_with_mood_modifiers_ok l p : Pet_ok p -> Pet_ok (Pet.with_mood_modifiers l p).
Proof. now intros [H1 H2]. Qed.

Create HintDb pet_ok.
#[export] Hint Resolve Pet_set_hunger_ok Pet_set_energy_ok Pet_set_happiness_ok
  Pet_with_last_interaction_ok Pet_with_tricks_ok Pet_with_is_alive_ok
  Pet_with_mood_modifiers_ok Pet_init_ok : pet_ok.

Lemma Pet_call_modifier_ok m p : Pet_ok p -> Pet_ok (Pet.call_modifier m p).
Proof.
  unfold Pet.call_modifier. generalize (m (Pet.needs p)) as ws.
  intros ws. revert p. induction ws as [| w ws IH]; intros p H; simpl; [easy |].
  apply IH. destruct w; simpl; auto with pet_ok.
Qed.

Lemma Pet_update_mood_ok p : Pet_ok p -> Pet_ok (Pet.update_mood p).
Proof.
  unfold Pet.update_mood. generalize (Pet._mood_modifiers p) as ms.
  intros ms. revert p. induction ms as [| m ms IH]; intros p H; simpl; [easy |].
  apply IH. now apply Pet_call_modifier_ok.
Qed.

Lemma Pet_eat_ok now p : Pet_ok p -> Pet_ok (fst (Pet.eat now p)).
Proof.
  intros H. unfold Pet.eat. destruct (Pet._is_alive p); simpl; auto with pet_ok.
Qed.

Lemma Pet_sleep_ok now p : Pet_ok p -> Pet_ok (fst (Pet.sleep now p)).
Proof.
  intros H. unfold Pet.sleep. destruct (Pet._is_alive p); simpl; auto with pet_ok.
Qed.

Lemma Pet_play_ok now p : Pet_ok p -> Pet_ok (fst (Pet.play now p)).
Proof.
  intros H. unfold Pet.play. destruct (Pet._is_alive p); simpl; auto 6 with pet_ok.
Qed.

Lemma Pet_train_ok trick u now p : Pet_ok p -> Pet_ok (fst (Pet.train trick u now p)).
Proof.
  intros H. unfold Pet.train. destruct (Pet._is_alive p); simpl; [| easy].
  destruct (Py.known trick (Pet.tricks p)); simpl; [easy |].
  destruct (Py.lt _ _); simpl; auto with pet_ok.
Qed.

Lemma Pet_time_passes_ok seconds now1 now2 p :
  Pet_ok p -> Pet_ok (fst (Pet.time_passes seconds now1 now2 p)).
Proof.
  intros H. unfold Pet.time_passes. destruct (Pet._is_alive p); simpl; [| easy].
  destruct (Py.ge _ _); simpl; [| easy].
  match goal with |- context [if ?c then _ else _] => destruct c end;
    simpl; auto 7 with pet_ok.
Qed.

Lemma Pet_step_ok (o : Pet.op) (p : Pet.t) : Pet_ok p -> Pet_ok (fst (Pet.step o p)).
Proof.
  intros H. destruct o; simpl;
    auto using Pet_eat_ok, Pet_sleep_ok, Pet_play_ok, Pet_train_ok,
      Pet_time_passes_ok, Pet_update_mood_ok with pet_ok.
  - unfold Pet.get_status. now destruct (Pet._is_alive p).
  - unfold Pet.show_tricks. now destruct (Pet._is_alive p).
Qed.

Lemma Pet_run_ok (ops : list Pet.op) (p : Pet.t) : Pet_ok p -> Pet_ok (Pet.run ops p).
Proof.
  unfold Pet.run. revert p.
  induction ops as [| o ops IH]; intros p H; simpl; [easy |].
  apply IH. now apply Pet_step_ok.
Qed.

Lemma AdvancedPet_set_health_ok v a :
  Pet_ok (AdvancedPet.base a) -> AdvancedPet_ok (fst (AdvancedPet.set_health v a)).
Proof.
  intros H. unfold AdvancedPet.set_health.
  destruct (_ && _)%bool; split; simpl; auto with pet_ok;
    unfold AdvancedPet.health; simpl; lia.
Qed.

Lemma AdvancedPet_with_base_ok b a :
  Pet_ok b -> AdvancedPet_ok a -> AdvancedPet_ok (AdvancedPet.with_base b a).
Proof. intros Hb [_ Hh]. now split. Qed.

Lemma AdvancedPet_with_diseases_ok l a :
  AdvancedPet_ok a -> AdvancedPet_ok (AdvancedPet.with_diseases l a).
Proof. now intros [H1 H2]. Qed.

Lemma AdvancedPet_set_hunger_ok v a :
  AdvancedPet_ok a -> AdvancedPet_ok (AdvancedPet.set_hunger v a).
Proof. intros H. apply AdvancedPet_with_base_ok; [| easy]. apply Pet_set_hunger_ok, H. Qed.

Lemma AdvancedPet_set_energy_ok v a :
  AdvancedPet_ok a -> AdvancedPet_ok (AdvancedPet.set_energy v a).
Proof. intros H. apply AdvancedPet_with_base_ok; [| easy]. apply Pet_set_energy_ok, H. Qed.

Lemma AdvancedPet_set_happiness_ok v a :
  AdvancedPet_ok a -> AdvancedPet_ok (AdvancedPet.set_happiness v a).
Proof. intros H. apply AdvancedPet_with_base_ok; [| easy]. apply Pet_set_happiness_ok, H. Qed.

#[export] Hint Resolve AdvancedPet_with_base_ok AdvancedPet_with_diseases_ok
  AdvancedPet_set_hunger_ok AdvancedPet_set_energy_ok AdvancedPet_set_happiness_ok
  : pet_ok.

(** An inherited method keeps the ranges when it keeps them on a [Pet]. *)
Lemma AdvancedPet_super_ok (m : Pet.t -> Pet.t * list string) a :
  (forall p, Pet_ok p -> Pet_ok (fst (m p))) ->
  AdvancedPet_ok a -> AdvancedPet_ok (fst (AdvancedPet.super m a)).
Proof.
  intros Hm H. unfold AdvancedPet.super.
  specialize (Hm (AdvancedPet.base a) (proj1 H)).
  destruct (m (AdvancedPet.base a)) as [b out]. simpl in *. auto with pet_ok.
Qed.

Lemma AdvancedPet_eat_ok now u a :
  AdvancedPet_ok a -> AdvancedPet_ok (fst (AdvancedPet.eat now u a)).
Proof.
  intros H. unfold AdvancedPet.eat.
  pose proof (AdvancedPet_super_ok (Pet.eat now) a (Pet_eat_ok now) H) as H1.
  destruct (AdvancedPet.super (Pet.eat now) a) as [a1 out]. simpl in H1.
  destruct (Py.lt u _); [| easy].
  match goal with
  | |- context [AdvancedPet.set_health ?v a1] =>
      pose proof (AdvancedPet_set_health_ok v a1 (proj1 H1)) as H2;
      now destruct (AdvancedPet.set_health v a1)
  end.
Qed.

Lemma AdvancedPet_play_ok now u a :
  AdvancedPet_ok a -> AdvancedPet_ok (fst (AdvancedPet.play now u a)).
Proof.
  intros H. unfold AdvancedPet.play.
  pose proof (AdvancedPet_super_ok (Pet.play now) a (Pet_play_ok now) H) as H1.
  destruct (AdvancedPet.super (Pet.play now) a) as [a1 out]. simpl in H1.
  destruct (_ && _)%bool; [| easy].
  match goal with
  | |- context [AdvancedPet.set_health ?v a1] =>
      pose proof (AdvancedPet_set_health_ok v a1 (proj1 H1)) as H2;
      now destruct (AdvancedPet.set_health v a1)
  end.
Qed.

Lemma AdvancedPet_train_ok trick u now u2 a :
  AdvancedPet_ok a -> AdvancedPet_ok (fst (AdvancedPet.train trick u now u2 a)).
Proof.
  intros H. unfold AdvancedPet.train.
  pose proof (AdvancedPet_super_ok (Pet.train trick u now) a
                (Pet_train_ok trick u now) H) as H1.
  destruct (AdvancedPet.super (Pet.train trick u now) a) as [a1 out]. simpl in H1.
  destruct (_ && _)%bool; [| easy].
  pose proof (AdvancedPet_set_health_ok
    (Z.min 100 (AdvancedPet.health a1 + 1)) a1 (proj1 H1)) as H2.
  now destruct (AdvancedPet.set_health _ a1).
Qed.

Lemma AdvancedPet_get_status_ok a :
  AdvancedPet_ok a -> AdvancedPet_ok (fst (AdvancedPet.get_status a)).
Proof.
  intros H. unfold AdvancedPet.get_status, AdvancedPet.super, Pet.get_status.
  destruct (Pet._is_alive (AdvancedPet.base a)) eqn:E; simpl.
  - destruct a as [b h d]. simpl in *. unfold AdvancedPet.is_alive, Pet.is_alive.
    simpl. now rewrite E.
  - destruct a as [b h d]. simpl in *. unfold AdvancedPet.is_alive, Pet.is_alive.
    simpl. now rewrite E.
Qed.

Lemma AdvancedPet_contract_disease_ok disease k1 k2 k3 k4 a :
  AdvancedPet_ok a ->
  AdvancedPet_ok (fst (AdvancedPet.contract_disease disease k1 k2 k3 k4 a)).
Proof.
  intros H. unfold AdvancedPet.contract_disease.
  destruct (Py.known disease _); simpl; [easy |].
  match goal with
  | |- context [AdvancedPet.set_health ?v ?s] =>
      pose proof (AdvancedPet_set_health_ok v s) as H2;
      destruct (AdvancedPet.set_health v s)
  end.
  apply H2. simpl.
  apply Pet_set_happiness_ok, Pet_set_energy_ok, Pet_set_hunger_ok, H.
Qed.

Lemma AdvancedPet_treat_disease_ok disease u k a :
  AdvancedPet_ok a ->
  AdvancedPet_ok (AdvancedPet.state_of (AdvancedPet.treat_disease disease u k a)).
Proof.
  intros H. unfold AdvancedPet.treat_disease.
  destruct (Py.known disease _); simpl; [| easy].
  destruct (Py.lt u _); simpl; [| easy].
  destruct (Py.remove disease _) as [l |]; simpl; [| easy].
  match goal with
  | |- context [AdvancedPet.set_health ?v ?s] =>
      pose proof (AdvancedPet_set_health_ok v s) as H2;
      destruct (AdvancedPet.set_health v s)
  end.
  apply H2. simpl. apply H.
Qed.

Lemma AdvancedPet_worsen_ok disease d a :
  AdvancedPet_ok a -> AdvancedPet_ok (fst (AdvancedPet.worsen disease d a)).
Proof.
  intros H. unfold AdvancedPet.worsen.
  match goal with
  | |- context [AdvancedPet.set_health ?v ?s] =>
      pose proof (AdvancedPet_set_health_ok v s (proj1 H)) as H2;
      destruct (AdvancedPet.set_health v s)
  end.
  simpl in *. auto with pet_ok.
Qed.

Lemma AdvancedPet_worsen_loop_ok rnd snapshot : forall i a,
  AdvancedPet_ok a -> AdvancedPet_ok (fst (AdvancedPet.worsen_loop rnd i snapshot a)).
Proof.
  induction snapshot as [| disease rest IH]; intros i a H; simpl; [easy |].
  assert (AdvancedPet_ok
            (fst (if Py.lt (AdvancedPet.d_u (rnd i)) (Py.float (2 # 10))
                  then AdvancedPet.worsen disease (rnd i) a else (a, []))))
    as H1 by (destruct (Py.lt _ _); [now apply AdvancedPet_worsen_ok | easy]).
  destruct (if Py.lt _ _ then _ else _) as [a1 out]. simpl in H1.
  specialize (IH (S i) a1 H1).
  now destruct (AdvancedPet.worsen_loop rnd (S i) rest a1).
Qed.

Lemma AdvancedPet_time_passes_ok seconds now1 now2 rnd a :
  AdvancedPet_ok a ->
  AdvancedPet_ok (fst (AdvancedPet.time_passes seconds now1 now2 rnd a)).
Proof.
  intros H. unfold AdvancedPet.time_passes.
  pose proof (AdvancedPet_super_ok (Pet.time_passes seconds now1 now2) a
                (Pet_time_passes_ok seconds now1 now2) H) as H1.
  destruct (AdvancedPet.super _ a) as [a1 out]. simpl in H1.
  destruct (AdvancedPet.is_alive a1); [| easy].
  pose proof (AdvancedPet_worsen_loop_ok rnd (AdvancedPet._diseases a1) 0%nat a1 H1) as H2.
  now destruct (AdvancedPet.worsen_loop rnd 0 _ a1).
Qed.

Lemma AdvancedPet_step_ok (o : AdvancedPet.op) (a : AdvancedPet.t) :
  AdvancedPet_ok a -> AdvancedPet_ok (AdvancedPet.state_of (AdvancedPet.step o a)).
Proof.
  intros H.
  destruct o as [now u | now | now u | | trick u now u2 | | m | | seconds now1 now2 rnd
                | | v | v | v | v | disease k1 k2 k3 k4 | disease u k];
    cbn [AdvancedPet.step AdvancedPet.state_of AdvancedPet.returns];
    auto using AdvancedPet_eat_ok, AdvancedPet_play_ok, AdvancedPet_train_ok,
      AdvancedPet_get_status_ok, AdvancedPet_time_passes_ok,
      AdvancedPet_contract_disease_ok, AdvancedPet_treat_disease_ok with pet_ok.
  - apply (AdvancedPet_super_ok (Pet.sleep now) a (Pet_sleep_ok now) H).
  - apply (AdvancedPet_super_ok Pet.show_tricks a); [| easy].
    intros p Hp. apply (Pet_step_ok Pet.ShowTricks p Hp).
  - apply AdvancedPet_with_base_ok; [| easy]. apply Pet_update_mood_ok, H.
  - apply AdvancedPet_set_health_ok, H.
Qed.

Lemma AdvancedPet_run_ok (ops : list AdvancedPet.op) (a : AdvancedPet.t) :
  AdvancedPet_ok a -> AdvancedPet_ok (AdvancedPet.run ops a).
Proof.
  unfold AdvancedPet.run. revert a.
  induction ops as [| o ops IH]; intros a H; simpl; [easy |].
  apply IH. now apply AdvancedPet_step_ok.
Qed.

Lemma AdvancedPet_init_ok name species h e hp hl tr now :
  AdvancedPet_ok (fst (AdvancedPet.init name species h e hp hl tr now)).
Proof.
  unfold AdvancedPet.init.
  match goal with
  | |- context [AdvancedPet.set_health ?v ?s] =>
      pose proof (AdvancedPet_set_health_ok v s) as H2;
      destruct (AdvancedPet.set_health v s)
  end.
  simpl in *. apply AdvancedPet_with_diseases_ok, H2. apply Pet_init_ok.
Qed.

(** C3. Whatever the initial values and whatever calls follow the
    construction, the hunger, energy and happiness read from a [Pet] or an
    [AdvancedPet] are within 0..10, every stored personality weight is within
    0..1, and the health read from an [AdvancedPet] is within 0..100. *)
Theorem ranges_hold_for_every_run :
  (forall name species h e hp tr now (ops : list Pet.op),
     let p := Pet.run ops (Pet.init name species h e hp tr now) in
     (0 <= Pet.hunger p <= 10) /\ (0 <= Pet.energy p <= 10)
     /\ (0 <= Pet.happiness p <= 10)
     /\ (forall trait w,
           Personality.traits (Pet.personality p) !! trait = Some w ->
           (0 <= w <= 1)%Q))
  /\
  (forall name species h e hp hl tr now (ops : list AdvancedPet.op),
     let a := AdvancedPet.run ops
                (fst (AdvancedPet.init name species h e hp hl tr now)) in
     (0 <= Needs.hunger (AdvancedPet.needs a) <= 10)
     /\ (0 <= Needs.energy (AdvancedPet.needs a) <= 10)
     /\ (0 <= Needs.happiness (AdvancedPet.needs a) <= 10)
     /\ (forall trait w,
           Personality.traits (Pet.personality (AdvancedPet.base a)) !! trait = Some w ->
           (0 <= w <= 1)%Q)
     /\ (0 <= AdvancedPet.health a <= 100)).
Proof.
  split.
  - intros name species h e hp tr now ops p.
    destruct (Pet_run_ok ops _ (Pet_init_ok name species h e hp tr now))
      as [(Hh & He & Hp) Ht].
    exact (conj Hh (conj He (conj Hp Ht))).
  - intros name species h e hp hl tr now ops a.
    destruct (AdvancedPet_run_ok ops _
                (AdvancedPet_init_ok name species h e hp hl tr now))
      as [[(Hh & He & Hp) Ht] Hl].
    exact (conj Hh (conj He (conj Hp (conj Ht Hl)))).
Qed.

(** ** Dead pets *)

(** The guard at the head of every [Pet] action: a dead pet is handed back
    as it is. *)
Lemma Pet_dead_eat now p : Pet._is_alive p = false -> fst (Pet.eat now p) = p.
Proof. intros H. unfold Pet.eat. now rewrite H. Qed.

Lemma Pet_dead_sleep now p : Pet._is_alive p = false -> fst (Pet.sleep now p) = p.
Proof. intros H. unfold Pet.sleep. now rewrite H. Qed.

Lemma Pet_dead_play now p : Pet._is_alive p = false -> fst (Pet.play now p) = p.
Proof. intros H. unfold Pet.play. now rewrite H. Qed.

Lemma Pet_dead_train trick u now p :
  Pet._is_alive p = false -> fst (Pet.train trick u now p) = p.
Proof. intros H. unfold Pet.train. now rewrite H. Qed.

Lemma Pet_dead_time_passes seconds now1 now2 p :
  Pet._is_alive p = false -> Pet.time_passes seconds now1 now2 p = (p, []).
Proof. intros H. unfold Pet.time_passes. now rewrite H. Qed.

(** The two observers never change the object, dead or alive. *)
Lemma Pet_get_status_state p : fst (Pet.get_status p) = p.
Proof. unfold Pet.get_status. now destruct (Pet._is_alive p). Qed.

Lemma Pet_show_tricks_state p : fst (Pet.show_tricks p) = p.
Proof. unfold Pet.show_tricks. now destruct (Pet._is_alive p). Qed.

(** Writes on the needs leave the liveness flag alone. *)
Lemma Pet_apply_write_alive w p :
  Pet._is_alive (Pet.apply_write w p) = Pet._is_alive p.
Proof. now destruct w. Qed.

Lemma Pet_call_modifier_alive m p :
  Pet._is_alive (Pet.call_modifier m p) = Pet._is_alive p.
Proof.
  unfold Pet.call_modifier. generalize (m (Pet.needs p)) as ws. intros ws.
  revert p. induction ws as [| w ws IH]; intros p; simpl; [easy |].
  now rewrite IH, Pet_apply_write_alive.
Qed.

Lemma Pet_update_mood_alive p :
  Pet._is_alive (Pet.update_mood p) = Pet._is_alive p.
Proof.
  unfold Pet.update_mood. generalize (Pet._mood_modifiers p) as ms. intros ms.
  revert p. induction ms as [| m ms IH]; intros p; simpl; [easy |].
  now rewrite IH, Pet_call_modifier_alive.
Qed.

(** No call on a [Pet] turns a dead pet into a live one. *)
Lemma Pet_step_stays_dead (o : Pet.op) (p : Pet.t) :
  Pet.is_alive p = false -> Pet.is_alive (fst (Pet.step o p)) = false.
Proof.
  unfold Pet.is_alive. intros H.
  destruct o; cbn [Pet.step fst]; try easy.
  - now rewrite Pet_dead_eat.
  - now rewrite Pet_dead_sleep.
  - now rewrite Pet_dead_play.
  - now rewrite Pet_get_status_state.
  - now rewrite Pet_dead_train.
  - now rewrite Pet_show_tricks_state.
  - now rewrite Pet_update_mood_alive.
  - now rewrite Pet_dead_time_passes.
Qed.

Lemma Pet_run_stays_dead (ops : list Pet.op) (p : Pet.t) :
  Pet.is_alive p = false -> Pet.is_alive (Pet.run ops p) = false.
Proof.
  unfold Pet.run. revert p.
  induction ops as [| o ops IH]; intros p H; simpl; [easy |].
  apply IH. now apply Pet_step_stays_dead.
Qed.

(** The health setter changes the health and, at most, clears the flag. *)
Lemma AdvancedPet_set_health_stays_dead v a :
  AdvancedPet.is_alive a = false ->
  AdvancedPet.set_health v a = (AdvancedPet.with_health (Z.max 0 (Z.min 100 v)) a, []).
Proof.
  unfold AdvancedPet.is_alive, Pet.is_alive, AdvancedPet.set_health. intros H.
  cbn [AdvancedPet.with_health AdvancedPet.base AdvancedPet._health].
  now rewrite H, andb_false_r.
Qed.


Lemma AdvancedPet_super_dead (m : Pet.t -> Pet.t * list string) a :
  fst (m (AdvancedPet.base a)) = AdvancedPet.base a ->
  fst (AdvancedPet.super m a) = a.
Proof.
  unfold AdvancedPet.super. destruct (m (AdvancedPet.base a)) as [b out].
  simpl. intros ->. now destruct a.
Qed.


Lemma AdvancedPet_with_diseases_alive l a :
  AdvancedPet.is_alive (AdvancedPet.with_diseases l a) = AdvancedPet.is_alive a.
Proof. reflexivity. Qed.

Lemma AdvancedPet_set_hunger_alive v a :
  AdvancedPet.is_alive (AdvancedPet.set_hunger v a) = AdvancedPet.is_alive a.
Proof. reflexivity. Qed.

Lemma AdvancedPet_set_energy_alive v a :
  AdvancedPet.is_alive (AdvancedPet.set_energy v a) = AdvancedPet.is_alive a.
Proof. reflexivity. Qed.

Lemma AdvancedPet_set_happiness_alive v a :
  AdvancedPet.is_alive (AdvancedPet.set_happiness v a) = AdvancedPet.is_alive a.
Proof. reflexivity. Qed.

(** On a dead pet the [super()] call of an override hands the object back,
    with the one line the guard prints. *)
Lemma AdvancedPet_dead_super_eat now a :
  AdvancedPet.is_alive a = false ->
  AdvancedPet.super (Pet.eat now) a = (a, [Pet.msg_cannot (AdvancedPet.base a) "eat"]).
Proof.
  unfold AdvancedPet.is_alive, Pet.is_alive, AdvancedPet.super, Pet.eat.
  intros ->. now destruct a.
Qed.

Lemma AdvancedPet_dead_super_play now a :
  AdvancedPet.is_alive a = false ->
  AdvancedPet.super (Pet.play now) a = (a, [Pet.msg_cannot (AdvancedPet.base a) "play"]).
Proof.
  unfold AdvancedPet.is_alive, Pet.is_alive, AdvancedPet.super, Pet.play.
  intros ->. now destruct a.
Qed.

Lemma AdvancedPet_dead_super_train trick u now a :
  AdvancedPet.is_alive a = false ->
  AdvancedPet.super (Pet.train trick u now) a
  = (a, [Pet.msg_cannot (AdvancedPet.base a) "learn any new tricks"]).
Proof.
  unfold AdvancedPet.is_alive, Pet.is_alive, AdvancedPet.super, Pet.train.
  intros ->. now destruct a.
Qed.

Lemma AdvancedPet_dead_time_passes seconds now1 now2 rnd a :
  AdvancedPet.is_alive a = false ->
  AdvancedPet.time_passes seconds now1 now2 rnd a = (a, []).
Proof.
  intros H. unfold AdvancedPet.time_passes, AdvancedPet.super.
  rewrite Pet_dead_time_passes by exact H.
  replace (AdvancedPet.with_base (AdvancedPet.base a) a) with a by now destruct a.
  now rewrite H.
Qed.

Lemma AdvancedPet_get_status_state a : fst (AdvancedPet.get_status a) = a.
Proof.
  unfold AdvancedPet.get_status, AdvancedPet.super.
  pose proof (Pet_get_status_state (AdvancedPet.base a)) as H.
  destruct (Pet.get_status (AdvancedPet.base a)) as [b out]. simpl in H. subst b.
  replace (AdvancedPet.with_base (AdvancedPet.base a) a) with a by now destruct a.
  now destruct (AdvancedPet.is_alive a).
Qed.

Lemma AdvancedPet_show_tricks_state a :
  fst (AdvancedPet.super Pet.show_tricks a) = a.
Proof. apply AdvancedPet_super_dead, Pet_show_tricks_state. Qed.

(** Rewrites a health write on a dead pet into the plain field update. *)
Ltac dead_health H :=
  rewrite AdvancedPet_set_health_stays_dead by
    (rewrite ?AdvancedPet_set_happiness_alive, ?AdvancedPet_set_energy_alive,
       ?AdvancedPet_set_hunger_alive, ?AdvancedPet_with_diseases_alive; exact H);
  cbn [fst snd].

Lemma AdvancedPet_eat_stays_dead now u a :
  AdvancedPet.is_alive a = false ->
  AdvancedPet.is_alive (fst (AdvancedPet.eat now u a)) = false.
Proof.
  intros H. unfold AdvancedPet.eat. rewrite AdvancedPet_dead_super_eat by exact H.
  destruct (Py.lt u _); [| exact H]. dead_health H. exact H.
Qed.

Lemma AdvancedPet_play_stays_dead now u a :
  AdvancedPet.is_alive a = false ->
  AdvancedPet.is_alive (fst (AdvancedPet.play now u a)) = false.
Proof.
  intros H. unfold AdvancedPet.play. rewrite AdvancedPet_dead_super_play by exact H.
  destruct (_ && _)%bool; [| exact H]. dead_health H. exact H.
Qed.

Lemma AdvancedPet_train_stays_dead trick u now u2 a :
  AdvancedPet.is_alive a = false ->
  AdvancedPet.is_alive (fst (AdvancedPet.train trick u now u2 a)) = false.
Proof.
  intros H. unfold AdvancedPet.train. rewrite AdvancedPet_dead_super_train by exact H.
  destruct (_ && _)%bool; [| exact H]. dead_health H. exact H.
Qed.

Lemma AdvancedPet_contract_disease_stays_dead disease k1 k2 k3 k4 a :
  AdvancedPet.is_alive a = false ->
  AdvancedPet.is_alive (fst (AdvancedPet.contract_disease disease k1 k2 k3 k4 a)) = false.
Proof.
  intros H. unfold AdvancedPet.contract_disease.
  destruct (Py.known disease _); cbn [negb]; [exact H |].
  dead_health H. exact H.
Qed.

Lemma AdvancedPet_treat_disease_stays_dead disease u k a :
  AdvancedPet.is_alive a = false ->
  AdvancedPet.is_alive (AdvancedPet.state_of (AdvancedPet.treat_disease disease u k a))
  = false.
Proof.
  intros H. unfold AdvancedPet.treat_disease.
  destruct (Py.known disease _); [| exact H].
  destruct (Py.lt u _); [| exact H].
  destruct (Py.remove disease _) as [l |]; [| exact H].
  dead_health H. exact H.
Qed.

(** No call on an [AdvancedPet] turns a dead pet into a live one. *)
Lemma AdvancedPet_step_stays_dead (o : AdvancedPet.op) (a : AdvancedPet.t) :
  AdvancedPet.is_alive a = false ->
  AdvancedPet.is_alive (AdvancedPet.state_of (AdvancedPet.step o a)) = false.
Proof.
  intros H.
  destruct o as [now u | now | now u | | trick u now u2 | | m | | seconds now1 now2 rnd
                | | v | v | v | v | disease k1 k2 k3 k4 | disease u k];
    cbn [AdvancedPet.step AdvancedPet.state_of AdvancedPet.returns];
    auto using AdvancedPet_eat_stays_dead, AdvancedPet_play_stays_dead,
      AdvancedPet_train_stays_dead, AdvancedPet_contract_disease_stays_dead,
      AdvancedPet_treat_disease_stays_dead.
  - rewrite AdvancedPet_super_dead; [exact H | now apply Pet_dead_sleep].
  - now rewrite AdvancedPet_get_status_state.
  - now rewrite AdvancedPet_show_tricks_state.
  - unfold AdvancedPet.is_alive, Pet.is_alive. simpl.
    rewrite Pet_update_mood_alive. exact H.
  - now rewrite AdvancedPet_dead_time_passes.
  - dead_health H. exact H.
Qed.

Lemma AdvancedPet_run_stays_dead (ops : list AdvancedPet.op) (a : AdvancedPet.t) :
  AdvancedPet.is_alive a = false -> AdvancedPet.is_alive (AdvancedPet.run ops a) = false.
Proof.
  unfold AdvancedPet.run. revert a.
  induction ops as [| o ops IH]; intros a H; simpl; [easy |].
  apply IH. now apply AdvancedPet_step_stays_dead.
Qed.

(** C6. Dying is permanent, for a [Pet] and for an [AdvancedPet]: when
    [is_alive()] is false after some calls, it is false after any further
    calls as well. *)
Theorem death_is_permanent (p : Pet.t) (a : AdvancedPet.t)
    (ops more : list Pet.op) (aops amore : list AdvancedPet.op) :
  (Pet.is_alive (Pet.run ops p) = false ->
   Pet.is_alive (Pet.run (ops ++ more) p) = false)
  /\
  (AdvancedPet.is_alive (AdvancedPet.run aops a) = false ->
   AdvancedPet.is_alive (AdvancedPet.run (aops ++ amore) a) = false).
Proof.
  split; intros H.
  - unfold Pet.run. rewrite fold_left_app. now apply Pet_run_stays_dead.
  - unfold AdvancedPet.run. rewrite fold_left_app.
    now apply AdvancedPet_run_stays_dead.
Qed.

Lemma death_is_permanent_witness :
  Pet.is_alive (Pet.run [Pet.TimePasses 3600 (36000 # 1)%Q (36000 # 1)%Q] buddy) = false
  /\ Pet.is_alive
       (Pet.run ([Pet.TimePasses 3600 (36000 # 1)%Q (36000 # 1)%Q]
                 ++ [Pet.Eat (36001 # 1)%Q; Pet.Sleep (36002 # 1)%Q;
                     Pet.SetHappiness 10; Pet.UpdateMood]) buddy) = false
  /\ AdvancedPet.is_alive (AdvancedPet.run [AdvancedPet.SetHealth 0] (rex 50)) = false
  /\ AdvancedPet.is_alive
       (AdvancedPet.run ([AdvancedPet.SetHealth 0]
                         ++ [AdvancedPet.Eat 1%Q 0%Q; AdvancedPet.SetHealth 100])
          (rex 50)) = false.
Proof.
  pose proof (death_is_permanent buddy (rex 50)
    [Pet.TimePasses 3600 (36000 # 1)%Q (36000 # 1)%Q]
    [Pet.Eat (36001 # 1)%Q; Pet.Sleep (36002 # 1)%Q; Pet.SetHappiness 10; Pet.UpdateMood]
    [AdvancedPet.SetHealth 0]
    [AdvancedPet.Eat 1%Q 0%Q; AdvancedPet.SetHealth 100]) as [HP HA].
  split; [vm_compute; reflexivity |].
  split; [apply HP; vm_compute; reflexivity |].
  split; [vm_compute; reflexivity |].
  apply HA. vm_compute. reflexivity.
Defined.

(** ** The status methods only observe *)

Lemma Pet_observers_state (bs : list bool) (p : Pet.t) :
  Pet.run (map observer bs) p = p.
Proof.
  unfold Pet.run. induction bs as [| b bs IH]; simpl; [easy |].
  destruct b; simpl; now rewrite ?Pet_get_status_state, ?Pet_show_tricks_state.
Qed.

Lemma AdvancedPet_observers_state (bs : list bool) (a : AdvancedPet.t) :
  AdvancedPet.run (map advanced_observer bs) a = a.
Proof.
  unfold AdvancedPet.run. induction bs as [| b bs IH]; simpl; [easy |].
  destruct b; simpl;
    now rewrite ?AdvancedPet_get_status_state, ?AdvancedPet_show_tricks_state.
Qed.

(** C9. [show_tricks()] and [get_status()] are pure observers: any number
    of calls of them, in any order, on a [Pet] or an [AdvancedPet] in any
    state, alive or dead, returns normally and leaves the whole object as it
    was. *)
Theorem status_methods_are_observers :
  (forall (p : Pet.t) (bs : list bool), Pet.run (map observer bs) p = p)
  /\ (forall (a : AdvancedPet.t) (bs : list bool),
        AdvancedPet.run (map advanced_observer bs) a = a)
  /\ (forall (p : Pet.t), fst (Pet.show_tricks p) = p /\ fst (Pet.get_status p) = p)
  /\ (forall (a : AdvancedPet.t),
        AdvancedPet.step AdvancedPet.ShowTricks a
        = AdvancedPet.Returns a (snd (Pet.show_tricks (AdvancedPet.base a)))
        /\ AdvancedPet.step AdvancedPet.GetStatus a
           = AdvancedPet.Returns a (snd (AdvancedPet.get_status a))).
Proof.
  split; [intros; apply Pet_observers_state |].
  split; [intros; apply AdvancedPet_observers_state |].
  split; [intros p; split; [apply Pet_show_tricks_state | apply Pet_get_status_state] |].
  intros a. split; cbn [AdvancedPet.step]; unfold AdvancedPet.returns.
  - rewrite AdvancedPet_show_tricks_state. f_equal.
    unfold AdvancedPet.super. now destruct (Pet.show_tricks (AdvancedPet.base a)).
  - now rewrite AdvancedPet_get_status_state.
Qed.

(** ** Death by illness *)



(** The health setter on a live pet, for a value of at most 0. *)
Lemma AdvancedPet_set_health_kills (a : AdvancedPet.t) (value : Z) :
  AdvancedPet.is_alive a = true -> value <= 0 ->
  AdvancedPet.set_health value a
  = (AdvancedPet.mk (Pet.with_is_alive false (AdvancedPet.base a)) 0
       (AdvancedPet._diseases a),
     [AdvancedPet.msg_illness a]).
Proof.
  unfold AdvancedPet.is_alive, Pet.is_alive, AdvancedPet.set_health.
  intros H Hv.
  cbn [AdvancedPet.with_health AdvancedPet.base AdvancedPet._health
       AdvancedPet._diseases AdvancedPet.with_base].
  replace (Z.max 0 (Z.min 100 value)) with 0 by lia.
  now rewrite H.
Qed.

(** The health setter for a value above 0 prints nothing and leaves the
    flag alone. *)
Lemma AdvancedPet_set_health_positive (a : AdvancedPet.t) (value : Z) :
  0 < value ->
  AdvancedPet.set_health value a
  = (AdvancedPet.with_health (Z.max 0 (Z.min 100 value)) a, []).
Proof.
  unfold AdvancedPet.set_health. intros Hv.
  cbn [AdvancedPet.with_health AdvancedPet.base AdvancedPet._health].
  destruct (Z.leb_spec (Z.max 0 (Z.min 100 value)) 0) as [L | L]; [lia | easy].
Qed.

(** C10. An [AdvancedPet] constructed with [initial_health <= 0] is dead
    when the constructor returns: the setter stores health 0, clears the
    liveness flag and prints the illness line; nothing else of the new object
    differs from a pet constructed alive. *)
Theorem born_dead_when_health_not_positive
    (name species : string) (h e hp initial_health : Z)
    (tr : option (gmap string Q)) (now : Q) :
  initial_health <= 0 ->
  let '(a, out) := AdvancedPet.init name species h e hp initial_health tr now in
  AdvancedPet.is_alive a = false
  /\ AdvancedPet.health a = 0
  /\ out = [name ++ " has succumbed to illness."]
  /\ AdvancedPet._diseases a = []
  /\ AdvancedPet.base a
     = Pet.with_is_alive false (Pet.init name species h e hp tr now).
Proof.
  intros H. unfold AdvancedPet.init.
  rewrite AdvancedPet_set_health_kills by (try reflexivity; lia).
  repeat split.
Qed.

Lemma born_dead_when_health_not_positive_witness :
  (-3 <= 0)
  /\ AdvancedPet.is_alive (rex (-3)) = false
  /\ AdvancedPet.health (rex (-3)) = 0
  /\ snd (AdvancedPet.init "Rex" "Cat" 5 7 5 (-3) None 0%Q)
     = ["Rex has succumbed to illness."].
Proof.
  pose proof (born_dead_when_health_not_positive "Rex" "Cat" 5 7 5 (-3) None 0%Q
                ltac:(lia)) as H.
  unfold rex. destruct (AdvancedPet.init "Rex" "Cat" 5 7 5 (-3) None 0%Q) as [a out].
  destruct H as (H1 & H2 & H3 & _). simpl. repeat split; try assumption. lia.
Defined.





(** ** Calls on a dead pet *)

(** On a dead [Pet] every action method hands the object back unchanged and
    prints one line at most. *)
Lemma Pet_dead_actions_are_noops (p : Pet.t) (now u : Q) (trick : string) :
  Pet.is_alive p = false ->
  Pet.eat now p = (p, [Pet.msg_cannot p "eat"])
  /\ Pet.sleep now p = (p, [Pet.msg_cannot p "sleep"])
  /\ Pet.play now p = (p, [Pet.msg_cannot p "play"])
  /\ Pet.train trick u now p = (p, [Pet.msg_cannot p "learn any new tricks"])
  /\ Pet.show_tricks p = (p, [Pet.msg_cannot p "show any tricks"])
  /\ Pet.get_status p = (p, [Pet.msg_passed_away p]).
Proof.
  unfold Pet.is_alive, Pet.eat, Pet.sleep, Pet.play, Pet.train, Pet.show_tricks,
    Pet.get_status.
  intros ->. repeat split.
Qed.

(** The methods [AdvancedPet] inherits or guards itself do the same. *)
Lemma AdvancedPet_dead_guarded_are_noops (a : AdvancedPet.t) (now : Q) :
  AdvancedPet.is_alive a = false ->
  fst (AdvancedPet.super (Pet.sleep now) a) = a
  /\ fst (AdvancedPet.super Pet.show_tricks a) = a
  /\ AdvancedPet.get_status a = (a, [Pet.msg_passed_away (AdvancedPet.base a)]).
Proof.
  intros H. split; [| split].
  - apply AdvancedPet_super_dead, Pet_dead_sleep, H.
  - apply AdvancedPet_show_tricks_state.
  - unfold AdvancedPet.get_status, AdvancedPet.super, Pet.get_status.
    unfold AdvancedPet.is_alive, Pet.is_alive in H. rewrite H. cbn [negb].
    unfold AdvancedPet.is_alive, Pet.is_alive. cbn [AdvancedPet.with_base AdvancedPet.base].
    rewrite H. now destruct a.
Qed.

(** C1 (the code departs from it). The overrides [eat], [play] and [train]
    of [AdvancedPet] go on after the guarded [super()] call, and
    [contract_disease] and [treat_disease] have no guard: on a dead
    [AdvancedPet] they still change health, needs and diseases.  Here on Rex
    dead of neglect (health 45, diseases Flu, trick Sit) and on Rex born dead
    (needs 5, 7, 5). *)
Theorem dead_advanced_pet_still_changes :
  AdvancedPet.is_alive rex_neglected = false
  /\ AdvancedPet.health rex_neglected = 45
  /\ AdvancedPet._diseases rex_neglected = ["Flu"]
  /\ AdvancedPet.health (fst (AdvancedPet.eat (36001 # 1)%Q 0%Q rex_neglected)) = 47
  /\ AdvancedPet.health (fst (AdvancedPet.play (36001 # 1)%Q 0%Q rex_neglected)) = 43
  /\ AdvancedPet.health
       (fst (AdvancedPet.train "Sit" 0%Q (36001 # 1)%Q 0%Q rex_neglected)) = 46
  /\ AdvancedPet._diseases
       (AdvancedPet.state_of (AdvancedPet.treat_disease "Flu" 0%Q 0 rex_neglected)) = []
  /\ AdvancedPet.health
       (AdvancedPet.state_of (AdvancedPet.treat_disease "Flu" 0%Q 0 rex_neglected)) = 50
  /\ AdvancedPet.is_alive (rex 0) = false
  /\ view (rex 0) = (false, Needs.mk 5 7 5, [], 0, [], 0%Q)
  /\ view (fst (AdvancedPet.contract_disease "Flu" 0 0 0 0 (rex 0)))
     = (false, Needs.mk 6 6 3, [], 0, ["Flu"], 0%Q).
Proof. vm_compute. repeat split. Qed.

(** ** Treating a disease *)

Lemma Py_remove_None (x : string) (l : list string) :
  Py.remove x l = None <-> ~ In x l.
Proof.
  induction l as [| y l IH]; simpl; [easy |].
  destruct (String.eqb_spec y x) as [-> | N].
  - split; [discriminate | intros H; exfalso; apply H; now left].
  - destruct (Py.remove x l) as [r |].
    + split; [discriminate |]. intros H. exfalso.
      assert (~ In x l) as H' by (intros I; apply H; now right).
      apply IH in H'. discriminate H'.
    + split; [| easy]. intros _ [E | I]; [easy | now apply IH].
Qed.

(** The name is not among the diseases, in any casing: one line, no change. *)
Lemma treat_disease_absent (a : AdvancedPet.t) (disease : string) (u : Q) (k : Z) :
  Py.known disease (AdvancedPet._diseases a) = false ->
  AdvancedPet.treat_disease disease u k a
  = AdvancedPet.Returns a [AdvancedPet.name a ++ " doesn't have '" ++ disease ++ "'."].
Proof. intros H. unfold AdvancedPet.treat_disease. now rewrite H. Qed.

(** The draw is not below the chance, the float [0.7 * cooperativeness]: one
    line, no change. *)
Lemma treat_disease_unsuccessful (a : AdvancedPet.t) (disease : string) (u : Q) (k : Z) :
  Py.known disease (AdvancedPet._diseases a) = true ->
  (Py.mul (Py.float (7 # 10)) (AdvancedPet.influence a "cooperativeness") <= u)%Q ->
  AdvancedPet.treat_disease disease u k a
  = AdvancedPet.Returns a ["Treatment for '" ++ disease ++ "' was unsuccessful."].
Proof.
  intros H Hu. unfold AdvancedPet.treat_disease. rewrite H.
  destruct (Py.lt u _) eqn:E; [| easy].
  apply Py_lt_true in E. exfalso. apply (Qlt_not_le _ _ E), Hu.
Qed.

(** The draw is below the chance and the name is stored as given:
    the disease is removed and the health raised by a value of 5..10, up to
    100. *)
Lemma treat_disease_cured (a : AdvancedPet.t) (disease : string) (u : Q) (k : Z)
    (l : list string) :
  0 <= AdvancedPet.health a ->
  Py.known disease (AdvancedPet._diseases a) = true ->
  (u < Py.mul (Py.float (7 # 10)) (AdvancedPet.influence a "cooperativeness"))%Q ->
  Py.remove disease (AdvancedPet._diseases a) = Some l ->
  AdvancedPet.treat_disease disease u k a
  = AdvancedPet.Returns
      (AdvancedPet.mk (AdvancedPet.base a)
         (Z.min 100 (AdvancedPet.health a + Py.randint 5 10 k)) l)
      [AdvancedPet.name a ++ " has been cured of '" ++ disease ++ "'."]
  /\ 5 <= Py.randint 5 10 k <= 10.
Proof.
  intros Hh H Hu Hr. split; [| apply Py_randint_range; lia].
  unfold AdvancedPet.treat_disease. rewrite H.
  apply Py_lt_true in Hu. rewrite Hu, Hr.
  pose proof (Py_randint_range 5 10 k ltac:(lia)) as Hk.
  rewrite AdvancedPet_set_health_positive
    by (unfold AdvancedPet.health in *; cbn [AdvancedPet.with_diseases AdvancedPet._health]; lia).
  unfold AdvancedPet.health in *.
  cbn [AdvancedPet.with_diseases AdvancedPet.with_health AdvancedPet._health
       AdvancedPet.base AdvancedPet._diseases app].
  replace (Z.max 0 (Z.min 100 (Z.min 100 (AdvancedPet._health a + Py.randint 5 10 k))))
    with (Z.min 100 (AdvancedPet._health a + Py.randint 5 10 k)) by lia.
  reflexivity.
Qed.

(** The draw is below the chance and the name matches a stored
    disease in another casing only: [list.remove] raises [ValueError]. *)
Lemma treat_disease_raises (a : AdvancedPet.t) (disease : string) (u : Q) (k : Z) :
  Py.known disease (AdvancedPet._diseases a) = true ->
  (u < Py.mul (Py.float (7 # 10)) (AdvancedPet.influence a "cooperativeness"))%Q ->
  ~ In disease (AdvancedPet._diseases a) ->
  AdvancedPet.treat_disease disease u k a = AdvancedPet.Raises ValueError a [].
Proof.
  intros H Hu Hn. unfold AdvancedPet.treat_disease. rewrite H.
  apply Py_lt_true in Hu. rewrite Hu.
  apply Py_remove_None in Hn. now rewrite Hn.
Qed.

(** C2 (the code departs from it). [treat_disease] tests the name without
    regard to case but removes it with [list.remove], which compares exactly:
    on a live, fully cooperative Rex that has "Flu", [treat_disease("flu")]
    with a successful draw ends in [ValueError], while [treat_disease("Flu")]
    with the same draw cures. *)
Theorem treat_disease_other_casing_raises :
  AdvancedPet.is_alive rex_cooperative_with_flu = true
  /\ AdvancedPet._diseases rex_cooperative_with_flu = ["Flu"]
  /\ Py.known "flu" (AdvancedPet._diseases rex_cooperative_with_flu) = true
  /\ AdvancedPet.treat_disease "flu" 0%Q 0 rex_cooperative_with_flu
     = AdvancedPet.Raises ValueError rex_cooperative_with_flu []
  /\ AdvancedPet.treat_disease "Flu" 0%Q 0 rex_cooperative_with_flu
     = AdvancedPet.Returns
         (AdvancedPet.mk (AdvancedPet.base rex_cooperative_with_flu) 50 [])
         ["Rex has been cured of 'Flu'."].
Proof. vm_compute. repeat split. Qed.

(** ** Eating *)

(** What [eat] stores on a live pet, before any assumption on the ranges. *)
Lemma Pet_eat_alive (p : Pet.t) (now : Q) :
  Pet.is_alive p = true ->
  Pet.eat now p
  = (Pet.mk (Pet.name p) (Pet.species p)
       (Needs.mk
          (Z.max 0 (Z.min 10 (Z.max 0 (Pet.hunger p
             - Py.int (Py.sub 3 (Py.mul 1 (Pet.influence p "pickiness")))))))
          (Pet.energy p)
          (Z.max 0 (Z.min 10 (Z.min 10 (Pet.happiness p
             + Py.int (Py.add 1 (Py.mul (Py.float (5 # 10))
                                   (Pet.influence p "joyfulness"))))))))
       (Pet.tricks p) (Pet.personality p) true now (Pet._mood_modifiers p),
     [Pet.name p ++ " is eating..."]).
Proof.
  unfold Pet.is_alive, Pet.eat. intros H. rewrite H. cbn [negb].
  unfold Pet.with_last_interaction, Pet.set_happiness, Pet.set_hunger, Pet.with_needs,
    Pet.hunger, Pet.happiness, Pet.energy, Pet.influence,
    Needs.set_hunger, Needs.set_happiness, Needs.hunger, Needs.happiness, Needs.energy.
  cbn [Pet.name Pet.species Pet.needs Pet.tricks Pet.personality Pet._is_alive
       Pet._last_interaction Pet._mood_modifiers
       Needs._hunger Needs._energy Needs._happiness].
  now rewrite H.
Qed.

(** C8. On a live [Pet] with stored values in range, [eat()] lowers hunger
    by [int(3 - 1 * pickiness)], not below 0, and raises happiness by
    [int(1 + 0.5 * joyfulness)], not above 10; energy is not touched.  The two
    amounts are computed in floats, as the code does, and [int] truncates
    them toward zero: each is the integer [n] with [n <= x < n + 1] for the
    positive float [x] it is taken of.  A trait that is absent counts 0.5.
    With pickiness 0 and joyfulness 0 the two amounts are exactly 3 and 1. *)
Theorem eat_changes_hunger_and_happiness (p : Pet.t) (now : Q) :
  Pet.is_alive p = true ->
  Pet_ok p ->
  let pickiness := Pet.influence p "pickiness" in
  let joyfulness := Pet.influence p "joyfulness" in
  let hunger_reduction := Py.sub 3 (Py.mul 1 pickiness) in
  let happiness_increase := Py.add 1 (Py.mul (Py.float (5 # 10)) joyfulness) in
  let p' := fst (Pet.eat now p) in
  Pet.hunger p' = Z.max 0 (Pet.hunger p - Py.int hunger_reduction)
  /\ Pet.happiness p' = Z.min 10 (Pet.happiness p + Py.int happiness_increase)
  /\ Pet.energy p' = Pet.energy p
  /\ (0 < hunger_reduction)%Q
  /\ (inject_Z (Py.int hunger_reduction) <= hunger_reduction
      < inject_Z (Py.int hunger_reduction + 1))%Q
  /\ (0 < happiness_increase)%Q
  /\ (inject_Z (Py.int happiness_increase) <= happiness_increase
      < inject_Z (Py.int happiness_increase + 1))%Q
  /\ ((pickiness == 0)%Q -> Pet.hunger p' = Z.max 0 (Pet.hunger p - 3))
  /\ ((joyfulness == 0)%Q -> Pet.happiness p' = Z.min 10 (Pet.happiness p + 1))
  /\ (Personality.traits (Pet.personality p) !! "pickiness" = None ->
      pickiness = (1 # 2)%Q)
  /\ (Personality.traits (Pet.personality p) !! "joyfulness" = None ->
      joyfulness = (1 # 2)%Q).
Proof.
  intros Halive [(Hh & He & Hp) Hpers] pickiness joyfulness
    hunger_reduction happiness_increase p'.
  pose proof (influence_range (Pet.personality p) "pickiness" Hpers) as Hk.
  pose proof (influence_range (Pet.personality p) "joyfulness" Hpers) as Hj.
  fold (Pet.influence p "pickiness") in Hk. fold pickiness in Hk.
  fold (Pet.influence p "joyfulness") in Hj. fold joyfulness in Hj.
  pose proof (Py_int_sub_3_mul_1 pickiness Hk) as Hd. fold hunger_reduction in Hd.
  pose proof (Py_int_add_1_mul_half joyfulness Hj) as Hi.
  fold happiness_increase in Hi.
  assert (2 <= hunger_reduction)%Q as Pd.
  { pose proof (Py_sub_range 3 _ _ _
      (Py_mul_range 1 pickiness 0 1 ltac:(float_eval) Hk)) as [L _].
    eapply Qle_trans; [| exact L]. float_eval. }
  assert (1 <= happiness_increase)%Q as Pi.
  { pose proof (Py_add_range 1 _ _ _
      (Py_mul_range (Py.float (5 # 10)) joyfulness 0 1 ltac:(float_eval) Hj)) as [L _].
    eapply Qle_trans; [| exact L]. float_eval. }
  assert (Pet.hunger p' = Z.max 0 (Pet.hunger p - Py.int hunger_reduction)
          /\ Pet.happiness p' = Z.min 10 (Pet.happiness p + Py.int happiness_increase)
          /\ Pet.energy p' = Pet.energy p) as (E1 & E2 & E3).
  { subst p'. rewrite Pet_eat_alive by exact Halive.
    unfold Pet.hunger, Pet.happiness, Pet.energy in *.
    cbn [fst Pet.needs Needs.hunger Needs.happiness Needs.energy
         Needs._hunger Needs._happiness Needs._energy].
    fold pickiness joyfulness. fold hunger_reduction happiness_increase.
    unfold Needs.hunger, Needs.happiness, Needs.energy in *. repeat split; lia. }
  split; [exact E1 |]. split; [exact E2 |]. split; [exact E3 |].
  split; [lra |]. split; [apply Py_int_truncates; lra |].
  split; [lra |]. split; [apply Py_int_truncates; lra |].
  split; [| split; [| split]].
  - intros Z0. rewrite E1. subst hunger_reduction.
    replace (Py.mul 1 pickiness) with (Py.mul 1 0)
      by (apply Py_fl_Qeq; rewrite Z0; reflexivity).
    replace (Py.int (Py.sub 3 (Py.mul 1 0))) with 3 by (vm_compute; reflexivity).
    reflexivity.
  - intros Z0. rewrite E2. subst happiness_increase.
    replace (Py.mul (Py.float (5 # 10)) joyfulness) with (Py.mul (Py.float (5 # 10)) 0)
      by (apply Py_fl_Qeq; rewrite Z0; reflexivity).
    replace (Py.int (Py.add 1 (Py.mul (Py.float (5 # 10)) 0))) with 1
      by (vm_compute; reflexivity).
    reflexivity.
  - intros N. subst pickiness.
    unfold Pet.influence, Personality.get_trait_influence. now rewrite N.
  - intros N. subst joyfulness.
    unfold Pet.influence, Personality.get_trait_influence. now rewrite N.
Qed.

Lemma eat_changes_hunger_and_happiness_witness :
  Pet.is_alive buddy_plain = true
  /\ (Pet.influence buddy_plain "pickiness" == 0)%Q
  /\ (Pet.influence buddy_plain "joyfulness" == 0)%Q
  /\ Pet.hunger buddy_plain = 5 /\ Pet.happiness buddy_plain = 5
  /\ Pet.hunger (fst (Pet.eat 1%Q buddy_plain)) = 2
  /\ Pet.happiness (fst (Pet.eat 1%Q buddy_plain)) = 6.
Proof.
  assert (Pet_ok buddy_plain) as Hok by apply Pet_init_ok.
  assert (Pet.influence buddy_plain "pickiness" == 0)%Q as Hk
    by (vm_compute; reflexivity).
  assert (Pet.influence buddy_plain "joyfulness" == 0)%Q as Hj
    by (vm_compute; reflexivity).
  pose proof (eat_changes_hunger_and_happiness buddy_plain 1%Q
                ltac:(vm_compute; reflexivity) Hok)
    as (_ & _ & _ & _ & _ & _ & _ & H3 & H1 & _).
  split; [vm_compute; reflexivity |].
  split; [exact Hk |]. split; [exact Hj |].
  split; [vm_compute; reflexivity |]. split; [vm_compute; reflexivity |].
  split; [rewrite (H3 Hk) | rewrite (H1 Hj)]; vm_compute; reflexivity.
Defined.

(** The difference is rounded before it is truncated: at pickiness [2^-60]
    the float [3 - 1 * pickiness] is 3, and [eat] takes 3 from the hunger,
    where the exact difference would truncate to 2. *)
Example eat_rounds_before_truncating :
  Py.int (Py.sub 3 (Py.mul 1 (1 # 2 ^ 60))) = 3
  /\ Py.int (3 - 1 * (1 # 2 ^ 60))%Q = 2.
Proof. split; vm_compute; reflexivity. Qed.

(** ** The passage of time *)

(** The three periods are positive for trait weights in range, so no
    division of [time_passes] is a division by zero. *)
Lemma time_passes_periods_positive (p : Pet.t) :
  Personality_ok (Pet.personality p) ->
  (0 < Py.div 3600 (Py.add 3 (Py.mul 2 (Pet.influence p "metabolism"))))%Q
  /\ (0 < Py.div 7200 (Py.add 5 (Py.mul 3 (Pet.influence p "activity"))))%Q
  /\ (0 < Py.div 10800 (Py.add 2 (Py.mul 1 (Pet.influence p "sociability"))))%Q.
Proof.
  intros H.
  pose proof (influence_range (Pet.personality p) "metabolism" H) as A.
  pose proof (influence_range (Pet.personality p) "activity" H) as B.
  pose proof (influence_range (Pet.personality p) "sociability" H) as C.
  unfold Pet.influence.
  split; [| split].
  - pose proof (Py_add_range 3 _ _ _ (Py_mul_range 2 _ 0 1 ltac:(float_eval) A)) as R.
    apply (Py_div_range 3600) in R; [| float_eval | float_eval].
    eapply Qlt_le_trans; [| apply R]. float_eval.
  - pose proof (Py_add_range 5 _ _ _ (Py_mul_range 3 _ 0 1 ltac:(float_eval) B)) as R.
    apply (Py_div_range 7200) in R; [| float_eval | float_eval].
    eapply Qlt_le_trans; [| apply R]. float_eval.
  - pose proof (Py_add_range 2 _ _ _ (Py_mul_range 1 _ 0 1 ltac:(float_eval) C)) as R.
    apply (Py_div_range 10800) in R; [| float_eval | float_eval].
    eapply Qlt_le_trans; [| apply R]. float_eval.
Qed.

(** [time_passes] on a live pet whose last interaction is at least
    [seconds] ago. *)
Lemma Pet_time_passes_acts (p : Pet.t) (seconds : Z) (now1 now2 : Q) :
  Pet.is_alive p = true ->
  (inject_Z seconds <= Py.sub now1 (Pet._last_interaction p))%Q ->
  let elapsed := Py.sub now1 (Pet._last_interaction p) in
  let hunger' :=
    Z.max 0 (Z.min 10 (Pet.hunger p
      + Py.int (Py.div elapsed
                  (Py.div 3600 (Py.add 3 (Py.mul 2 (Pet.influence p "metabolism"))))))) in
  let energy' :=
    Z.max 0 (Z.min 10 (Pet.energy p
      - Py.int (Py.div elapsed
                  (Py.div 7200 (Py.add 5 (Py.mul 3 (Pet.influence p "activity"))))))) in
  let happiness' :=
    Z.max 0 (Z.min 10 (Pet.happiness p
      - Py.int (Py.div elapsed
                  (Py.div 10800
                     (Py.add 2 (Py.mul 1 (Pet.influence p "sociability"))))))) in
  let dies := ((10 <=? hunger')%Z || (energy' <=? 0)%Z || (happiness' <=? 0)%Z)%bool in
  Pet.time_passes seconds now1 now2 p
  = (Pet.mk (Pet.name p) (Pet.species p) (Needs.mk hunger' energy' happiness')
       (Pet.tricks p) (Pet.personality p) (negb dies) now2 (Pet._mood_modifiers p),
     if dies then [Pet.msg_neglect p] else []).
Proof.
  unfold Pet.is_alive. intros Halive Hgate. cbv zeta.
  unfold Pet.time_passes. rewrite Halive. cbn [negb].
  apply Py_ge_true in Hgate. rewrite Hgate.
  unfold Pet.with_last_interaction, Pet.with_is_alive, Pet.set_happiness, Pet.set_energy,
    Pet.set_hunger, Pet.with_needs, Pet.hunger, Pet.happiness, Pet.energy, Pet.influence,
    Pet.msg_neglect,
    Needs.set_hunger, Needs.set_energy, Needs.set_happiness,
    Needs.hunger, Needs.happiness, Needs.energy.
  cbn [Pet.name Pet.species Pet.needs Pet.tricks Pet.personality Pet._is_alive
       Pet._last_interaction Pet._mood_modifiers
       Needs._hunger Needs._energy Needs._happiness].
  set (dh := Py.int (Py.div _ (Py.div 3600 _))).
  set (de := Py.int (Py.div _ (Py.div 7200 _))).
  set (dp := Py.int (Py.div _ (Py.div 10800 _))).
  replace (Z.max 0 (Z.min 10 (Z.min 10 (Needs._hunger (Pet.needs p) + dh))))
    with (Z.max 0 (Z.min 10 (Needs._hunger (Pet.needs p) + dh))) by lia.
  replace (Z.max 0 (Z.min 10 (Z.max 0 (Needs._energy (Pet.needs p) - de))))
    with (Z.max 0 (Z.min 10 (Needs._energy (Pet.needs p) - de))) by lia.
  replace (Z.max 0 (Z.min 10 (Z.max 0 (Needs._happiness (Pet.needs p) - dp))))
    with (Z.max 0 (Z.min 10 (Needs._happiness (Pet.needs p) - dp))) by lia.
  destruct (_ || _ || _)%bool; [reflexivity |].
  cbn [negb]. now rewrite Halive.
Qed.

(** [time_passes] on a live pet whose last interaction is less than
    [seconds] ago. *)
Lemma Pet_time_passes_gate_closed (p : Pet.t) (seconds : Z) (now1 now2 : Q) :
  Pet.is_alive p = true ->
  (Py.sub now1 (Pet._last_interaction p) < inject_Z seconds)%Q ->
  Pet.time_passes seconds now1 now2 p = (p, []).
Proof.
  unfold Pet.is_alive. intros Halive Hgate.
  unfold Pet.time_passes. rewrite Halive. cbn [negb].
  apply Py_ge_false in Hgate. now rewrite Hgate.
Qed.

(** C5. [time_passes(seconds)] on a live [Pet] with weights in range acts
    only when the time elapsed since the last interaction, the float
    [time.time() - self._last_interaction], is at least [seconds].  When it
    acts, hunger is raised by [int(elapsed / (3600 / (3 + 2 * metabolism)))],
    energy lowered by [int(elapsed / (7200 / (5 + 3 * activity)))] and
    happiness lowered by [int(elapsed / (10800 / (2 + 1 * sociability)))],
    the quotients being computed in floats as the code does and the three
    periods being positive; each sum is stored through the needs setter, which
    keeps it within 0..10.  The amounts depend on the elapsed time and not on
    [seconds]; the time of the last interaction becomes the current time; the
    pet is dead afterwards, and the neglect line printed, exactly when hunger
    is then 10 or energy or happiness 0; nothing else changes.  When the
    elapsed time is smaller, nothing changes and nothing is printed. *)
Theorem time_passes_gate_and_amounts (p : Pet.t) (seconds seconds' : Z) (now1 now2 : Q) :
  Pet.is_alive p = true ->
  Pet_ok p ->
  let elapsed := Py.sub now1 (Pet._last_interaction p) in
  let hunger_period := Py.div 3600 (Py.add 3 (Py.mul 2 (Pet.influence p "metabolism"))) in
  let energy_period := Py.div 7200 (Py.add 5 (Py.mul 3 (Pet.influence p "activity"))) in
  let happiness_period :=
    Py.div 10800 (Py.add 2 (Py.mul 1 (Pet.influence p "sociability"))) in
  let hunger_increase := Py.int (Py.div elapsed hunger_period) in
  let energy_decrease := Py.int (Py.div elapsed energy_period) in
  let happiness_decrease := Py.int (Py.div elapsed happiness_period) in
  let hunger' := Z.max 0 (Z.min 10 (Pet.hunger p + hunger_increase)) in
  let energy' := Z.max 0 (Z.min 10 (Pet.energy p - energy_decrease)) in
  let happiness' := Z.max 0 (Z.min 10 (Pet.happiness p - happiness_decrease)) in
  let dies := ((10 <=? hunger')%Z || (energy' <=? 0)%Z || (happiness' <=? 0)%Z)%bool in
  let p' := fst (Pet.time_passes seconds now1 now2 p) in
  ((0 < hunger_period)%Q /\ (0 < energy_period)%Q /\ (0 < happiness_period)%Q)
  /\
  ((inject_Z seconds <= elapsed)%Q ->
   Pet.hunger p' = hunger'
   /\ Pet.energy p' = energy'
   /\ Pet.happiness p' = happiness'
   /\ Pet._last_interaction p' = now2
   /\ Pet.time_passes seconds now1 now2 p
      = (Pet.mk (Pet.name p) (Pet.species p) (Needs.mk hunger' energy' happiness')
           (Pet.tricks p) (Pet.personality p) (negb dies) now2 (Pet._mood_modifiers p),
         if dies then [Pet.msg_neglect p] else [])
   /\ ((inject_Z seconds' <= elapsed)%Q ->
       Pet.time_passes seconds' now1 now2 p = Pet.time_passes seconds now1 now2 p))
  /\
  ((elapsed < inject_Z seconds)%Q ->
   Pet.time_passes seconds now1 now2 p = (p, [])).
Proof.
  intros Halive Hok elapsed hunger_period energy_period happiness_period
    hunger_increase energy_decrease happiness_decrease hunger' energy' happiness'
    dies p'.
  split; [apply time_passes_periods_positive, Hok |].
  split.
  - intros Hgate. subst p'.
    pose proof (Pet_time_passes_acts p seconds now1 now2 Halive Hgate) as E.
    cbv zeta in E.
    fold elapsed hunger_period energy_period happiness_period in E.
    fold hunger_increase energy_decrease happiness_decrease in E.
    fold hunger' energy' happiness' in E. fold dies in E.
    rewrite E. cbn [fst].
    unfold Pet.hunger at 1, Pet.energy at 1, Pet.happiness at 1.
    cbn [Pet.needs Pet._last_interaction Needs.hunger Needs.energy Needs.happiness
         Needs._hunger Needs._energy Needs._happiness].
    repeat split.
    intros Hgate'.
    pose proof (Pet_time_passes_acts p seconds' now1 now2 Halive Hgate') as E'.
    cbv zeta in E'. exact E'.
  - intros Hgate. now apply Pet_time_passes_gate_closed.
Qed.

Lemma time_passes_gate_and_amounts_witness :
  Pet.is_alive buddy = true
  /\ (inject_Z 3600 <= Py.sub (3600 # 1) (Pet._last_interaction buddy))%Q
  /\ Pet.needs buddy = Needs.mk 5 7 5
  /\ Pet.needs (fst (Pet.time_passes 3600 (3600 # 1)%Q (3601 # 1)%Q buddy))
     = Needs.mk 9 4 5
  /\ Pet._last_interaction (fst (Pet.time_passes 3600 (3600 # 1)%Q (3601 # 1)%Q buddy))
     = (3601 # 1)%Q
  /\ (Py.sub (1800 # 1) (Pet._last_interaction buddy) < inject_Z 3600)%Q
  /\ Pet.time_passes 3600 (1800 # 1)%Q (1801 # 1)%Q buddy = (buddy, []).
Proof.
  assert (inject_Z 3600 <= Py.sub (3600 # 1) (Pet._last_interaction buddy))%Q as G1
    by float_eval.
  assert (Py.sub (1800 # 1) (Pet._last_interaction buddy) < inject_Z 3600)%Q as G2
    by float_eval.
  assert (Pet_ok buddy) as Hok by apply Pet_init_ok.
  pose proof (time_passes_gate_and_amounts buddy 3600 3600 (3600 # 1)%Q (3601 # 1)%Q
                ltac:(vm_compute; reflexivity) Hok) as (_ & H1 & _).
  pose proof (time_passes_gate_and_amounts buddy 3600 3600 (1800 # 1)%Q (1801 # 1)%Q
                ltac:(vm_compute; reflexivity) Hok) as (_ & _ & H2).
  destruct (H1 G1) as (Hh & He & Hp & Hl & _).
  split; [vm_compute; reflexivity |]. split; [exact G1 |].
  split; [vm_compute; reflexivity |].
  split; [| split; [exact Hl | split; [exact G2 | exact (H2 G2)]]].
  revert Hh He Hp. unfold Pet.hunger, Pet.energy, Pet.happiness.
  destruct (Pet.needs (fst (Pet.time_passes 3600 (3600 # 1)%Q (3601 # 1)%Q buddy)))
    as [h e hp].
  cbn [Needs.hunger Needs.energy Needs.happiness
       Needs._hunger Needs._energy Needs._happiness].
  intros -> -> ->. vm_compute. reflexivity.
Defined.

(** Each quotient is rounded before it is truncated: at metabolism 0.25 and
    two hours elapsed the period is the float nearest to [3600 / 3.5], the
    quotient a float just below 7, and hunger rises by 6, where the exact
    quotient is 7. *)
Example time_passes_rounds_before_truncating :
  Py.int (Py.div 7200 (Py.div 3600 (Py.add 3 (Py.mul 2 (1 # 4))))) = 6
  /\ Py.int (7200 / (3600 / (3 + 2 * (1 # 4))))%Q = 7.
Proof. split; vm_compute; reflexivity. Qed.

(** ** Training *)

Lemma Py_contains_In (x : string) (l : list string) :
  Py.contains x l = true <-> In x l.
Proof.
  unfold Py.contains. rewrite existsb_exists. split.
  - intros (y & Hy & E). apply String.eqb_eq in E. now subst.
  - intros H. exists x. split; [easy | apply String.eqb_refl].
Qed.

(** A trick that is not known up to case is not in the list. *)
Lemma Py_unknown_not_In (x : string) (l : list string) :
  Py.known x l = false -> ~ In x l.
Proof.
  unfold Py.known. intros H I.
  assert (Py.contains (Py.lower x) (map Py.lower l) = true) as C
    by (apply Py_contains_In, in_map, I).
  congruence.
Qed.

Lemma Py_unknown_count (x : string) (l : list string) :
  Py.known x l = false -> count_known x l = 0%nat.
Proof.
  unfold Py.known, Py.contains, count_known.
  induction l as [| y l IH]; [easy |].
  cbn [map existsb List.filter]. intros H. apply orb_false_elim in H as [H1 H2].
  rewrite String.eqb_sym in H1. rewrite H1. now apply IH.
Qed.

(** Knowing a trick depends on its lower-case form only. *)
Lemma Py_known_lower (x y : string) (l : list string) :
  Py.lower x = Py.lower y -> Py.known x l = Py.known y l.
Proof. unfold Py.known. now intros ->. Qed.

Lemma Py_known_app (x : string) (l : list string) : Py.known x (l ++ [x]) = true.
Proof.
  unfold Py.known. apply Py_contains_In. rewrite map_app. apply in_or_app.
  right. now left.
Qed.

Lemma count_occ_snoc_fresh (x : string) (l : list string) :
  ~ In x l -> count_occ string_dec (l ++ [x]) x = 1%nat.
Proof.
  intros H. rewrite count_occ_app.
  apply (count_occ_not_In string_dec) in H. rewrite H. simpl.
  now destruct (string_dec x x).
Qed.

(** [train] on a live pet that does not know the trick: an attempt. *)
Lemma Pet_train_attempt (p : Pet.t) (trick : string) (u now : Q) :
  Pet.is_alive p = true ->
  Py.known trick (Pet.tricks p) = false ->
  Pet.train trick u now p
  = if Py.lt u (Py.add (Py.float (6 # 10))
                  (Py.mul (Py.float (3 # 10)) (Pet.influence p "trainability")))
    then (Pet.mk (Pet.name p) (Pet.species p)
            (Needs.set_happiness (Z.min 10 (Pet.happiness p + 2)) (Pet.needs p))
            (Pet.tricks p ++ [trick]) (Pet.personality p) true now
            (Pet._mood_modifiers p),
          [Pet.msg_learned p trick])
    else (Pet.with_last_interaction now p, [Pet.msg_struggled p trick]).
Proof.
  unfold Pet.is_alive. intros Halive Hk. unfold Pet.train.
  rewrite Halive, Hk. cbn [negb].
  destruct (Py.lt u _); [| reflexivity].
  unfold Pet.with_last_interaction, Pet.set_happiness, Pet.with_needs, Pet.with_tricks,
    Pet.happiness, Pet.msg_learned.
  cbn [Pet.name Pet.species Pet.needs Pet.tricks Pet.personality Pet._is_alive
       Pet._last_interaction Pet._mood_modifiers].
  now rewrite Halive.
Qed.

(** [train] on a live pet that knows the trick, in any casing: one line. *)
Lemma Pet_train_known (p : Pet.t) (trick : string) (u now : Q) :
  Pet.is_alive p = true ->
  Py.known trick (Pet.tricks p) = true ->
  Pet.train trick u now p = (p, [Pet.msg_already_knows p trick]).
Proof.
  unfold Pet.is_alive. intros Halive Hk. unfold Pet.train. now rewrite Halive, Hk.
Qed.

(** On a [Pet] of the base class, names being written in ASCII: when
    [train(t)] succeeds, a [train] that follows at once with a name that
    lower-cases to the same changes nothing and prints the already-knows line,
    and the trick list holds [t] once, also when entries are compared after
    lower-casing.  Every attempt, successful or not, sets the time of the last
    interaction; the already-known case leaves it alone. *)
Lemma Pet_train_twice (p : Pet.t) (t t2 : string) (u now u' now' : Q) :
  Pet.is_alive p = true ->
  Py.isascii t = true -> Py.isascii t2 = true ->
  Forall (fun x => Py.isascii x = true) (Pet.tricks p) ->
  (Py.known t (Pet.tricks p) = false ->
   Pet._last_interaction (fst (Pet.train t u now p)) = now)
  /\
  (Py.known t (Pet.tricks p) = true ->
   Pet.train t u now p = (p, [Pet.msg_already_knows p t]))
  /\
  (Py.known t (Pet.tricks p) = false ->
   (u < Py.add (Py.float (6 # 10))
          (Py.mul (Py.float (3 # 10)) (Pet.influence p "trainability")))%Q ->
   Py.lower t2 = Py.lower t ->
   let p1 := fst (Pet.train t u now p) in
   Pet.tricks p1 = (Pet.tricks p ++ [t])%list
   /\ Pet.is_alive p1 = true
   /\ Pet.train t2 u' now' p1 = (p1, [Pet.msg_already_knows p1 t2])
   /\ count_occ string_dec (Pet.tricks (fst (Pet.train t2 u' now' p1))) t = 1%nat
   /\ count_known t (Pet.tricks (fst (Pet.train t2 u' now' p1))) = 1%nat
   /\ Pet._last_interaction (fst (Pet.train t2 u' now' p1)) = now).
Proof.
  intros Halive _ _ _. split; [| split].
  - intros Hk. rewrite Pet_train_attempt by assumption.
    now destruct (Py.lt u _).
  - intros Hk. now apply Pet_train_known.
  - intros Hk Hu Hcase p1. subst p1.
    rewrite Pet_train_attempt by assumption.
    apply Py_lt_true in Hu. rewrite Hu. cbn [fst].
    set (p1 := Pet.mk _ _ _ _ _ _ _ _).
    assert (Pet.train t2 u' now' p1 = (p1, [Pet.msg_already_knows p1 t2])) as E.
    { apply Pet_train_known; [reflexivity |].
      rewrite (Py_known_lower t2 t) by exact Hcase. apply Py_known_app. }
    rewrite E. cbn [fst]. subst p1. cbn [Pet.tricks Pet._last_interaction].
    repeat split.
    + apply count_occ_snoc_fresh. now apply Py_unknown_not_In.
    + unfold count_known. rewrite List.filter_app, length_app.
      fold (count_known t (Pet.tricks p)). rewrite Py_unknown_count by exact Hk.
      cbn [List.filter]. now rewrite String.eqb_refl.
Qed.

(** The override [AdvancedPet.train] adds its own step after [Pet.train]: on
    a live pet that knows the trick, the second draw decides whether the health
    is raised by 1, up to 100; nothing else changes. *)
Lemma AdvancedPet_train_known (a : AdvancedPet.t) (trick : string) (u now u2 : Q) :
  AdvancedPet.is_alive a = true ->
  0 <= AdvancedPet.health a ->
  Py.known trick (AdvancedPet.tricks a) = true ->
  AdvancedPet.train trick u now u2 a
  = (if Py.lt u2 (Py.float (2 # 10))
     then AdvancedPet.with_health (Z.min 100 (AdvancedPet.health a + 1)) a
     else a,
     [Pet.msg_already_knows (AdvancedPet.base a) trick]).
Proof.
  intros Halive Hh Hk. unfold AdvancedPet.train, AdvancedPet.super.
  rewrite Pet_train_known by assumption.
  replace (AdvancedPet.with_base (AdvancedPet.base a) a) with a by now destruct a.
  rewrite Hk. cbn [andb].
  destruct (Py.lt u2 _); [| reflexivity].
  rewrite AdvancedPet_set_health_positive by lia.
  cbn [app]. f_equal. f_equal. lia.
Qed.

(** C7 (the code departs from it). On a live [AdvancedPet] the second of two
    [train] calls is not without effect.  [AdvancedPet.train] runs [Pet.train]
    and then, whenever the trick is among the tricks, draws and may add 1 to
    the health; after an already-knows answer the trick is among them, so the
    call that taught nothing is rewarded like a successful one.  Here Rex, at
    health 50, learns "Sit" (draw 0, second draw 0.9: no reward) and is at
    once asked for "sit" (second draw 0): the already-knows line is printed,
    the trick list and the time of the last interaction stay, and the health
    is 51.  The same two calls on Buddy, a [Pet] of the base class, change
    nothing the second time. *)
Theorem advanced_train_twice_raises_health :
  let a1 := fst (AdvancedPet.train "Sit" 0%Q 1%Q (9 # 10)%Q (rex 50)) in
  let a2 := fst (AdvancedPet.train "sit" 0%Q 2%Q 0%Q a1) in
  let p1 := fst (Pet.train "Sit" 0%Q 1%Q buddy) in
  AdvancedPet.is_alive (rex 50) = true
  /\ AdvancedPet.tricks (rex 50) = []
  /\ snd (AdvancedPet.train "Sit" 0%Q 1%Q (9 # 10)%Q (rex 50))
     = ["Rex learned the trick 'Sit'!"]
  /\ AdvancedPet.is_alive a1 = true
  /\ AdvancedPet.tricks a1 = ["Sit"]
  /\ AdvancedPet.health a1 = 50
  /\ snd (AdvancedPet.train "sit" 0%Q 2%Q 0%Q a1)
     = ["Rex already knows the trick 'sit'."]
  /\ AdvancedPet.tricks a2 = ["Sit"]
  /\ Pet._last_interaction (AdvancedPet.base a2) = 1%Q
  /\ AdvancedPet.needs a2 = AdvancedPet.needs a1
  /\ AdvancedPet.health a2 = 51
  /\ Pet.tricks p1 = ["Sit"]
  /\ Pet.train "sit" 0%Q 2%Q p1 = (p1, ["Buddy already knows the trick 'sit'."]).
Proof. vm_compute. repeat split. Qed.

(** * Further properties of the code *)

(** ** Needs: what is written is what is read, within the bounds *)

(** X1. A value written to a need is read back as it is exactly when it is
    within 0..10; a smaller value reads 0 and a larger one 10.  The constructor
    treats its three arguments alike, a write leaves the other two needs alone,
    and of two writes to one need the later one counts. *)
Theorem needs_write_then_read (n : Needs.t) (v w h e hp : Z) :
  (Needs.hunger (Needs.set_hunger v n) = v <-> 0 <= v <= 10)
  /\ (Needs.energy (Needs.set_energy v n) = v <-> 0 <= v <= 10)
  /\ (Needs.happiness (Needs.set_happiness v n) = v <-> 0 <= v <= 10)
  /\ (v < 0 -> Needs.hunger (Needs.set_hunger v n) = 0
               /\ Needs.energy (Needs.set_energy v n) = 0
               /\ Needs.happiness (Needs.set_happiness v n) = 0)
  /\ (10 < v -> Needs.hunger (Needs.set_hunger v n) = 10
                /\ Needs.energy (Needs.set_energy v n) = 10
                /\ Needs.happiness (Needs.set_happiness v n) = 10)
  /\ Needs.init h e hp
     = Needs.set_happiness hp (Needs.set_energy e (Needs.set_hunger h n))
  /\ Needs.energy (Needs.set_hunger v n) = Needs.energy n
  /\ Needs.happiness (Needs.set_hunger v n) = Needs.happiness n
  /\ Needs.hunger (Needs.set_energy v n) = Needs.hunger n
  /\ Needs.happiness (Needs.set_energy v n) = Needs.happiness n
  /\ Needs.hunger (Needs.set_happiness v n) = Needs.hunger n
  /\ Needs.energy (Needs.set_happiness v n) = Needs.energy n
  /\ Needs.set_hunger w (Needs.set_hunger v n) = Needs.set_hunger w n
  /\ Needs.set_energy w (Needs.set_energy v n) = Needs.set_energy w n
  /\ Needs.set_happiness w (Needs.set_happiness v n) = Needs.set_happiness w n.
Proof.
  unfold Needs.hunger, Needs.energy, Needs.happiness, Needs.init,
    Needs.set_hunger, Needs.set_energy, Needs.set_happiness.
  cbn [Needs._hunger Needs._energy Needs._happiness].
  repeat match goal with |- _ /\ _ => split end; try reflexivity; lia.
Qed.

Lemma needs_write_then_read_witness :
  (-4 < 0) /\ (10 < 25)
  /\ Needs.hunger (Needs.set_hunger (-4) (Needs.init 5 7 5)) = 0
  /\ Needs.energy (Needs.set_energy 25 (Needs.init 5 7 5)) = 10.
Proof.
  pose proof (needs_write_then_read (Needs.init 5 7 5) (-4) 0 0 0 0)
    as (_ & _ & _ & Hlo & _).
  pose proof (needs_write_then_read (Needs.init 5 7 5) 25 0 0 0 0)
    as (_ & _ & _ & _ & Hhi & _).
  split; [lia |]. split; [lia |].
  split; [apply (Hlo ltac:(lia)) | apply (Hhi ltac:(lia))].
Defined.

(** ** Personality: every influence is a weight *)

(** X2. For a personality built by the constructor, the influence of any
    trait is within 0..1: it is 0.5 for a trait that was not given, the given
    weight when that is within 0..1, 0 for a negative weight and 1 for a weight
    above 1. *)
Theorem influence_of_constructed_personality
    (name : string) (tr : gmap string Q) (trait : string) (v : Q) :
  let x := Personality.get_trait_influence (Personality.init name tr) trait in
  (0 <= x <= 1)%Q
  /\ (tr !! trait = None -> x = (1 # 2)%Q)
  /\ (tr !! trait = Some v ->
      ((0 <= v <= 1)%Q -> (x == v)%Q)
      /\ ((v < 0)%Q -> (x == 0)%Q)
      /\ ((1 < v)%Q -> (x == 1)%Q)).
Proof.
  intros x. split; [apply influence_range, Personality_init_ok |].
  subst x. unfold Personality.get_trait_influence, Personality.init.
  cbn [Personality.traits]. rewrite lookup_fmap.
  split; [now intros -> |].
  intros ->. cbn. unfold Py.max, Py.min.
  destruct (Qlt_le_dec v 1) as [H1 | H1].
  - destruct (Qlt_le_dec 0 v) as [H0 | H0]; repeat split; intros; try lra.
  - destruct (Qlt_le_dec 0 1) as [H0 | H0]; repeat split; intros; lra.
Qed.

Lemma influence_of_constructed_personality_witness :
  ({[ "laziness" := (7 # 2)%Q ]} : gmap string Q) !! "laziness" = Some (7 # 2)%Q
  /\ (1 < 7 # 2)%Q
  /\ (Personality.get_trait_influence
        (Personality.init "p" {[ "laziness" := (7 # 2)%Q ]}) "laziness" == 1)%Q
  /\ Personality.get_trait_influence
       (Personality.init "p" {[ "laziness" := (7 # 2)%Q ]}) "activity" = (1 # 2)%Q.
Proof.
  pose proof (influence_of_constructed_personality "p"
                {[ "laziness" := (7 # 2)%Q ]} "laziness" (7 # 2)%Q) as (_ & _ & H).
  pose proof (influence_of_constructed_personality "p"
                {[ "laziness" := (7 # 2)%Q ]} "activity" 0%Q) as (_ & N & _).
  assert (({[ "laziness" := (7 # 2)%Q ]} : gmap string Q) !! "laziness"
          = Some (7 # 2)%Q) as E by (vm_compute; reflexivity).
  assert (1 < 7 # 2)%Q as L by (vm_compute; reflexivity).
  destruct (H E) as (_ & _ & H1).
  split; [exact E |]. split; [exact L |].
  split; [exact (H1 L) | apply N; vm_compute; reflexivity].
Defined.

(** ** A [Pet] dies in [time_passes] only *)

Lemma Pet_step_keeps_liveness (o : Pet.op) (p : Pet.t) :
  is_time_passes o = false ->
  Pet.is_alive (fst (Pet.step o p)) = Pet.is_alive p.
Proof.
  unfold Pet.is_alive. intros H.
  destruct o; try discriminate H; cbn [Pet.step fst]; try reflexivity;
    try (now rewrite ?Pet_get_status_state, ?Pet_show_tricks_state);
    try apply Pet_update_mood_alive;
    unfold Pet.eat, Pet.sleep, Pet.play, Pet.train;
    destruct (Pet._is_alive p) eqn:E; cbn [negb fst]; try exact E.
  destruct (Py.known trick (Pet.tricks p)); cbn [negb fst]; [exact E |].
  destruct (Py.lt u _); exact E.
Qed.

(** X3. The constructor of [Pet] never produces a dead pet, not even with
    hunger 10, energy 0 or happiness 0; and no call other than [time_passes]
    changes the liveness of a [Pet], whatever values the needs reach: the
    neglect test is made in [time_passes] alone. *)
Theorem pet_liveness_changes_in_time_passes_only
    (name species : string) (h e hp : Z) (tr : option (gmap string Q)) (now : Q)
    (p : Pet.t) (ops : list Pet.op) :
  Pet.is_alive (Pet.init name species h e hp tr now) = true
  /\ Pet.tricks (Pet.init name species h e hp tr now) = []
  /\ (forallb (fun o => negb (is_time_passes o)) ops = true ->
      Pet.is_alive (Pet.run ops p) = Pet.is_alive p).
Proof.
  split; [reflexivity |]. split; [reflexivity |].
  unfold Pet.run. revert p.
  induction ops as [| o ops IH]; intros p H; cbn [fold_left]; [reflexivity |].
  cbn [forallb] in H. apply andb_prop in H as [Ho H].
  rewrite IH by exact H. apply Pet_step_keeps_liveness.
  now destruct (is_time_passes o).
Qed.

Lemma pet_liveness_changes_in_time_passes_only_witness :
  forallb (fun o => negb (is_time_passes o))
    [Pet.Play 1%Q; Pet.Play 2%Q; Pet.Play 3%Q] = true
  /\ Pet.hunger (Pet.run [Pet.Play 1%Q; Pet.Play 2%Q; Pet.Play 3%Q]
                   (Pet.init "Buddy" "Dog" 9 7 5 None 0%Q)) = 10
  /\ Pet.is_alive (Pet.run [Pet.Play 1%Q; Pet.Play 2%Q; Pet.Play 3%Q]
                     (Pet.init "Buddy" "Dog" 9 7 5 None 0%Q)) = true.
Proof.
  pose proof (pet_liveness_changes_in_time_passes_only "Buddy" "Dog" 9 7 5 None 0%Q
                (Pet.init "Buddy" "Dog" 9 7 5 None 0%Q)
                [Pet.Play 1%Q; Pet.Play 2%Q; Pet.Play 3%Q]) as (Ha & _ & H).
  split; [vm_compute; reflexivity |]. split; [vm_compute; reflexivity |].
  rewrite H by (vm_compute; reflexivity). exact Ha.
Defined.

(** ** The amounts of [eat], [sleep] and [play] *)

(** [sleep] on a live pet, before any assumption on the ranges. *)
Lemma Pet_sleep_alive (p : Pet.t) (now : Q) :
  Pet.is_alive p = true ->
  Pet.sleep now p
  = (Pet.mk (Pet.name p) (Pet.species p)
       (Needs.set_energy
          (Z.min 10 (Pet.energy p
                     + Py.int (Py.add 5 (Py.mul 2 (Pet.influence p "laziness")))))
          (Pet.needs p))
       (Pet.tricks p) (Pet.personality p) true now (Pet._mood_modifiers p),
     [Pet.name p ++ " is sleeping..."]).
Proof.
  unfold Pet.is_alive, Pet.sleep. intros H. rewrite H. cbn [negb].
  unfold Pet.with_last_interaction, Pet.set_energy, Pet.with_needs.
  cbn [Pet.name Pet.species Pet.needs Pet.tricks Pet.personality Pet._is_alive
       Pet._last_interaction Pet._mood_modifiers].
  now rewrite H.
Qed.

(** X4. [sleep()] on a live [Pet] with stored values in range raises the
    energy by 5, 6 or 7, up to 10, so the energy is at least 5 afterwards and
    is 10 whenever it was at least 5; hunger, happiness and tricks are not
    touched and the time of the last interaction is set. *)
Theorem sleep_restores_energy (p : Pet.t) (now : Q) :
  Pet.is_alive p = true ->
  Pet_ok p ->
  let p' := fst (Pet.sleep now p) in
  (Pet.energy p' = Z.min 10 (Pet.energy p + 5)
   \/ Pet.energy p' = Z.min 10 (Pet.energy p + 6)
   \/ Pet.energy p' = Z.min 10 (Pet.energy p + 7))
  /\ 5 <= Pet.energy p'
  /\ (5 <= Pet.energy p -> Pet.energy p' = 10)
  /\ Pet.hunger p' = Pet.hunger p
  /\ Pet.happiness p' = Pet.happiness p
  /\ Pet.tricks p' = Pet.tricks p
  /\ Pet._last_interaction p' = now
  /\ Pet.is_alive p' = true.
Proof.
  intros Halive [(Hh & He & Hp) Hpers] p'.
  pose proof (Py_int_add_5_mul_2 _
                (influence_range (Pet.personality p) "laziness" Hpers)) as Hg.
  fold (Pet.influence p "laziness") in Hg.
  subst p'. rewrite Pet_sleep_alive by exact Halive.
  set (gain := Py.int _) in *.
  unfold Pet.energy, Pet.hunger, Pet.happiness, Needs.set_energy,
    Needs.energy, Needs.hunger, Needs.happiness in *.
  cbn [fst Pet.needs Pet.tricks Pet._last_interaction
       Needs._energy Needs._hunger Needs._happiness].
  repeat match goal with |- _ /\ _ => split end; try reflexivity; lia.
Qed.

Lemma sleep_restores_energy_witness :
  Pet.is_alive buddy = true
  /\ Pet.energy buddy = 7
  /\ Pet.energy (fst (Pet.sleep 1%Q buddy)) = 10.
Proof.
  pose proof (sleep_restores_energy buddy 1%Q ltac:(vm_compute; reflexivity)
                (Pet_init_ok "Buddy" "Dog" 5 7 5 None 0%Q)) as (_ & _ & H & _).
  split; [vm_compute; reflexivity |]. split; [vm_compute; reflexivity |].
  apply H. vm_compute. discriminate.
Defined.

(** The sum is rounded before it is truncated: at the laziness next below
    one half the float [5 + 2 * laziness] is 6, and [sleep] adds 6, where
    the exact sum is below 6. *)
Example sleep_rounds_before_truncating :
  let laziness := (9007199254740991 # 18014398509481984)%Q in
  Py.float laziness = laziness
  /\ Py.int (Py.add 5 (Py.mul 2 laziness)) = 6
  /\ Py.int (5 + 2 * laziness)%Q = 5.
Proof. vm_compute. repeat split. Qed.

(** [play] on a live pet, before any assumption on the ranges. *)
Lemma Pet_play_alive (p : Pet.t) (now : Q) :
  Pet.is_alive p = true ->
  Pet.play now p
  = (Pet.mk (Pet.name p) (Pet.species p)
       (Needs.mk
          (Z.max 0 (Z.min 10 (Z.min 10 (Pet.hunger p
             + Py.int (Py.add 1 (Py.mul (Py.float (3 # 10))
                                   (Py.sub 1 (Pet.influence p "fussiness"))))))))
          (Z.max 0 (Z.min 10 (Z.max 0 (Pet.energy p
             - Py.int (Py.add 2 (Py.mul 1 (Py.sub 1 (Pet.influence p "playfulness"))))))))
          (Z.max 0 (Z.min 10 (Z.min 10 (Pet.happiness p
             + Py.int (Py.add 2 (Py.mul (Py.float (8 # 10))
                                   (Pet.influence p "playfulness"))))))))
       (Pet.tricks p) (Pet.personality p) true now (Pet._mood_modifiers p),
     [Pet.name p ++ " is playing!"]).
Proof.
  unfold Pet.is_alive, Pet.play. intros H. rewrite H. cbn [negb].
  unfold Pet.with_last_interaction, Pet.set_happiness, Pet.set_hunger, Pet.set_energy,
    Pet.with_needs, Pet.hunger, Pet.happiness, Pet.energy, Pet.influence,
    Needs.set_hunger, Needs.set_happiness, Needs.set_energy,
    Needs.hunger, Needs.happiness, Needs.energy.
  cbn [Pet.name Pet.species Pet.needs Pet.tricks Pet.personality Pet._is_alive
       Pet._last_interaction Pet._mood_modifiers
       Needs._hunger Needs._energy Needs._happiness].
  now rewrite H.
Qed.

(** X5. [play()] on a live [Pet] with stored values in range lowers the
    energy by 2 or 3, not below 0, raises the happiness by exactly 2, not above
    10, and raises the hunger by exactly 1, not above 10: after truncation the
    playfulness does not change the happiness gain and the fussiness does not
    change the hunger gain.  The pet stays alive even when hunger reaches 10 or
    energy 0. *)
Theorem play_amounts (p : Pet.t) (now : Q) :
  Pet.is_alive p = true ->
  Pet_ok p ->
  let p' := fst (Pet.play now p) in
  (Pet.energy p' = Z.max 0 (Pet.energy p - 2)
   \/ Pet.energy p' = Z.max 0 (Pet.energy p - 3))
  /\ Pet.happiness p' = Z.min 10 (Pet.happiness p + 2)
  /\ Pet.hunger p' = Z.min 10 (Pet.hunger p + 1)
  /\ Pet.tricks p' = Pet.tricks p
  /\ Pet._last_interaction p' = now
  /\ Pet.is_alive p' = true.
Proof.
  intros Halive [(Hh & He & Hp) Hpers] p'.
  pose proof (influence_range (Pet.personality p) "playfulness" Hpers) as P.
  pose proof (influence_range (Pet.personality p) "fussiness" Hpers) as F.
  fold (Pet.influence p "playfulness") in P.
  fold (Pet.influence p "fussiness") in F.
  pose proof (Py_int_add_2_mul_1_sub_1 _ P) as D1.
  pose proof (Py_int_add_2_mul_08 _ P) as D2.
  pose proof (Py_int_add_1_mul_03_sub_1 _ F) as D3.
  subst p'. rewrite Pet_play_alive by exact Halive.
  unfold Pet.energy, Pet.hunger, Pet.happiness,
    Needs.energy, Needs.hunger, Needs.happiness in *.
  cbn [fst Pet.needs Pet.tricks Pet._last_interaction Pet.is_alive Pet._is_alive
       Needs._energy Needs._hunger Needs._happiness].
  repeat match goal with |- _ /\ _ => split end; try reflexivity; lia.
Qed.

Lemma play_amounts_witness :
  Pet.is_alive buddy = true
  /\ Pet.needs buddy = Needs.mk 5 7 5
  /\ Pet.happiness (fst (Pet.play 1%Q buddy)) = 7
  /\ Pet.hunger (fst (Pet.play 1%Q buddy)) = 6.
Proof.
  pose proof (play_amounts buddy 1%Q ltac:(vm_compute; reflexivity)
                (Pet_init_ok "Buddy" "Dog" 5 7 5 None 0%Q)) as (_ & H1 & H2 & _).
  split; [vm_compute; reflexivity |]. split; [vm_compute; reflexivity |].
  split; [rewrite H1 | rewrite H2]; vm_compute; reflexivity.
Defined.

(** X6. [eat()] on a live [Pet] with stored values in range lowers the
    hunger by 2 or 3, not below 0, and raises the happiness by exactly 1, not
    above 10, whatever the personality: after truncation the joyfulness does not
    change the happiness gain.  The other fields but the time of the last
    interaction are not touched. *)
Theorem eat_amounts (p : Pet.t) (now : Q) :
  Pet.is_alive p = true ->
  Pet_ok p ->
  let p' := fst (Pet.eat now p) in
  (Pet.hunger p' = Z.max 0 (Pet.hunger p - 2)
   \/ Pet.hunger p' = Z.max 0 (Pet.hunger p - 3))
  /\ Pet.happiness p' = Z.min 10 (Pet.happiness p + 1)
  /\ Pet.energy p' = Pet.energy p
  /\ Pet.tricks p' = Pet.tricks p
  /\ Pet._last_interaction p' = now
  /\ Pet.is_alive p' = true.
Proof.
  intros Halive [(Hh & He & Hp) Hpers] p'.
  pose proof (influence_range (Pet.personality p) "pickiness" Hpers) as P.
  pose proof (influence_range (Pet.personality p) "joyfulness" Hpers) as J.
  fold (Pet.influence p "pickiness") in P.
  fold (Pet.influence p "joyfulness") in J.
  pose proof (Py_int_sub_3_mul_1 _ P) as D1.
  pose proof (Py_int_add_1_mul_half _ J) as D2.
  subst p'. rewrite Pet_eat_alive by exact Halive.
  unfold Pet.energy, Pet.hunger, Pet.happiness,
    Needs.energy, Needs.hunger, Needs.happiness in *.
  cbn [fst Pet.needs Pet.tricks Pet._last_interaction Pet.is_alive Pet._is_alive
       Needs._energy Needs._hunger Needs._happiness].
  repeat match goal with |- _ /\ _ => split end; try reflexivity; lia.
Qed.

Lemma eat_amounts_witness :
  Pet.is_alive buddy = true
  /\ Pet.needs buddy = Needs.mk 5 7 5
  /\ Pet.happiness (fst (Pet.eat 1%Q buddy)) = 6
  /\ Pet.energy (fst (Pet.eat 1%Q buddy)) = 7.
Proof.
  pose proof (eat_amounts buddy 1%Q ltac:(vm_compute; reflexivity)
                (Pet_init_ok "Buddy" "Dog" 5 7 5 None 0%Q)) as (_ & H1 & H2 & _).
  split; [vm_compute; reflexivity |]. split; [vm_compute; reflexivity |].
  split; [rewrite H1 | rewrite H2]; vm_compute; reflexivity.
Defined.

(** ** Training *)

(** X7. For weights in range the chance that [train] succeeds, as the code
    computes it, is at least the float [0.6] and below nine tenths.  So on a
    live [Pet] that does not know the trick, names being written in ASCII, a
    draw below the float [0.6] always teaches it (the trick is appended,
    happiness rises by 2 up to 10) and a draw of nine tenths or more never
    does (only the time of the last interaction changes). *)
Theorem train_chance_bounds (p : Pet.t) (trick : string) (u now : Q) :
  Pet.is_alive p = true ->
  Pet_ok p ->
  Py.isascii trick = true ->
  Forall (fun t => Py.isascii t = true) (Pet.tricks p) ->
  Py.known trick (Pet.tricks p) = false ->
  let success_chance :=
    Py.add (Py.float (6 # 10))
      (Py.mul (Py.float (3 # 10)) (Pet.influence p "trainability")) in
  (Py.float (6 # 10) <= success_chance)%Q /\ (success_chance < 9 # 10)%Q
  /\
  ((u < Py.float (6 # 10))%Q ->
   Pet.tricks (fst (Pet.train trick u now p)) = (Pet.tricks p ++ [trick])%list
   /\ Pet.happiness (fst (Pet.train trick u now p)) = Z.min 10 (Pet.happiness p + 2)
   /\ snd (Pet.train trick u now p) = [Pet.msg_learned p trick])
  /\
  ((9 # 10 <= u)%Q ->
   Pet.train trick u now p
   = (Pet.with_last_interaction now p, [Pet.msg_struggled p trick])).
Proof.
  intros Halive [(Hh & He & Hp) Hpers] _ _ Hk success_chance.
  pose proof (Py_train_chance_range _
                (influence_range (Pet.personality p) "trainability" Hpers)) as [C0 C1].
  fold (Pet.influence p "trainability") in C0, C1. fold success_chance in C0, C1.
  split; [exact C0 |]. split; [exact C1 |].
  rewrite Pet_train_attempt by assumption. fold success_chance.
  split; intros Hu.
  - assert (Py.lt u success_chance = true) as ->
      by (apply Py_lt_true; eapply Qlt_le_trans; [exact Hu | exact C0]).
    unfold Pet.happiness, Needs.set_happiness, Needs.happiness in *.
    cbn [fst snd Pet.tricks Pet.needs Needs._happiness].
    repeat split. lia.
  - destruct (Py.lt u success_chance) eqn:E; [| reflexivity].
    apply Py_lt_true in E. exfalso.
    apply (Qlt_irrefl u). eapply Qlt_trans; [exact E |].
    eapply Qlt_le_trans; [exact C1 | exact Hu].
Qed.

Lemma train_chance_bounds_witness :
  Pet.is_alive buddy = true
  /\ Py.known "Sit" (Pet.tricks buddy) = false
  /\ ((1 # 2) < Py.float (6 # 10))%Q /\ (9 # 10 <= 95 # 100)%Q
  /\ Pet.tricks (fst (Pet.train "Sit" (1 # 2)%Q 1%Q buddy)) = ["Sit"]
  /\ Pet.tricks (fst (Pet.train "Sit" (95 # 100)%Q 1%Q buddy)) = [].
Proof.
  assert (Pet.is_alive buddy = true) as Ha by (vm_compute; reflexivity).
  assert (Py.known "Sit" (Pet.tricks buddy) = false) as Hk by (vm_compute; reflexivity).
  assert ((1 # 2) < Py.float (6 # 10))%Q as L by (vm_compute; reflexivity).
  assert (9 # 10 <= 95 # 100)%Q as G by (vm_compute; discriminate).
  assert (Forall (fun t => Py.isascii t = true) (Pet.tricks buddy)) as Hs
    by (vm_compute; constructor).
  pose proof (train_chance_bounds buddy "Sit" (1 # 2)%Q 1%Q Ha
                (Pet_init_ok "Buddy" "Dog" 5 7 5 None 0%Q) ltac:(reflexivity) Hs Hk)
    as (_ & _ & H1 & _).
  pose proof (train_chance_bounds buddy "Sit" (95 # 100)%Q 1%Q Ha
                (Pet_init_ok "Buddy" "Dog" 5 7 5 None 0%Q) ltac:(reflexivity) Hs Hk)
    as (_ & _ & _ & H2).
  destruct (H1 L) as (E1 & _).
  split; [exact Ha |]. split; [exact Hk |]. split; [exact L |]. split; [exact G |].
  split; [rewrite E1; vm_compute; reflexivity | rewrite (H2 G); vm_compute; reflexivity].
Defined.

(** The two ends of the chance, as the code computes them: at trainability 0
    the chance is the float [0.6], which is below six tenths and which a draw
    equal to it does not beat; at trainability 1 it is the float next below
    [0.9]. *)
Example train_chance_at_the_ends :
  let chance w := Py.add (Py.float (6 # 10)) (Py.mul (Py.float (3 # 10)) w) in
  chance 0%Q = Py.float (6 # 10)
  /\ (Py.float (6 # 10) < 6 # 10)%Q
  /\ Py.lt (Py.float (6 # 10)) (chance 0%Q) = false
  /\ (chance 1%Q < Py.float (9 # 10))%Q
  /\ Py.lt (chance 1%Q) (chance 1%Q) = false.
Proof. vm_compute. repeat split. Qed.

(** ** The trick list only grows, without duplicates *)

Lemma Pet_train_tricks (trick : string) (u now : Q) (p : Pet.t) :
  tricks_step (Pet.tricks p) (Pet.tricks (fst (Pet.train trick u now p))).
Proof.
  unfold Pet.train. destruct (Pet._is_alive p); cbn [negb]; [| now left].
  destruct (Py.known trick (Pet.tricks p)) eqn:K; cbn [negb]; [now left |].
  destruct (Py.lt u _); [| now left].
  right. exists trick. now split.
Qed.

Lemma Pet_update_mood_tricks (p : Pet.t) : Pet.tricks (Pet.update_mood p) = Pet.tricks p.
Proof.
  unfold Pet.update_mood. generalize (Pet._mood_modifiers p) as ms. intros ms.
  revert p. induction ms as [| m ms IH]; intros p; cbn [fold_left]; [easy |].
  rewrite IH. unfold Pet.call_modifier. generalize (m (Pet.needs p)) as ws.
  intros ws. clear IH. revert p.
  induction ws as [| w ws IH]; intros p; cbn [fold_left]; [easy |].
  rewrite IH. now destruct w.
Qed.

Lemma Pet_step_tricks (o : Pet.op) (p : Pet.t) :
  tricks_step (Pet.tricks p) (Pet.tricks (fst (Pet.step o p))).
Proof.
  destruct o; cbn [Pet.step fst]; try (now left); try apply Pet_train_tricks; left.
  - unfold Pet.eat. now destruct (Pet._is_alive p).
  - unfold Pet.sleep. now destruct (Pet._is_alive p).
  - unfold Pet.play. now destruct (Pet._is_alive p).
  - now rewrite Pet_get_status_state.
  - now rewrite Pet_show_tricks_state.
  - apply Pet_update_mood_tricks.
  - unfold Pet.time_passes. destruct (Pet._is_alive p); cbn [negb]; [| easy].
    destruct (Py.ge _ _); [| easy].
    now match goal with |- context [if ?c then _ else _] => destruct c end.
Qed.

Lemma distinct_names_snoc (x : string) (l : list string) :
  distinct_names l -> Py.known x l = false -> distinct_names (l ++ [x]).
Proof.
  unfold distinct_names, Py.known. intros Hd Hk.
  rewrite map_app. cbn [map].
  apply NoDup_app. split; [exact Hd |]. split; [| apply NoDup_singleton].
  intros y Hy Hy'. apply list_elem_of_singleton in Hy'. subst y.
  apply list_elem_of_In, Py_contains_In in Hy. congruence.
Qed.

Lemma tricks_step_keeps (before after : list string) :
  tricks_step before after ->
  before `prefix_of` after /\ (distinct_names before -> distinct_names after).
Proof.
  intros [-> | (trick & Hk & ->)]; [easy |].
  split; [now apply prefix_app_r | intros Hd; now apply distinct_names_snoc].
Qed.

(** X8. Whatever calls are made on a [Pet], the tricks it knew stay at the
    head of its trick list, in their order, and a list without two names equal
    up to case stays so; from the constructor on, the trick list never holds
    two names equal up to case. *)
Theorem tricks_grow_without_duplicates (p : Pet.t) (ops : list Pet.op)
    (name species : string) (h e hp : Z) (tr : option (gmap string Q)) (now : Q) :
  Pet.tricks p `prefix_of` Pet.tricks (Pet.run ops p)
  /\ (distinct_names (Pet.tricks p) -> distinct_names (Pet.tricks (Pet.run ops p)))
  /\ distinct_names (Pet.tricks (Pet.run ops (Pet.init name species h e hp tr now))).
Proof.
  assert (forall q, Pet.tricks q `prefix_of` Pet.tricks (Pet.run ops q)
                    /\ (distinct_names (Pet.tricks q) ->
                        distinct_names (Pet.tricks (Pet.run ops q)))) as H.
  { unfold Pet.run. induction ops as [| o ops IH]; intros q; cbn [fold_left]; [easy |].
    destruct (tricks_step_keeps _ _ (Pet_step_tricks o q)) as [P D].
    destruct (IH (fst (Pet.step o q))) as [P' D'].
    split; [now transitivity (Pet.tricks (fst (Pet.step o q))) | auto]. }
  split; [apply H |]. split; [apply H |].
  apply H. apply NoDup_nil_2.
Qed.

Lemma tricks_grow_without_duplicates_witness :
  distinct_names (Pet.tricks buddy)
  /\ distinct_names
       (Pet.tricks (Pet.run [Pet.Train "Sit" 0%Q 1%Q; Pet.Train "SIT" 0%Q 2%Q;
                             Pet.Train "Roll" 0%Q 3%Q] buddy))
  /\ Pet.tricks (Pet.run [Pet.Train "Sit" 0%Q 1%Q; Pet.Train "SIT" 0%Q 2%Q;
                          Pet.Train "Roll" 0%Q 3%Q] buddy) = ["Sit"; "Roll"].
Proof.
  assert (distinct_names (Pet.tricks buddy)) as D by apply NoDup_nil_2.
  pose proof (tricks_grow_without_duplicates buddy
                [Pet.Train "Sit" 0%Q 1%Q; Pet.Train "SIT" 0%Q 2%Q;
                 Pet.Train "Roll" 0%Q 3%Q] "" "" 0 0 0 None 0%Q) as (_ & H & _).
  split; [exact D |]. split; [exact (H D) | vm_compute; reflexivity].
Defined.

(** ** Neglect *)

Lemma Py_int_nonneg_value (x : Q) : (0 <= x)%Q -> 0 <= Py.int x.
Proof. intros H. apply Py_int_lower; [exact H | lia]. Qed.

(** X9. When [time_passes] acts on a live [Pet], the pet is dead afterwards
    exactly when its hunger is then 10 or its energy or happiness is then 0, and
    the neglect line is printed exactly in that case.  So a pet in range whose
    hunger is 10, or whose energy or happiness is 0, dies at the next
    [time_passes] that acts, however short the time that has passed. *)
Theorem time_passes_kills_at_the_bounds (p : Pet.t) (seconds : Z) (now1 now2 : Q) :
  Pet.is_alive p = true ->
  (inject_Z seconds <= Py.sub now1 (Pet._last_interaction p))%Q ->
  let p' := fst (Pet.time_passes seconds now1 now2 p) in
  let out := snd (Pet.time_passes seconds now1 now2 p) in
  (Pet.is_alive p' = false <->
   Pet.hunger p' = 10 \/ Pet.energy p' = 0 \/ Pet.happiness p' = 0)
  /\ (Pet.is_alive p' = false -> out = [Pet.msg_neglect p])
  /\ (Pet.is_alive p' = true -> out = [])
  /\ (Pet_ok p -> (0 <= now1 - Pet._last_interaction p)%Q ->
      Pet.hunger p = 10 \/ Pet.energy p = 0 \/ Pet.happiness p = 0 ->
      Pet.is_alive p' = false).
Proof.
  intros Halive Hgate p' out. subst p' out.
  pose proof (Pet_time_passes_acts p seconds now1 now2 Halive Hgate) as E.
  cbv zeta in E. rewrite E. clear E.
  set (dh := Py.int (Py.div _ (Py.div 3600 _))).
  set (de := Py.int (Py.div _ (Py.div 7200 _))).
  set (dp := Py.int (Py.div _ (Py.div 10800 _))).
  unfold Pet.is_alive, Pet.hunger, Pet.energy, Pet.happiness,
    Needs.hunger, Needs.energy, Needs.happiness.
  cbn [fst snd Pet.needs Pet._is_alive Needs._hunger Needs._energy Needs._happiness].
  set (h' := Z.max 0 (Z.min 10 (_ + dh))).
  set (e' := Z.max 0 (Z.min 10 (_ - de))).
  set (hp' := Z.max 0 (Z.min 10 (_ - dp))).
  assert (((10 <=? h')%Z || (e' <=? 0)%Z || (hp' <=? 0)%Z)%bool = true
          <-> h' = 10 \/ e' = 0 \/ hp' = 0) as B.
  { rewrite !orb_true_iff, !Z.leb_le. subst h' e' hp'. lia. }
  split; [| split; [| split]].
  - rewrite negb_false_iff. exact B.
  - destruct (_ || _ || _)%bool; [reflexivity | discriminate].
  - destruct (_ || _ || _)%bool; [discriminate | reflexivity].
  - intros [(Hh & He & Hp) Hpers] Hel Hterm.
    rewrite negb_false_iff. apply B.
    destruct (time_passes_periods_positive p Hpers) as (P1 & P2 & P3).
    apply Py_fl_nonneg in Hel. fold (Py.sub now1 (Pet._last_interaction p)) in Hel.
    assert (0 <= dh)
      by (apply Py_int_nonneg_value, Py_div_nonneg; [exact Hel | apply Qlt_le_weak, P1]).
    assert (0 <= de)
      by (apply Py_int_nonneg_value, Py_div_nonneg; [exact Hel | apply Qlt_le_weak, P2]).
    assert (0 <= dp)
      by (apply Py_int_nonneg_value, Py_div_nonneg; [exact Hel | apply Qlt_le_weak, P3]).
    unfold Pet.hunger, Pet.energy, Pet.happiness,
      Needs.hunger, Needs.energy, Needs.happiness in *.
    subst h' e' hp'. lia.
Qed.

Lemma time_passes_kills_at_the_bounds_witness :
  Pet.is_alive (Pet.init "Buddy" "Dog" 10 7 5 None 0%Q) = true
  /\ (inject_Z 0
      <= Py.sub 0 (Pet._last_interaction (Pet.init "Buddy" "Dog" 10 7 5 None 0%Q)))%Q
  /\ Pet.hunger (Pet.init "Buddy" "Dog" 10 7 5 None 0%Q) = 10
  /\ Pet.is_alive (fst (Pet.time_passes 0 0%Q 0%Q (Pet.init "Buddy" "Dog" 10 7 5 None 0%Q)))
     = false.
Proof.
  assert (Pet.is_alive (Pet.init "Buddy" "Dog" 10 7 5 None 0%Q) = true) as Ha
    by (vm_compute; reflexivity).
  assert (inject_Z 0
          <= Py.sub 0 (Pet._last_interaction (Pet.init "Buddy" "Dog" 10 7 5 None 0%Q)))%Q
    as G by float_eval.
  assert (0 <= 0 - Pet._last_interaction (Pet.init "Buddy" "Dog" 10 7 5 None 0%Q))%Q
    as G0 by float_eval.
  assert (Pet.hunger (Pet.init "Buddy" "Dog" 10 7 5 None 0%Q) = 10) as Hh
    by (vm_compute; reflexivity).
  pose proof (time_passes_kills_at_the_bounds _ 0 0%Q 0%Q Ha G) as (_ & _ & _ & H).
  split; [exact Ha |]. split; [exact G |]. split; [exact Hh |].
  apply H; [apply Pet_init_ok | exact G0 | left; exact Hh].
Defined.

(** X10. After a [time_passes] that acted, a further [time_passes] with the
    same threshold changes nothing and prints nothing as long as less than
    [seconds] have passed since the first call took its second clock reading:
    the first call has reset the time of the last interaction (or the pet has
    died of neglect). *)
Theorem time_passes_twice (p : Pet.t) (seconds : Z) (now1 now2 now1' now2' : Q) :
  Pet.is_alive p = true ->
  (inject_Z seconds <= Py.sub now1 (Pet._last_interaction p))%Q ->
  (Py.sub now1' now2 < inject_Z seconds)%Q ->
  let p' := fst (Pet.time_passes seconds now1 now2 p) in
  Pet.time_passes seconds now1' now2' p' = (p', []).
Proof.
  intros Halive Hgate Hnext p'.
  destruct (Pet.is_alive p') eqn:A.
  - apply Pet_time_passes_gate_closed; [exact A |].
    subst p'. pose proof (Pet_time_passes_acts p seconds now1 now2 Halive Hgate) as E.
    cbv zeta in E. rewrite E. exact Hnext.
  - now apply Pet_dead_time_passes.
Qed.

Lemma time_passes_twice_witness :
  Pet.is_alive buddy = true
  /\ (inject_Z 3600 <= Py.sub (3600 # 1) (Pet._last_interaction buddy))%Q
  /\ (Py.sub (3700 # 1) (3601 # 1) < inject_Z 3600)%Q
  /\ Pet.time_passes 3600 (3700 # 1)%Q (3701 # 1)%Q
       (fst (Pet.time_passes 3600 (3600 # 1)%Q (3601 # 1)%Q buddy))
     = (fst (Pet.time_passes 3600 (3600 # 1)%Q (3601 # 1)%Q buddy), []).
Proof.
  assert (Pet.is_alive buddy = true) as Ha by (vm_compute; reflexivity).
  assert (inject_Z 3600 <= Py.sub (3600 # 1) (Pet._last_interaction buddy))%Q as G
    by float_eval.
  assert (Py.sub (3700 # 1) (3601 # 1) < inject_Z 3600)%Q as N by float_eval.
  split; [exact Ha |]. split; [exact G |]. split; [exact N |].
  exact (time_passes_twice buddy 3600 (3600 # 1)%Q (3601 # 1)%Q (3700 # 1)%Q (3701 # 1)%Q
           Ha G N).
Defined.

(** ** Health and liveness of an [AdvancedPet] *)

(** What the health setter leaves behind, whatever the object was. *)
Lemma AdvancedPet_set_health_result (v : Z) (a : AdvancedPet.t) :
  let a' := fst (AdvancedPet.set_health v a) in
  AdvancedPet.health a' = Z.max 0 (Z.min 100 v)
  /\ AdvancedPet._diseases a' = AdvancedPet._diseases a
  /\ AdvancedPet.needs a' = AdvancedPet.needs a
  /\ AdvancedPet.tricks a' = AdvancedPet.tricks a
  /\ Pet.personality (AdvancedPet.base a') = Pet.personality (AdvancedPet.base a)
  /\ alive_has_health a'.
Proof.
  destruct a as [[n sp ne tr pe al li mo] h d].
  unfold AdvancedPet.set_health, alive_has_health, AdvancedPet.is_alive, Pet.is_alive,
    AdvancedPet.health, AdvancedPet.needs, AdvancedPet.tricks.
  cbn [AdvancedPet.with_health AdvancedPet._health AdvancedPet.base Pet._is_alive].
  destruct (Z.leb_spec (Z.max 0 (Z.min 100 v)) 0) as [L | L]; destruct al;
    cbn [andb fst AdvancedPet.with_base AdvancedPet.with_health AdvancedPet._health
         AdvancedPet.base AdvancedPet._diseases Pet.with_is_alive Pet._is_alive
         Pet.needs Pet.tricks Pet.personality];
    repeat split; intros; try discriminate; lia.
Qed.

(** A step that leaves the health alone and revives nobody keeps
    [alive_has_health]. *)
Lemma alive_has_health_frame (a a' : AdvancedPet.t) :
  alive_has_health a ->
  AdvancedPet.health a' = AdvancedPet.health a ->
  (AdvancedPet.is_alive a = false -> AdvancedPet.is_alive a' = false) ->
  alive_has_health a'.
Proof.
  unfold alive_has_health. intros H Hh Hd Ha. rewrite Hh. apply H.
  destruct (AdvancedPet.is_alive a); [reflexivity | rewrite Hd in Ha; easy].
Qed.

Lemma AdvancedPet_super_health (m : Pet.t -> Pet.t * list string) (a : AdvancedPet.t) :
  AdvancedPet.health (fst (AdvancedPet.super m a)) = AdvancedPet.health a
  /\ AdvancedPet._diseases (fst (AdvancedPet.super m a)) = AdvancedPet._diseases a.
Proof. unfold AdvancedPet.super. now destruct (m (AdvancedPet.base a)). Qed.

Lemma AdvancedPet_worsen_loop_alive_has_health rnd snapshot : forall i a,
  alive_has_health a ->
  alive_has_health (fst (AdvancedPet.worsen_loop rnd i snapshot a)).
Proof.
  induction snapshot as [| disease rest IH]; intros i a H; cbn [AdvancedPet.worsen_loop];
    [exact H |].
  assert (alive_has_health
            (fst (if Py.lt (AdvancedPet.d_u (rnd i)) (Py.float (2 # 10))
                  then AdvancedPet.worsen disease (rnd i) a else (a, [])))) as H1.
  { destruct (Py.lt _ _); [| exact H]. unfold AdvancedPet.worsen.
    match goal with
    | |- context [AdvancedPet.set_health ?v ?s] =>
        destruct (AdvancedPet_set_health_result v s) as (_ & _ & _ & _ & _ & R);
        destruct (AdvancedPet.set_health v s) as [s' o']
    end.
    cbn [fst] in *. exact R. }
  destruct (if Py.lt _ _ then _ else _) as [a1 out]. cbn [fst] in H1.
  specialize (IH (S i) a1 H1).
  now destruct (AdvancedPet.worsen_loop rnd (S i) rest a1).
Qed.

Lemma AdvancedPet_super_alive_has_health (m : Pet.t -> Pet.t * list string) a :
  (forall p, Pet.is_alive p = false -> Pet.is_alive (fst (m p)) = false) ->
  alive_has_health a -> alive_has_health (fst (AdvancedPet.super m a)).
Proof.
  intros Hm H. apply (alive_has_health_frame a _ H).
  - apply AdvancedPet_super_health.
  - unfold AdvancedPet.is_alive, AdvancedPet.super. intros Hd.
    specialize (Hm (AdvancedPet.base a) Hd).
    now destruct (m (AdvancedPet.base a)).
Qed.

(** Closes a goal on the object a health write leaves. *)
Ltac after_health_write :=
  match goal with
  | |- context [AdvancedPet.set_health ?v ?s] =>
      let R := fresh "R" in
      destruct (AdvancedPet_set_health_result v s) as (_ & _ & _ & _ & _ & R);
      destruct (AdvancedPet.set_health v s); exact R
  end.

Lemma AdvancedPet_step_alive_has_health (o : AdvancedPet.op) (a : AdvancedPet.t) :
  alive_has_health a -> alive_has_health (AdvancedPet.state_of (AdvancedPet.step o a)).
Proof.
  intros H.
  destruct o as [now u | now | now u | | trick u now u2 | | m | | seconds now1 now2 rnd
                | | v | v | v | v | disease k1 k2 k3 k4 | disease u k];
    cbn [AdvancedPet.step AdvancedPet.state_of AdvancedPet.returns].
  - unfold AdvancedPet.eat.
    pose proof (AdvancedPet_super_alive_has_health (Pet.eat now) a
                  (Pet_step_stays_dead (Pet.Eat now)) H) as H1.
    destruct (AdvancedPet.super (Pet.eat now) a) as [a1 out]. cbn [fst] in H1.
    destruct (Py.lt u _); [after_health_write | exact H1].
  - apply (AdvancedPet_super_alive_has_health (Pet.sleep now) a
             (Pet_step_stays_dead (Pet.Sleep now)) H).
  - unfold AdvancedPet.play.
    pose proof (AdvancedPet_super_alive_has_health (Pet.play now) a
                  (Pet_step_stays_dead (Pet.Play now)) H) as H1.
    destruct (AdvancedPet.super (Pet.play now) a) as [a1 out]. cbn [fst] in H1.
    destruct (_ && _)%bool; [after_health_write | exact H1].
  - now rewrite AdvancedPet_get_status_state.
  - unfold AdvancedPet.train.
    pose proof (AdvancedPet_super_alive_has_health (Pet.train trick u now) a
                  (Pet_step_stays_dead (Pet.Train trick u now)) H) as H1.
    destruct (AdvancedPet.super (Pet.train trick u now) a) as [a1 out]. cbn [fst] in H1.
    destruct (_ && _)%bool; [after_health_write | exact H1].
  - now rewrite AdvancedPet_show_tricks_state.
  - exact H.
  - apply (alive_has_health_frame a _ H); [reflexivity |].
    apply (AdvancedPet_step_stays_dead AdvancedPet.UpdateMood).
  - unfold AdvancedPet.time_passes.
    pose proof (AdvancedPet_super_alive_has_health (Pet.time_passes seconds now1 now2) a
                  (Pet_step_stays_dead (Pet.TimePasses seconds now1 now2)) H) as H1.
    destruct (AdvancedPet.super _ a) as [a1 out]. cbn [fst] in H1.
    destruct (AdvancedPet.is_alive a1); [| exact H1].
    pose proof (AdvancedPet_worsen_loop_alive_has_health rnd
                  (AdvancedPet._diseases a1) 0%nat a1 H1) as H2.
    now destruct (AdvancedPet.worsen_loop rnd 0 _ a1).
  - exact H.
  - exact H.
  - exact H.
  - exact H.
  - apply AdvancedPet_set_health_result.
  - unfold AdvancedPet.contract_disease.
    destruct (Py.known disease _); cbn [negb]; [exact H | after_health_write].
  - unfold AdvancedPet.treat_disease.
    destruct (Py.known disease _); [| exact H].
    destruct (Py.lt u _); [| exact H].
    destruct (Py.remove disease _) as [l |]; [| exact H].
    cbn [AdvancedPet.state_of]. after_health_write.
Qed.

Lemma AdvancedPet_run_alive_has_health (ops : list AdvancedPet.op) : forall a,
  alive_has_health a -> alive_has_health (AdvancedPet.run ops a).
Proof.
  unfold AdvancedPet.run.
  induction ops as [| o ops IH]; intros a H; cbn [fold_left]; [exact H |].
  apply IH. now apply AdvancedPet_step_alive_has_health.
Qed.

Lemma AdvancedPet_init_alive_has_health name species h e hp hl tr now :
  alive_has_health (fst (AdvancedPet.init name species h e hp hl tr now)).
Proof.
  unfold AdvancedPet.init.
  match goal with
  | |- context [AdvancedPet.set_health ?v ?s] =>
      destruct (AdvancedPet_set_health_result v s) as (_ & _ & _ & _ & _ & R);
      destruct (AdvancedPet.set_health v s)
  end. exact R.
Qed.

(** X11. From the constructor on, whatever calls are made and whatever the
    draws, an [AdvancedPet] that is alive has a health of at least 1: no call
    leaves a live pet at health 0. *)
Theorem live_advanced_pet_has_health
    (name species : string) (h e hp hl : Z) (tr : option (gmap string Q)) (now : Q)
    (ops : list AdvancedPet.op) :
  let a := AdvancedPet.run ops (fst (AdvancedPet.init name species h e hp hl tr now)) in
  AdvancedPet.is_alive a = true -> 1 <= AdvancedPet.health a <= 100.
Proof.
  intros a Ha.
  pose proof (AdvancedPet_run_ok ops _ (AdvancedPet_init_ok name species h e hp hl tr now))
    as [_ Hr]. fold a in Hr.
  pose proof (AdvancedPet_run_alive_has_health ops _
                (AdvancedPet_init_alive_has_health name species h e hp hl tr now)) as H.
  fold a in H. specialize (H Ha). lia.
Qed.

Lemma live_advanced_pet_has_health_witness :
  AdvancedPet.is_alive
    (AdvancedPet.run [AdvancedPet.ContractDisease "Flu" 0 0 0 9;
                      AdvancedPet.Play 1%Q 0%Q] (rex 20)) = true
  /\ AdvancedPet.health
       (AdvancedPet.run [AdvancedPet.ContractDisease "Flu" 0 0 0 9;
                         AdvancedPet.Play 1%Q 0%Q] (rex 20)) = 6.
Proof.
  assert (AdvancedPet.is_alive
            (AdvancedPet.run [AdvancedPet.ContractDisease "Flu" 0 0 0 9;
                              AdvancedPet.Play 1%Q 0%Q] (rex 20)) = true) as Ha
    by (vm_compute; reflexivity).
  pose proof (live_advanced_pet_has_health "Rex" "Cat" 5 7 5 20 None 0%Q
                [AdvancedPet.ContractDisease "Flu" 0 0 0 9; AdvancedPet.Play 1%Q 0%Q]
                Ha) as H.
  split; [exact Ha | vm_compute; reflexivity].
Defined.

(** X12. An [AdvancedPet] constructed with [initial_health] of at least 1 is
    alive, the constructor prints nothing, the health reads the given value, or
    100 when that is larger, there is no disease, and the inherited part is the
    [Pet] the base constructor builds. *)
Theorem born_alive_when_health_positive
    (name species : string) (h e hp initial_health : Z)
    (tr : option (gmap string Q)) (now : Q) :
  1 <= initial_health ->
  AdvancedPet.init name species h e hp initial_health tr now
  = (AdvancedPet.mk (Pet.init name species h e hp tr now)
       (Z.min 100 initial_health) [], []).
Proof.
  intros H. unfold AdvancedPet.init.
  rewrite AdvancedPet_set_health_positive by lia.
  replace (Z.max 0 (Z.min 100 (Z.max 0 (Z.min 100 initial_health))))
    with (Z.min 100 initial_health) by lia.
  reflexivity.
Qed.

Lemma born_alive_when_health_positive_witness :
  1 <= 250
  /\ AdvancedPet.health (rex 250) = 100
  /\ AdvancedPet.is_alive (rex 250) = true.
Proof.
  pose proof (born_alive_when_health_positive "Rex" "Cat" 5 7 5 250 None 0%Q
                ltac:(lia)) as H.
  split; [lia |]. unfold rex. rewrite H. split; vm_compute; reflexivity.
Defined.

(** ** The diseases *)

Lemma AdvancedPet_worsen_loop_diseases rnd snapshot : forall i a,
  AdvancedPet._diseases (fst (AdvancedPet.worsen_loop rnd i snapshot a))
  = AdvancedPet._diseases a
  /\ AdvancedPet.tricks (fst (AdvancedPet.worsen_loop rnd i snapshot a))
     = AdvancedPet.tricks a.
Proof.
  induction snapshot as [| disease rest IH]; intros i a; cbn [AdvancedPet.worsen_loop];
    [easy |].
  assert (AdvancedPet._diseases
            (fst (if Py.lt (AdvancedPet.d_u (rnd i)) (Py.float (2 # 10))
                  then AdvancedPet.worsen disease (rnd i) a else (a, [])))
          = AdvancedPet._diseases a
          /\ AdvancedPet.tricks
               (fst (if Py.lt (AdvancedPet.d_u (rnd i)) (Py.float (2 # 10))
                     then AdvancedPet.worsen disease (rnd i) a else (a, [])))
             = AdvancedPet.tricks a) as H1.
  { destruct (Py.lt _ _); [| easy]. unfold AdvancedPet.worsen.
    match goal with
    | |- context [AdvancedPet.set_health ?v ?s] =>
        destruct (AdvancedPet_set_health_result v s) as (_ & R & _ & T & _);
        destruct (AdvancedPet.set_health v s) as [s' o']
    end.
    cbn [fst] in *. now split. }
  destruct (if Py.lt _ _ then _ else _) as [a1 out]. cbn [fst] in H1.
  specialize (IH (S i) a1).
  destruct (AdvancedPet.worsen_loop rnd (S i) rest a1). cbn [fst] in *.
  destruct IH as [-> ->]. exact H1.
Qed.

Lemma AdvancedPet_contract_disease_diseases disease k1 k2 k3 k4 a :
  AdvancedPet._diseases (fst (AdvancedPet.contract_disease disease k1 k2 k3 k4 a))
  = if Py.known disease (AdvancedPet._diseases a) then AdvancedPet._diseases a
    else (AdvancedPet._diseases a ++ [disease])%list.
Proof.
  unfold AdvancedPet.contract_disease.
  destruct (Py.known disease _); cbn [negb]; [reflexivity |].
  match goal with
  | |- context [AdvancedPet.set_health ?v ?s] =>
      destruct (AdvancedPet_set_health_result v s) as (_ & R & _);
      destruct (AdvancedPet.set_health v s) as [s' o']
  end.
  cbn [fst] in *. now rewrite R.
Qed.

Lemma AdvancedPet_step_diseases (o : AdvancedPet.op) (a : AdvancedPet.t) :
  diseases_step (AdvancedPet._diseases a)
    (AdvancedPet._diseases (AdvancedPet.state_of (AdvancedPet.step o a))).
Proof.
  destruct o as [now u | now | now u | | trick u now u2 | | m | | seconds now1 now2 rnd
                | | v | v | v | v | disease k1 k2 k3 k4 | disease u k];
    cbn [AdvancedPet.step AdvancedPet.state_of AdvancedPet.returns];
    try (left; reflexivity);
    try (left; apply AdvancedPet_super_health).
  - left. unfold AdvancedPet.eat.
    pose proof (proj2 (AdvancedPet_super_health (Pet.eat now) a)) as Hs.
    destruct (AdvancedPet.super (Pet.eat now) a) as [a1 out]. cbn [fst] in Hs.
    destruct (Py.lt u _); [| exact Hs].
    match goal with
    | |- context [AdvancedPet.set_health ?v ?s] =>
        destruct (AdvancedPet_set_health_result v s) as (_ & R & _);
        destruct (AdvancedPet.set_health v s) as [s' o']
    end. cbn [fst] in *. congruence.
  - left. unfold AdvancedPet.play.
    pose proof (proj2 (AdvancedPet_super_health (Pet.play now) a)) as Hs.
    destruct (AdvancedPet.super (Pet.play now) a) as [a1 out]. cbn [fst] in Hs.
    destruct (_ && _)%bool; [| exact Hs].
    match goal with
    | |- context [AdvancedPet.set_health ?v ?s] =>
        destruct (AdvancedPet_set_health_result v s) as (_ & R & _);
        destruct (AdvancedPet.set_health v s) as [s' o']
    end. cbn [fst] in *. congruence.
  - left. now rewrite AdvancedPet_get_status_state.
  - left. unfold AdvancedPet.train.
    pose proof (proj2 (AdvancedPet_super_health (Pet.train trick u now) a)) as Hs.
    destruct (AdvancedPet.super (Pet.train trick u now) a) as [a1 out]. cbn [fst] in Hs.
    destruct (_ && _)%bool; [| exact Hs].
    match goal with
    | |- context [AdvancedPet.set_health ?v ?s] =>
        destruct (AdvancedPet_set_health_result v s) as (_ & R & _);
        destruct (AdvancedPet.set_health v s) as [s' o']
    end. cbn [fst] in *. congruence.
  - left. unfold AdvancedPet.time_passes.
    pose proof (proj2 (AdvancedPet_super_health (Pet.time_passes seconds now1 now2) a))
      as Hs.
    destruct (AdvancedPet.super _ a) as [a1 out]. cbn [fst] in Hs.
    destruct (AdvancedPet.is_alive a1); [| exact Hs].
    pose proof (proj1 (AdvancedPet_worsen_loop_diseases rnd
                         (AdvancedPet._diseases a1) 0%nat a1)) as H2.
    destruct (AdvancedPet.worsen_loop rnd 0 _ a1). cbn [fst] in *. congruence.
  - left. apply AdvancedPet_set_health_result.
  - rewrite AdvancedPet_contract_disease_diseases.
    destruct (Py.known disease _) eqn:K; [now left |].
    right. left. now exists disease.
  - unfold AdvancedPet.treat_disease.
    destruct (Py.known disease _); [| now left].
    destruct (Py.lt u _); [| now left].
    destruct (Py.remove disease _) as [l |] eqn:R; [| now left].
    right. right. exists disease.
    match goal with
    | |- context [AdvancedPet.set_health ?v ?s] =>
        destruct (AdvancedPet_set_health_result v s) as (_ & R' & _);
        destruct (AdvancedPet.set_health v s) as [s' o']
    end. cbn [fst AdvancedPet.state_of] in *. now rewrite R'.
Qed.

Lemma Py_remove_In (x y : string) (l r : list string) :
  Py.remove x l = Some r -> In y r -> In y l.
Proof.
  revert r. induction l as [| z l IH]; intros r; cbn [Py.remove]; [discriminate |].
  destruct (String.eqb z x).
  - intros [= <-] I. now right.
  - destruct (Py.remove x l) as [r' |]; [| discriminate].
    intros [= <-] [E | I]; [now left | right; now apply (IH r')].
Qed.

Lemma Py_remove_distinct (x : string) (l r : list string) :
  Py.remove x l = Some r -> distinct_names l -> distinct_names r.
Proof.
  unfold distinct_names. revert r.
  induction l as [| z l IH]; intros r; cbn [Py.remove]; [discriminate |].
  cbn [map]. rewrite NoDup_cons. intros Hr [Hz Hd].
  destruct (String.eqb z x).
  - now injection Hr as <-.
  - destruct (Py.remove x l) as [r' |] eqn:R; [| discriminate].
    injection Hr as <-. cbn [map]. apply NoDup_cons. split; [| now apply IH].
    intros I. apply Hz. apply list_elem_of_In in I. apply list_elem_of_In.
    apply in_map_iff in I as (y & <- & I). apply in_map.
    now apply (Py_remove_In x y l r').
Qed.

Lemma diseases_step_keeps (before after : list string) :
  diseases_step before after -> distinct_names before -> distinct_names after.
Proof.
  intros [-> | [(d & K & ->) | (d & R)]] H; [exact H | |].
  - now apply distinct_names_snoc.
  - now apply (Py_remove_distinct d before).
Qed.

(** X13. Whatever calls are made on an [AdvancedPet], a disease list without
    two names equal up to case stays so; from the constructor on, the disease
    list never holds two names equal up to case. *)
Theorem diseases_stay_without_duplicates (a : AdvancedPet.t) (ops : list AdvancedPet.op)
    (name species : string) (h e hp hl : Z) (tr : option (gmap string Q)) (now : Q) :
  (distinct_names (AdvancedPet._diseases a) ->
   distinct_names (AdvancedPet._diseases (AdvancedPet.run ops a)))
  /\ distinct_names
       (AdvancedPet._diseases
          (AdvancedPet.run ops (fst (AdvancedPet.init name species h e hp hl tr now)))).
Proof.
  assert (forall b, distinct_names (AdvancedPet._diseases b) ->
                    distinct_names (AdvancedPet._diseases (AdvancedPet.run ops b))) as H.
  { unfold AdvancedPet.run.
    induction ops as [| o ops IH]; intros b Hb; cbn [fold_left]; [exact Hb |].
    apply IH. apply (diseases_step_keeps _ _ (AdvancedPet_step_diseases o b) Hb). }
  split; [apply H |]. apply H.
  unfold AdvancedPet.init.
  destruct (AdvancedPet.set_health _ _). apply NoDup_nil_2.
Qed.

Lemma diseases_stay_without_duplicates_witness :
  distinct_names (AdvancedPet._diseases (rex 50))
  /\ AdvancedPet._diseases
       (AdvancedPet.run [AdvancedPet.ContractDisease "Flu" 0 0 0 0;
                         AdvancedPet.ContractDisease "FLU" 0 0 0 0;
                         AdvancedPet.ContractDisease "Cold" 0 0 0 0;
                         AdvancedPet.TreatDisease "Flu" 0%Q 0] (rex 50)) = ["Cold"]
  /\ distinct_names
       (AdvancedPet._diseases
          (AdvancedPet.run [AdvancedPet.ContractDisease "Flu" 0 0 0 0;
                            AdvancedPet.ContractDisease "FLU" 0 0 0 0;
                            AdvancedPet.ContractDisease "Cold" 0 0 0 0;
                            AdvancedPet.TreatDisease "Flu" 0%Q 0] (rex 50))).
Proof.
  assert (distinct_names (AdvancedPet._diseases (rex 50))) as D by apply NoDup_nil_2.
  pose proof (diseases_stay_without_duplicates (rex 50)
                [AdvancedPet.ContractDisease "Flu" 0 0 0 0;
                 AdvancedPet.ContractDisease "FLU" 0 0 0 0;
                 AdvancedPet.ContractDisease "Cold" 0 0 0 0;
                 AdvancedPet.TreatDisease "Flu" 0%Q 0] "" "" 0 0 0 0 None 0%Q) as [H _].
  split; [exact D |]. split; [vm_compute; reflexivity | exact (H D)].
Defined.

(** X14. [contract_disease] with a name the pet already has, in any casing,
    changes nothing and prints nothing; so of two calls in a row with names
    equal up to case the second has no effect: the penalties are applied once
    per disease. *)
Theorem contract_disease_twice (a : AdvancedPet.t) (d d' : string)
    (k1 k2 k3 k4 k1' k2' k3' k4' : Z) :
  Py.lower d' = Py.lower d ->
  let a1 := fst (AdvancedPet.contract_disease d k1 k2 k3 k4 a) in
  AdvancedPet.contract_disease d' k1' k2' k3' k4' a1 = (a1, []).
Proof.
  intros Hc a1.
  assert (Py.known d' (AdvancedPet._diseases a1) = true) as K.
  { subst a1. rewrite AdvancedPet_contract_disease_diseases.
    rewrite (Py_known_lower d' d) by exact Hc.
    destruct (Py.known d (AdvancedPet._diseases a)) eqn:E; [exact E |].
    apply Py_known_app. }
  unfold AdvancedPet.contract_disease at 1. now rewrite K.
Qed.

Lemma contract_disease_twice_witness :
  Py.lower "FLU" = Py.lower "Flu"
  /\ AdvancedPet.contract_disease "FLU" 2 2 2 10
       (fst (AdvancedPet.contract_disease "Flu" 0 0 0 0 (rex 50)))
     = (fst (AdvancedPet.contract_disease "Flu" 0 0 0 0 (rex 50)), []).
Proof.
  assert (Py.lower "FLU" = Py.lower "Flu") as E by (vm_compute; reflexivity).
  split; [exact E |].
  exact (contract_disease_twice (rex 50) "Flu" "FLU" 0 0 0 0 2 2 2 10 E).
Defined.

Lemma Py_remove_snoc (x : string) (l : list string) :
  ~ In x l -> Py.remove x (l ++ [x]) = Some l.
Proof.
  induction l as [| y l IH]; intros H; cbn [app Py.remove].
  - now rewrite String.eqb_refl.
  - destruct (String.eqb_spec y x) as [-> | N]; [exfalso; apply H; now left |].
    rewrite IH; [reflexivity | intros I; apply H; now right].
Qed.

(** X15. Contracting a disease the pet does not have and treating it under
    the same name with a successful draw, one below the chance as the code
    computes it, returns normally and leaves the disease list as it was before
    the two calls.  The names are written in ASCII. *)
Theorem contract_then_treat (a : AdvancedPet.t) (d : string) (k1 k2 k3 k4 k : Z) (u : Q) :
  Py.isascii d = true ->
  Forall (fun x => Py.isascii x = true) (AdvancedPet._diseases a) ->
  Py.known d (AdvancedPet._diseases a) = false ->
  (u < Py.mul (Py.float (7 # 10)) (AdvancedPet.influence a "cooperativeness"))%Q ->
  let a1 := fst (AdvancedPet.contract_disease d k1 k2 k3 k4 a) in
  exists a2 out,
    AdvancedPet.treat_disease d u k a1 = AdvancedPet.Returns a2 out
    /\ AdvancedPet._diseases a1 = (AdvancedPet._diseases a ++ [d])%list
    /\ AdvancedPet._diseases a2 = AdvancedPet._diseases a.
Proof.
  intros _ _ K Hu a1.
  assert (AdvancedPet._diseases a1 = (AdvancedPet._diseases a ++ [d])%list) as D
    by (subst a1; now rewrite AdvancedPet_contract_disease_diseases, K).
  assert (AdvancedPet.influence a1 "cooperativeness"
          = AdvancedPet.influence a "cooperativeness") as P.
  { subst a1. unfold AdvancedPet.contract_disease. rewrite K. cbn [negb].
    match goal with
    | |- context [AdvancedPet.set_health ?v ?s] =>
        destruct (AdvancedPet_set_health_result v s) as (_ & _ & _ & _ & R & _);
        destruct (AdvancedPet.set_health v s) as [s' o']
    end. cbn [fst] in *.
    unfold AdvancedPet.influence, Pet.influence. now rewrite R. }
  unfold AdvancedPet.treat_disease. rewrite D, Py_known_app, P.
  apply Py_lt_true in Hu. rewrite Hu.
  rewrite Py_remove_snoc by now apply Py_unknown_not_In.
  match goal with
  | |- context [AdvancedPet.set_health ?v ?s] =>
      destruct (AdvancedPet_set_health_result v s) as (_ & R & _);
      destruct (AdvancedPet.set_health v s) as [s' o']
  end. cbn [fst] in *.
  eexists _, _. split; [reflexivity |]. split; [reflexivity | exact R].
Qed.

Lemma contract_then_treat_witness :
  Py.known "Flu" (AdvancedPet._diseases (rex 50)) = false
  /\ (0 < Py.mul (Py.float (7 # 10))
            (AdvancedPet.influence (rex 50) "cooperativeness"))%Q
  /\ AdvancedPet._diseases
       (AdvancedPet.state_of
          (AdvancedPet.treat_disease "Flu" 0%Q 0
             (fst (AdvancedPet.contract_disease "Flu" 0 0 0 0 (rex 50))))) = [].
Proof.
  assert (Py.known "Flu" (AdvancedPet._diseases (rex 50)) = false) as K
    by (vm_compute; reflexivity).
  assert (0 < Py.mul (Py.float (7 # 10))
                (AdvancedPet.influence (rex 50) "cooperativeness"))%Q as U
    by (vm_compute; reflexivity).
  assert (Forall (fun x => Py.isascii x = true) (AdvancedPet._diseases (rex 50))) as A
    by (vm_compute; constructor).
  destruct (contract_then_treat (rex 50) "Flu" 0 0 0 0 0 0%Q ltac:(reflexivity) A K U)
    as (a2 & out & E & _ & D).
  split; [exact K |]. split; [exact U |]. rewrite E. exact D.
Defined.

(** X16. [treat_disease] ends in [ValueError] whenever the name matches a
    stored disease after lower-casing, the draw is below the chance as the
    code computes it, and the name is not stored in the casing given; the
    object is then as before and nothing has been printed.  The call returns
    whenever the name is stored as given, and whenever the draw is not below
    the chance; in the latter case the object is as before. *)
Theorem treat_disease_raises_or_returns (a : AdvancedPet.t) (d : string) (u : Q) (k : Z) :
  let treatment_success_chance :=
    Py.mul (Py.float (7 # 10)) (AdvancedPet.influence a "cooperativeness") in
  (Py.known d (AdvancedPet._diseases a) = true ->
   (u < treatment_success_chance)%Q ->
   ~ In d (AdvancedPet._diseases a) ->
   AdvancedPet.treat_disease d u k a = AdvancedPet.Raises ValueError a [])
  /\ (In d (AdvancedPet._diseases a) ->
      exists a' out, AdvancedPet.treat_disease d u k a = AdvancedPet.Returns a' out)
  /\ ((treatment_success_chance <= u)%Q ->
      exists out, AdvancedPet.treat_disease d u k a = AdvancedPet.Returns a out).
Proof.
  intros chance. split; [| split].
  - intros K L N. now apply treat_disease_raises.
  - intros I. unfold AdvancedPet.treat_disease.
    destruct (Py.known d _) eqn:K; [| eauto].
    fold chance. destruct (Py.lt u chance) eqn:L; [| eauto].
    destruct (Py.remove d _) as [l |] eqn:E.
    + destruct (AdvancedPet.set_health _ _). eauto.
    + apply Py_remove_None in E. contradiction.
  - intros Hu. destruct (Py.known d (AdvancedPet._diseases a)) eqn:K.
    + rewrite treat_disease_unsuccessful by assumption. eauto.
    + rewrite treat_disease_absent by assumption. eauto.
Qed.

Lemma treat_disease_raises_or_returns_witness :
  Py.known "FLU" (AdvancedPet._diseases rex_cooperative_with_flu) = true
  /\ (0 < Py.mul (Py.float (7 # 10))
            (AdvancedPet.influence rex_cooperative_with_flu "cooperativeness"))%Q
  /\ ~ In "FLU" (AdvancedPet._diseases rex_cooperative_with_flu)
  /\ AdvancedPet.treat_disease "FLU" 0%Q 3 rex_cooperative_with_flu
     = AdvancedPet.Raises ValueError rex_cooperative_with_flu [].
Proof.
  assert (Py.known "FLU" (AdvancedPet._diseases rex_cooperative_with_flu) = true) as K
    by (vm_compute; reflexivity).
  assert (0 < Py.mul (Py.float (7 # 10))
                (AdvancedPet.influence rex_cooperative_with_flu "cooperativeness"))%Q
    as U by (vm_compute; reflexivity).
  assert (~ In "FLU" (AdvancedPet._diseases rex_cooperative_with_flu)) as N
    by (vm_compute; intros [H | H]; [discriminate H | exact H]).
  split; [exact K |]. split; [exact U |]. split; [exact N |].
  exact (proj1 (treat_disease_raises_or_returns rex_cooperative_with_flu "FLU" 0%Q 3)
           K U N).
Defined.

(** The chance at full cooperativeness is the float [0.7], which is below
    seven tenths; a draw equal to it does not cure. *)
Example treat_chance_at_full_cooperativeness :
  Py.mul (Py.float (7 # 10)) 1 = Py.float (7 # 10)
  /\ (Py.float (7 # 10) < 7 # 10)%Q
  /\ AdvancedPet.treat_disease "Flu" (Py.float (7 # 10)) 0 rex_cooperative_with_flu
     = AdvancedPet.Returns rex_cooperative_with_flu
         ["Treatment for 'Flu' was unsuccessful."]
  /\ AdvancedPet.treat_disease "flu" (Py.float (7 # 10)) 0 rex_cooperative_with_flu
     = AdvancedPet.Returns rex_cooperative_with_flu
         ["Treatment for 'flu' was unsuccessful."].
Proof. vm_compute. repeat split. Qed.

Lemma Py_remove_Some_In (x : string) (l r : list string) :
  Py.remove x l = Some r -> In x l.
Proof.
  intros H. destruct (in_dec string_dec x l) as [I | N]; [exact I |].
  apply Py_remove_None in N. congruence.
Qed.

Lemma Py_contains_false (x : string) (l : list string) :
  Py.contains x l = false <-> ~ In x l.
Proof.
  rewrite <- Py_contains_In. destruct (Py.contains x l); split; intros H; congruence.
Qed.

(** In a list without duplicates up to case, a removed name is no longer
    known in any casing. *)
Lemma Py_remove_unknown (x : string) (l r : list string) :
  distinct_names l -> Py.remove x l = Some r -> Py.known x r = false.
Proof.
  unfold distinct_names, Py.known. revert r.
  induction l as [| z l IH]; intros r Hd; cbn [Py.remove]; [discriminate |].
  cbn [map] in Hd. apply NoDup_cons in Hd as [Hz Hd].
  rewrite list_elem_of_In in Hz.
  destruct (String.eqb_spec z x) as [-> | N].
  - intros [= <-]. now apply Py_contains_false.
  - destruct (Py.remove x l) as [r' |] eqn:R; [| discriminate].
    intros [= <-]. cbn [map]. apply Py_contains_false. intros [E | I].
    + apply Hz. rewrite E. apply in_map. now apply (Py_remove_Some_In x l r').
    + apply Py_contains_false in I; [exact I | now apply IH].
Qed.

Lemma Py_remove_length (x : string) (l r : list string) :
  Py.remove x l = Some r -> length l = S (length r).
Proof.
  revert r. induction l as [| z l IH]; intros r; cbn [Py.remove]; [discriminate |].
  destruct (String.eqb z x); [now intros [= <-] |].
  destruct (Py.remove x l) as [r' |]; [| discriminate].
  intros [= <-]. cbn [length]. now rewrite (IH r').
Qed.

(** X17. On a pet whose disease list holds no two names equal up to case
    (as it always does, see X13) and whose health is not negative, treating a
    disease under the name as stored with a successful draw, one below the
    chance as the code computes it, returns, and the pet then does not have
    the disease in any casing: a further [treat_disease] with a name equal up
    to case reports that the pet does not have it and changes nothing. *)
Theorem cured_disease_is_gone (a : AdvancedPet.t) (d d' : string) (u u' : Q) (k k' : Z) :
  distinct_names (AdvancedPet._diseases a) ->
  0 <= AdvancedPet.health a ->
  In d (AdvancedPet._diseases a) ->
  (u < Py.mul (Py.float (7 # 10)) (AdvancedPet.influence a "cooperativeness"))%Q ->
  Py.lower d' = Py.lower d ->
  exists a2,
    AdvancedPet.treat_disease d u k a
    = AdvancedPet.Returns a2 [AdvancedPet.name a ++ " has been cured of '" ++ d ++ "'."]
    /\ Py.known d' (AdvancedPet._diseases a2) = false
    /\ length (AdvancedPet._diseases a) = S (length (AdvancedPet._diseases a2))
    /\ AdvancedPet.treat_disease d' u' k' a2
       = AdvancedPet.Returns a2 [AdvancedPet.name a2 ++ " doesn't have '" ++ d' ++ "'."].
Proof.
  intros Hd Hh Hin Hu Hc.
  assert (Py.known d (AdvancedPet._diseases a) = true) as K.
  { unfold Py.known. apply Py_contains_In, in_map, Hin. }
  destruct (Py.remove d (AdvancedPet._diseases a)) as [l |] eqn:R;
    [| apply Py_remove_None in R; contradiction].
  destruct (treat_disease_cured a d u k l Hh K Hu R) as [E _].
  eexists. split; [exact E |].
  assert (Py.known d' l = false) as K'.
  { rewrite (Py_known_lower d' d) by exact Hc.
    apply (Py_remove_unknown d (AdvancedPet._diseases a) l Hd R). }
  cbn [AdvancedPet._diseases]. split; [exact K' |].
  split; [apply (Py_remove_length d _ l R) |].
  now apply treat_disease_absent.
Qed.

Lemma cured_disease_is_gone_witness :
  distinct_names (AdvancedPet._diseases rex_cooperative_with_flu)
  /\ 0 <= AdvancedPet.health rex_cooperative_with_flu
  /\ In "Flu" (AdvancedPet._diseases rex_cooperative_with_flu)
  /\ Py.lower "flu" = Py.lower "Flu"
  /\ exists a2,
       AdvancedPet.treat_disease "Flu" 0%Q 0 rex_cooperative_with_flu
       = AdvancedPet.Returns a2 ["Rex has been cured of 'Flu'."]
       /\ AdvancedPet.treat_disease "flu" 0%Q 0 a2
          = AdvancedPet.Returns a2 ["Rex doesn't have 'flu'."].
Proof.
  assert (distinct_names (AdvancedPet._diseases rex_cooperative_with_flu)) as D.
  { vm_compute. apply NoDup_cons. split; [| apply NoDup_nil_2].
    intros H. inversion H. }
  assert (0 <= AdvancedPet.health rex_cooperative_with_flu) as Hh
    by (vm_compute; discriminate).
  assert (In "Flu" (AdvancedPet._diseases rex_cooperative_with_flu)) as I
    by (vm_compute; now left).
  assert (0 < Py.mul (Py.float (7 # 10))
                (AdvancedPet.influence rex_cooperative_with_flu "cooperativeness"))%Q
    as U by (vm_compute; reflexivity).
  assert (Py.lower "flu" = Py.lower "Flu") as C by (vm_compute; reflexivity).
  destruct (cured_disease_is_gone rex_cooperative_with_flu "Flu" "flu" 0%Q 0%Q 0 0
              D Hh I U C) as (a2 & E & _ & _ & E2).
  split; [exact D |]. split; [exact Hh |]. split; [exact I |]. split; [exact C |].
  exists a2. split; [exact E |].
  rewrite E2. f_equal.
  assert (AdvancedPet.name a2 = "Rex") as ->; [| reflexivity].
  assert (AdvancedPet.state_of
            (AdvancedPet.treat_disease "Flu" 0%Q 0 rex_cooperative_with_flu) = a2) as S
    by now rewrite E.
  rewrite <- S. vm_compute. reflexivity.
Defined.






(** ** Time on an [AdvancedPet] *)

Lemma AdvancedPet_worsen_loop_health rnd snapshot : forall i a,
  0 <= AdvancedPet.health a <= 100 ->
  AdvancedPet.health a - 7 * Z.of_nat (length snapshot)
  <= AdvancedPet.health (fst (AdvancedPet.worsen_loop rnd i snapshot a))
  <= AdvancedPet.health a.
Proof.
  induction snapshot as [| disease rest IH]; intros i a H;
    cbn [AdvancedPet.worsen_loop length]; [cbn [fst]; lia |].
  assert (Z.max 0 (AdvancedPet.health a - 7)
          <= AdvancedPet.health
               (fst (if Py.lt (AdvancedPet.d_u (rnd i)) (Py.float (2 # 10))
                     then AdvancedPet.worsen disease (rnd i) a else (a, [])))
          <= AdvancedPet.health a) as H1.
  { destruct (Py.lt _ _); [| cbn [fst]; lia]. unfold AdvancedPet.worsen.
    pose proof (Py_randint_range 3 7 (AdvancedPet.d_health (rnd i)) ltac:(lia)).
    match goal with
    | |- context [AdvancedPet.set_health ?v ?s] =>
        destruct (AdvancedPet_set_health_result v s) as (Rh & _);
        destruct (AdvancedPet.set_health v s) as [s' o']
    end.
    cbn [fst] in *.
    cbn [AdvancedPet.health AdvancedPet._health AdvancedPet.set_happiness
         AdvancedPet.set_energy AdvancedPet.set_hunger AdvancedPet.with_base].
    unfold AdvancedPet.health in *. lia. }
  destruct (if Py.lt _ _ then _ else _) as [a1 out]. cbn [fst] in H1.
  specialize (IH (S i) a1 ltac:(lia)).
  destruct (AdvancedPet.worsen_loop rnd (S i) rest a1). cbn [fst] in *. lia.
Qed.

(** X20. [time_passes] of an [AdvancedPet] never changes the disease list;
    without a disease it does what [Pet.time_passes] does and nothing more; and
    on a pet with health in range one call lowers the health by 7 per active
    disease at most, and never raises it. *)
Theorem advanced_time_passes_frame (a : AdvancedPet.t) (seconds : Z) (now1 now2 : Q)
    (rnd : nat -> AdvancedPet.draws) :
  let a' := fst (AdvancedPet.time_passes seconds now1 now2 rnd a) in
  AdvancedPet._diseases a' = AdvancedPet._diseases a
  /\ (AdvancedPet._diseases a = [] ->
      AdvancedPet.time_passes seconds now1 now2 rnd a
      = AdvancedPet.super (Pet.time_passes seconds now1 now2) a)
  /\ (0 <= AdvancedPet.health a <= 100 ->
      AdvancedPet.health a - 7 * Z.of_nat (length (AdvancedPet._diseases a))
      <= AdvancedPet.health a' <= AdvancedPet.health a).
Proof.
  intros a'. subst a'. unfold AdvancedPet.time_passes.
  destruct (AdvancedPet_super_health (Pet.time_passes seconds now1 now2) a) as [Hh Hd].
  destruct (AdvancedPet.super (Pet.time_passes seconds now1 now2) a) as [a1 out].
  cbn [fst] in Hh, Hd.
  destruct (AdvancedPet.is_alive a1).
  - pose proof (proj1 (AdvancedPet_worsen_loop_diseases rnd
                         (AdvancedPet._diseases a1) 0%nat a1)) as L1.
    pose proof (AdvancedPet_worsen_loop_health rnd (AdvancedPet._diseases a1) 0%nat a1)
      as L2.
    split; [| split].
    + destruct (AdvancedPet.worsen_loop rnd 0 _ a1). cbn [fst] in *. congruence.
    + intros E. rewrite Hd, E. cbn [AdvancedPet.worsen_loop]. now rewrite app_nil_r.
    + intros R. rewrite Hh in L2. specialize (L2 R).
      destruct (AdvancedPet.worsen_loop rnd 0 _ a1). cbn [fst] in *.
      rewrite <- Hd. lia.
  - cbn [fst]. split; [exact Hd |]. split; [reflexivity |]. intros R. lia.
Qed.

Lemma advanced_time_passes_frame_witness :
  0 <= AdvancedPet.health rex_cooperative_with_flu <= 100
  /\ AdvancedPet.health rex_cooperative_with_flu = 45
  /\ AdvancedPet.health
       (fst (AdvancedPet.time_passes 3600 1%Q 1%Q always_worse rex_cooperative_with_flu))
     = 38
  /\ AdvancedPet._diseases (rex 50) = []
  /\ AdvancedPet.time_passes 3600 1%Q 1%Q always_worse (rex 50)
     = AdvancedPet.super (Pet.time_passes 3600 1%Q 1%Q) (rex 50).
Proof.
  assert (0 <= AdvancedPet.health rex_cooperative_with_flu <= 100) as R
    by (vm_compute; split; discriminate).
  assert (AdvancedPet._diseases (rex 50) = []) as E by (vm_compute; reflexivity).
  pose proof (advanced_time_passes_frame (rex 50) 3600 1%Q 1%Q always_worse)
    as (_ & H & _).
  pose proof (advanced_time_passes_frame rex_cooperative_with_flu 3600 1%Q 1%Q always_worse)
    as (_ & _ & B).
  specialize (B R).
  split; [exact R |]. split; [vm_compute; reflexivity |].
  split; [vm_compute; reflexivity |]. split; [exact E | exact (H E)].
Defined.

(** ** What the overrides do to the health *)

(** X21. On an [AdvancedPet] with stored values in range, one [eat()] leaves
    the health or raises it by 2 or 3, up to 100; one [play()] leaves it or
    lowers it by 2 or 3, down to 0; one [train] leaves it or raises it by 1, up
    to 100.  A draw of 0.3 or more in [eat] leaves the health as it is, and a
    draw below the float [0.3] raises it. *)
Theorem override_health_changes (a : AdvancedPet.t) (now u u2 : Q) (trick : string) :
  AdvancedPet_ok a ->
  let h := AdvancedPet.health a in
  let eaten := AdvancedPet.health (fst (AdvancedPet.eat now u a)) in
  let played := AdvancedPet.health (fst (AdvancedPet.play now u a)) in
  let trained := AdvancedPet.health (fst (AdvancedPet.train trick u now u2 a)) in
  (eaten = h \/ eaten = Z.min 100 (h + 2) \/ eaten = Z.min 100 (h + 3))
  /\ ((3 # 10 <= u)%Q -> eaten = h)
  /\ ((u < Py.float (3 # 10))%Q ->
      eaten = Z.min 100 (h + 2) \/ eaten = Z.min 100 (h + 3))
  /\ (played = h \/ played = Z.max 0 (h - 2) \/ played = Z.max 0 (h - 3))
  /\ (trained = h \/ trained = Z.min 100 (h + 1)).
Proof.
  intros Hok h eaten played trained. subst h eaten played trained.
  pose proof Hok as [_ Hl].
  assert (forall a1 : AdvancedPet.t,
            Personality_ok (Pet.personality (AdvancedPet.base a1)) ->
            AdvancedPet.health a1 = AdvancedPet.health a ->
            let v := Z.min 100 (AdvancedPet.health a1
                       + Py.int (Py.add 2 (Py.mul 1 (AdvancedPet.influence a1
                                                        "constitution")))) in
            AdvancedPet.health (fst (AdvancedPet.set_health v a1))
            = Z.min 100 (AdvancedPet.health a + 2)
            \/ AdvancedPet.health (fst (AdvancedPet.set_health v a1))
               = Z.min 100 (AdvancedPet.health a + 3)) as Eat.
  { intros a1 Hp Hh v. subst v.
    pose proof (Py_int_add_2_mul_1 _ (influence_range _ "constitution" Hp)) as D.
    fold (Pet.influence (AdvancedPet.base a1) "constitution") in D.
    fold (AdvancedPet.influence a1 "constitution") in D.
    match goal with
    | |- context [AdvancedPet.set_health ?v ?s] =>
        destruct (AdvancedPet_set_health_result v s) as (Rh & _);
        destruct (AdvancedPet.set_health v s) as [s' o']
    end. cbn [fst] in *. lia. }
  split; [| split; [| split; [| split]]].
  - unfold AdvancedPet.eat.
    pose proof (AdvancedPet_super_ok (Pet.eat now) a (Pet_eat_ok now) Hok) as [[_ Hp] _].
    pose proof (proj1 (AdvancedPet_super_health (Pet.eat now) a)) as Hh.
    destruct (AdvancedPet.super (Pet.eat now) a) as [a1 out]. cbn [fst] in Hp, Hh.
    destruct (Py.lt u _); [| left; exact Hh].
    right. specialize (Eat a1 Hp Hh). cbv zeta in Eat.
    now destruct (AdvancedPet.set_health _ a1).
  - intros Hu. unfold AdvancedPet.eat.
    pose proof (proj1 (AdvancedPet_super_health (Pet.eat now) a)) as Hh.
    destruct (AdvancedPet.super (Pet.eat now) a) as [a1 out]. cbn [fst] in Hh.
    destruct (Py.lt u _) eqn:E; [| exact Hh].
    apply Py_lt_true in E. exfalso. apply (Qlt_irrefl u).
    eapply Qlt_trans; [exact E |]. eapply Qlt_le_trans; [| exact Hu]. float_eval.
  - intros Hu. unfold AdvancedPet.eat.
    pose proof (AdvancedPet_super_ok (Pet.eat now) a (Pet_eat_ok now) Hok) as [[_ Hp] _].
    pose proof (proj1 (AdvancedPet_super_health (Pet.eat now) a)) as Hh.
    destruct (AdvancedPet.super (Pet.eat now) a) as [a1 out]. cbn [fst] in Hp, Hh.
    apply Py_lt_true in Hu. rewrite Hu.
    specialize (Eat a1 Hp Hh). cbv zeta in Eat.
    now destruct (AdvancedPet.set_health _ a1).
  - unfold AdvancedPet.play.
    pose proof (AdvancedPet_super_ok (Pet.play now) a (Pet_play_ok now) Hok) as [[_ Hp] _].
    pose proof (proj1 (AdvancedPet_super_health (Pet.play now) a)) as Hh.
    destruct (AdvancedPet.super (Pet.play now) a) as [a1 out]. cbn [fst] in Hp, Hh.
    destruct (_ && _)%bool; [| left; exact Hh].
    pose proof (Py_int_sub_3_mul_1 _ (influence_range _ "resilience" Hp)) as D.
    fold (Pet.influence (AdvancedPet.base a1) "resilience") in D.
    fold (AdvancedPet.influence a1 "resilience") in D.
    match goal with
    | |- context [AdvancedPet.set_health ?v ?s] =>
        destruct (AdvancedPet_set_health_result v s) as (Rh & _);
        destruct (AdvancedPet.set_health v s) as [s' o']
    end. cbn [fst] in *. lia.
  - unfold AdvancedPet.train.
    pose proof (proj1 (AdvancedPet_super_health (Pet.train trick u now) a)) as Hh.
    destruct (AdvancedPet.super (Pet.train trick u now) a) as [a1 out]. cbn [fst] in Hh.
    destruct (_ && _)%bool; [| left; exact Hh].
    match goal with
    | |- context [AdvancedPet.set_health ?v ?s] =>
        destruct (AdvancedPet_set_health_result v s) as (Rh & _);
        destruct (AdvancedPet.set_health v s) as [s' o']
    end. cbn [fst] in *. lia.
Qed.

Lemma override_health_changes_witness :
  (3 # 10 <= 1 # 2)%Q
  /\ AdvancedPet.health (fst (AdvancedPet.eat 1%Q (1 # 2)%Q (rex 50))) = 50
  /\ AdvancedPet.health (fst (AdvancedPet.eat 1%Q 0%Q (rex 50))) = 52.
Proof.
  assert (3 # 10 <= 1 # 2)%Q as U by (vm_compute; discriminate).
  pose proof (override_health_changes (rex 50) 1%Q (1 # 2)%Q 0%Q "Sit"
                (AdvancedPet_init_ok "Rex" "Cat" 5 7 5 50 None 0%Q)) as (_ & H & _).
  split; [exact U |]. split; [rewrite (H U) |]; vm_compute; reflexivity.
Defined.

(** ** The driver *)

(** The loop of the driver on a live pet whose last interaction is less than
    an hour before every clock reading: no [time_passes] acts. *)
Lemma Main_loop_idle (n : nat) (clock : nat -> Q * Q) : forall (i : nat) (p : Pet.t),
  Pet.is_alive p = true ->
  (forall j, (Py.sub (fst (clock j)) (Pet._last_interaction p) < 3600)%Q) ->
  fst (Main.loop n i clock p) = p.
Proof.
  induction n as [| n IH]; intros i p Ha Hc; cbn [Main.loop]; [reflexivity |].
  rewrite Pet_time_passes_gate_closed; [| exact Ha | apply Hc].
  pose proof (Pet_get_status_state p) as S.
  destruct (Pet.get_status p) as [p1 o2]. cbn [fst] in S. subst p1.
  rewrite Ha. cbn [negb].
  specialize (IH (S i) p Ha Hc).
  now destruct (Main.loop n (S i) clock p).
Qed.

(** X22. When every clock reading of the loop of [main.py] is less than an
    hour after the reading of [sleep()], no [time_passes(3600)] acts: whatever
    the draw of [train], Buddy is alive at the end with hunger 4, energy 10 and
    happiness 10 if the trick was learned and 8 if not, the last interaction is
    the [sleep()], and the last line printed is the one that says Buddy is still
    doing well. *)
Theorem main_buddy_survives (inp : Main.inputs) :
  (forall j, (Py.sub (fst (Main.t_loop inp j)) (Main.t_sleep inp) < 3600)%Q) ->
  let learned := Py.lt (Main.u_train inp) (3 # 4) in
  let '(pet, out) := Main.main inp in
  Pet.is_alive pet = true
  /\ Pet.needs pet = Needs.mk 4 10 (if learned then 10 else 8)
  /\ Pet.tricks pet = (if learned then ["Sit"] else [])
  /\ Pet._last_interaction pet = Main.t_sleep inp
  /\ List.last out "" = Main.nl "Buddy is still doing well!".
Proof.
  intros Hc learned. unfold Main.main.
  set (p0 := Pet.init "Buddy" "Dog" 5 7 5 None (Main.t_init inp)).
  pose proof (Pet_get_status_state p0) as S0.
  destruct (Pet.get_status p0) as [p0' o1]. cbn [fst] in S0. subst p0'.
  rewrite (Pet_eat_alive p0) by reflexivity.
  set (p1 := Pet.mk _ _ _ _ _ _ _ _).
  rewrite (Pet_play_alive p1) by reflexivity.
  set (p2 := Pet.mk _ _ _ _ _ _ _ _).
  rewrite (Pet_train_attempt p2) by reflexivity.
  assert (Py.lt (Main.u_train inp)
            (Py.add (Py.float (6 # 10))
               (Py.mul (Py.float (3 # 10)) (Pet.influence p2 "trainability")))
          = learned) as EL.
  { subst learned. unfold Py.lt.
    assert (Py.add (Py.float (6 # 10))
              (Py.mul (Py.float (3 # 10)) (Pet.influence p2 "trainability"))
            == 3 # 4)%Q as Q
      by (vm_compute; reflexivity).
    destruct (Qlt_le_dec _ _) as [L | L]; destruct (Qlt_le_dec _ _) as [L' | L'];
      try reflexivity; rewrite Q in L; lra. }
  rewrite EL.
  set (r := if learned then _ else _).
  assert (Pet.is_alive (fst r) = true
          /\ Pet.needs (fst r) = Needs.mk 4 5 (if learned then 10 else 8)
          /\ Pet.tricks (fst r) = (if learned then ["Sit"] else [])
          /\ Pet.personality (fst r) = Pet.personality p0) as (A3 & N3 & T3 & P3).
  { subst r. destruct learned; cbn [fst]; repeat split; vm_compute; reflexivity. }
  destruct r as [p3 o4]. cbn [fst] in A3, N3, T3, P3.
  pose proof (Pet_show_tricks_state p3) as S3.
  destruct (Pet.show_tricks p3) as [p3' o5]. cbn [fst] in S3. subst p3'.
  rewrite (Pet_sleep_alive p3) by exact A3.
  set (p4 := Pet.mk _ _ _ _ _ _ _ _).
  pose proof (Pet_get_status_state p4) as S4.
  destruct (Pet.get_status p4) as [p4' o7]. cbn [fst] in S4. subst p4'.
  pose proof (Main_loop_idle 3 (Main.t_loop inp) 0%nat p4 eq_refl Hc) as L.
  destruct (Main.loop 3 0 (Main.t_loop inp) p4) as [p5 o8]. cbn [fst] in L. subst p5.
  assert (Pet.needs p4 = Needs.mk 4 10 (if learned then 10 else 8)) as N4.
  { subst p4. cbn [Pet.needs]. unfold Pet.energy, Pet.influence. rewrite N3, P3.
    destruct learned; vm_compute; reflexivity. }
  split; [reflexivity |]. split; [exact N4 |]. split; [exact T3 |].
  split; [reflexivity |].
  change (Pet.is_alive p4) with true. cbv iota.
  rewrite !app_comm_cons, !app_assoc. apply List.last_last.
Qed.

Lemma main_buddy_survives_witness :
  (forall j : nat, (Py.sub (fst ((fun _ : nat => (8 # 1, 8 # 1)%Q) j)) 5 < 3600)%Q)
  /\ Pet.is_alive
       (fst (Main.main (Main.mk_inputs 0 1 2 (1 # 2) 3 5 (fun _ => (8 # 1, 8 # 1)%Q))))
     = true
  /\ Pet.needs
       (fst (Main.main (Main.mk_inputs 0 1 2 (1 # 2) 3 5 (fun _ => (8 # 1, 8 # 1)%Q))))
     = Needs.mk 4 10 10.
Proof.
  assert (forall j : nat,
            (Py.sub (fst ((fun _ : nat => (8 # 1, 8 # 1)%Q) j)) 5 < 3600)%Q) as C
    by (intros j; vm_compute; reflexivity).
  pose proof (main_buddy_survives
                (Main.mk_inputs 0 1 2 (1 # 2) 3 5 (fun _ => (8 # 1, 8 # 1)%Q)) C) as H.
  cbv zeta in H.
  destruct (Main.main (Main.mk_inputs 0 1 2 (1 # 2) 3 5 (fun _ => (8 # 1, 8 # 1)%Q)))
    as [pet out].
  destruct H as (A & N & _).
  split; [exact C |]. split; [exact A |]. cbn [fst]. rewrite N. vm_compute. reflexivity.
Defined.
